(** * Finance2: statement classification and aggregation pipeline

    A shallow embedding of [main.py]: [processar_extratos_bi],
    [criar_categorias_automaticas], [criar_dashboard_html_bi],
    [exportar_resumos_excel_bi] and the driver.  [app.py] holds a copy of the
    same four functions behind its web routes; the copy differs only in that
    [processar_extratos_bi] re-raises whatever its body raises as a plain
    [Exception] with the message prefixed, and in that the driver,
    [gerar_dashboard], returns a success flag.

    Modelling conventions.
    - A Python [str] is a Rocq [string] holding its UTF-8 bytes.  Substring
      search on valid UTF-8 coincides with substring search on code points.
    - [str.lower] and [str.upper] are exact on U+0000..U+00FF (Basic Latin and
      Latin-1 Supplement); other code points are left unchanged.
    - [str.strip] removes the white space of [str.isspace] at both ends.
    - A spreadsheet amount is an exact number of centavos ([Z]) or the
      missing value [NaN]; comparisons with [NaN] are false, sums skip it.
      The program holds the amount as a binary64 number of reais and its
      sums are rounded.  Whatever compares sums made along different orders
      of addition is therefore stated over an arbitrary addition
      ([soma_em], with the exact amounts and the binary64 numbers as
      instances); the other statements say which rows a sum covers and how
      results are ordered, whatever the arithmetic.
    - The order in which the library's default sort leaves equal sums is
      not specified: it is a parameter, [desempate], and every statement
      holds for all its values.
    - [Erro ForaDoModelo] is not an exception of the program: it marks a
      table the model does not cover (a payee cell holding a number or a
      date), and nothing is stated about such a run. *)

From Stdlib Require Import ZArith List Bool String Ascii Lia Permutation Sorted.
From Stdlib Require Import Uint63 Floats.
Import ListNotations.
Local Open Scope string_scope.
Local Open Scope Z_scope.

(** ** Python strings *)

Definition cod (c : ascii) : N := N_of_ascii c.
Definition car (n : N) : ascii := ascii_of_N n.

Definition entre (lo hi : N) (c : ascii) : bool :=
  (N.leb lo (cod c) && N.leb (cod c) hi)%bool.

Definition lower_ascii (c : ascii) : ascii :=
  if entre 65 90 c then car (cod c + 32) else c.

Definition upper_ascii (c : ascii) : ascii :=
  if entre 97 122 c then car (cod c - 32) else c.

(** [str.lower]: A-Z, and the two-byte sequences C3 80..C3 9E (À..Þ) except
    C3 97 (the multiplication sign). *)
Fixpoint lower (s : string) : string :=
  match s with
  | EmptyString => EmptyString
  | String a s' =>
      match s' with
      | String b r =>
          if N.eqb (cod a) 195 then
            if (entre 128 158 b && negb (N.eqb (cod b) 151))%bool
            then String a (String (car (cod b + 32)) (lower r))
            else String a (String b (lower r))
          else String (lower_ascii a) (lower s')
      | EmptyString => String (lower_ascii a) EmptyString
      end
  end.

(** [str.upper]: a-z; C3 A0..C3 BE (à..þ) except C3 B7 (the division sign);
    ß gives SS, ÿ gives U+0178 and the micro sign gives U+039C. *)
Fixpoint upper (s : string) : string :=
  match s with
  | EmptyString => EmptyString
  | String a s' =>
      match s' with
      | String b r =>
          if N.eqb (cod a) 195 then
            if (entre 160 190 b && negb (N.eqb (cod b) 183))%bool
            then String a (String (car (cod b - 32)) (upper r))
            else if N.eqb (cod b) 159 then String "S" (String "S" (upper r))
            else if N.eqb (cod b) 191
            then String (car 197) (String (car 184) (upper r))
            else String a (String b (upper r))
          else if (N.eqb (cod a) 194 && N.eqb (cod b) 181)%bool
          then String (car 206) (String (car 156) (upper r))
          else String (upper_ascii a) (upper s')
      | EmptyString => String (upper_ascii a) EmptyString
      end
  end.

(** The white space of [str.isspace] and [str.strip]: U+0009..U+000D,
    U+001C..U+0020, and, as UTF-8 sequences, U+0085 and U+00A0 (C2 85,
    C2 A0), U+1680 (E1 9A 80), U+2000..U+200A, U+2028, U+2029 and U+202F
    (E2 80 80..8A, A8, A9, AF), U+205F (E2 81 9F) and U+3000 (E3 80 80). *)
Definition espaco (c : ascii) : bool :=
  (entre 9 13 c || entre 28 32 c)%bool.

Definition espaco2 (a b : ascii) : bool :=
  (N.eqb (cod a) 194 && (N.eqb (cod b) 133 || N.eqb (cod b) 160))%bool.

Definition espaco3 (a b c : ascii) : bool :=
  ((N.eqb (cod a) 225 && N.eqb (cod b) 154 && N.eqb (cod c) 128)
   || (N.eqb (cod a) 226 && N.eqb (cod b) 128
       && (entre 128 138 c || entre 168 169 c || N.eqb (cod c) 175))
   || (N.eqb (cod a) 226 && N.eqb (cod b) 129 && N.eqb (cod c) 159)
   || (N.eqb (cod a) 227 && N.eqb (cod b) 128 && N.eqb (cod c) 128))%bool.

(** [str.lstrip]; with [avesso] the bytes of [s] come last byte first, as
    they do when the end of a text is stripped. *)
Fixpoint lstrip (avesso : bool) (s : string) : string :=
  match s with
  | String a r =>
      if espaco a then lstrip avesso r
      else
        match r with
        | String b r2 =>
            if (if avesso then espaco2 b a else espaco2 a b)
            then lstrip avesso r2
            else
              match r2 with
              | String c r3 =>
                  if (if avesso then espaco3 c b a else espaco3 a b c)
                  then lstrip avesso r3
                  else s
              | EmptyString => s
              end
        | EmptyString => s
        end
  | EmptyString => EmptyString
  end.

Fixpoint inverter (s acc : string) : string :=
  match s with
  | EmptyString => acc
  | String c r => inverter r (String c acc)
  end.

Definition strip (s : string) : string :=
  inverter (lstrip true (inverter (lstrip false s) EmptyString)) EmptyString.

Fixpoint prefixo (p s : string) : bool :=
  match p, s with
  | EmptyString, _ => true
  | String a p', String b s' => (Ascii.eqb a b && prefixo p' s')%bool
  | String _ _, EmptyString => false
  end.

(** [contem p s] is Python's [p in s]. *)
Fixpoint contem (p s : string) : bool :=
  match s with
  | EmptyString => prefixo p EmptyString
  | String _ r => (prefixo p s || contem p r)%bool
  end.

(** [str(x)] for a cell that is either a text or the missing value: the
    missing value is the float NaN, which prints as [nan]. *)
Definition py_str (x : option string) : string :=
  match x with
  | Some s => s
  | None => "nan"
  end.

(** ** Amounts *)

Inductive numero : Type :=
| Num (z : Z)
| NaN.

Definition menor_que_zero (v : numero) : bool :=
  match v with Num z => z <? 0 | NaN => false end.

Definition maior_que_zero (v : numero) : bool :=
  match v with Num z => 0 <? z | NaN => false end.

Definition abs (v : numero) : numero :=
  match v with Num z => Num (Z.abs z) | NaN => NaN end.

Definition sub (a b : numero) : numero :=
  match a, b with
  | Num x, Num y => Num (x - y)
  | _, _ => NaN
  end.

(** ** Movement classification ([classificar_movimentacao]) *)

Inductive movimentacao : Type := Gasto | Receita | Outro.

Definition movimentacao_eqb (a b : movimentacao) : bool :=
  match a, b with
  | Gasto, Gasto | Receita, Receita | Outro, Outro => true
  | _, _ => false
  end.

Definition nome_movimentacao (m : movimentacao) : string :=
  match m with Gasto => "Gasto" | Receita => "Receita" | Outro => "Outro" end.

Definition classificar_movimentacao (tipo : option string) (valor : numero)
  : movimentacao :=
  if (contem "enviado" (lower (py_str tipo))
      || (menor_que_zero valor
          && negb (contem "recebido" (lower (py_str tipo)))))%bool
  then Gasto
  else if (contem "recebido" (lower (py_str tipo)) || maior_que_zero valor)%bool
  then Receita
  else Outro.

(** The decision procedure in the words of the specification, over the
    keyword pairs it names for "sent" and "received". *)
Definition algum_contido (palavras : list string) (texto : string) : bool :=
  existsb (fun p => contem p texto) palavras.

Definition movement_type_rules (sent received : list string)
  (type_raw : string) (value : numero) : movimentacao :=
  let t := lower type_raw in
  if algum_contido sent t then Gasto
  else if (menor_que_zero value && negb (algum_contido received t))%bool
  then Gasto
  else if algum_contido received t then Receita
  else if maior_que_zero value then Receita
  else Outro.

(** ** Categories ([criar_categorias_automaticas]) *)

Definition categorias : list (string * list string) :=
  [ ("Educação", ["COLEGIO"; "ESCOLA"; "FACULDADE"; "HEBE MARSIGLIA"]);
    ("Alimentação", ["ZAFFARI"; "ATACADÃO"; "SUPERMERCADO"; "BK BRASIL";
                     "IFOOD"; "COMERCIAL"]);
    ("Serviços Públicos", ["CIA RIOGRANDENSE"; "CIA ESTADUAL"; "SANEMEN";
                           "ENERGIA"; "AGUA"]);
    ("Transporte", ["UBER"; "TRANSPESSOAL"; "BUS2"; "ESTACIONAMENTO";
                    "REK PARKING"]);
    ("Saúde", ["FARMÁCIA"; "MEDICAMENTOS"; "BRAIR"; "PLANO DE SAÚDE"]);
    ("Compras Online", ["SHOPEE"; "AMERICANAS"; "NETSHOES"; "MERCADO LIVRE"]);
    ("Serviços Financeiros", ["SERASA"; "OPP SERVICOS"; "FINANCEIRO"; "BANCO";
                              "ITAU"]);
    ("Família", ["MAURICIO BENITES"; "DEBORA APARECIDA"; "SELMA FURTADO";
                 "GISELE BORGES"; "JOÃO VITOR"]);
    ("Lazer", ["CROSS EXPERIENCE"; "ACADEMIA"; "CINEMA"; "RESTAURANTE"]);
    ("Impostos/Taxas", ["IPVA"; "SEFAZ"; "DETRAN"; "GAD/E"; "IMPOSTO"]);
    ("Telecomunicações", ["CLARO"; "TELEFONE"; "INTERNET"]);
    ("Outros", []) ].

Definition destinatario_upper (destinatario : option string) : string :=
  upper (py_str destinatario).

(** The two nested [for] loops with their early [return]. *)
Fixpoint percorrer (cs : list (string * list string)) (texto : string)
  : option string :=
  match cs with
  | [] => None
  | (categoria, palavras) :: resto =>
      if algum_contido palavras texto then Some categoria
      else percorrer resto texto
  end.

(** No keyword of the category [cp] occurs in [texto]. *)
Definition sem_palavra (texto : string) (cp : string * list string) : Prop :=
  algum_contido (snd cp) texto = false.

Definition classificar_categoria (destinatario : option string) : string :=
  match percorrer categorias (destinatario_upper destinatario) with
  | Some categoria => categoria
  | None => "Outros"
  end.

(** ** Exceptions and fallible steps *)

Inductive erro : Type :=
| KeyError (chave : string)
| AttributeError
| TypeError
| ValueError (mensagem : string)
| IndexError
| FileNotFoundError
| ForaDoModelo.

Inductive resultado (A : Type) : Type :=
| Ok (a : A)
| Erro (e : erro).

Arguments Ok {A} a.
Arguments Erro {A} e.

Definition ligar {A B : Type} (m : resultado A) (f : A -> resultado B)
  : resultado B :=
  match m with
  | Ok a => f a
  | Erro e => Erro e
  end.

Notation "x <- m ;; k" := (ligar m (fun x => k))
  (at level 61, m at next level, right associativity).

Fixpoint mapear {A B : Type} (f : A -> resultado B) (l : list A)
  : resultado (list B) :=
  match l with
  | [] => Ok []
  | x :: r => y <- f x ;; ys <- mapear f r ;; Ok (y :: ys)
  end.

Definition exige (b : bool) (e : erro) : resultado unit :=
  if b then Ok tt else Erro e.

(** ** Series: grouping, sorting, pivoting *)

(** [Series.sum]: missing values are skipped, the empty sum is 0. *)
Fixpoint soma (vs : list numero) : Z :=
  match vs with
  | [] => 0
  | Num z :: r => z + soma r
  | NaN :: r => soma r
  end.

Definition total {K : Type} (s : list (K * Z)) : Z :=
  fold_right Z.add 0 (map snd s).

(** What a value adds to a sum. *)
Definition num (v : numero) : Z :=
  match v with Num z => z | NaN => 0 end.

Section Agrupamento.
Context {A K : Type}.
Variable eqb : K -> K -> bool.
Variable leb : K -> K -> bool.

Fixpoint inserir_chave (k : K) (l : list K) : list K :=
  match l with
  | [] => [k]
  | x :: r => if leb k x then k :: l else x :: inserir_chave k r
  end.

(** The group labels: the distinct keys in ascending order. *)
Fixpoint chaves_unicas (ks : list K) : list K :=
  match ks with
  | [] => []
  | k :: r =>
      let u := chaves_unicas r in
      if existsb (eqb k) u then u else inserir_chave k u
  end.

(** Rows whose key is missing belong to no group. *)
Definition presentes (chave : A -> option K) (linhas : list A) : list K :=
  flat_map (fun r => match chave r with Some k => [k] | None => [] end)
    linhas.

Definition com_chave (chave : A -> option K) (r : A) : bool :=
  match chave r with Some _ => true | None => false end.

Definition tem_chave (chave : A -> option K) (k : K) (r : A) : bool :=
  match chave r with
  | Some k' => eqb k' k
  | None => false
  end.

Definition grupo (chave : A -> option K) (k : K) (linhas : list A)
  : list A :=
  filter (tem_chave chave k) linhas.

(** [df.groupby(chave)[val].sum()] *)
Definition groupby_sum (chave : A -> option K) (val : A -> numero)
  (linhas : list A) : list (K * Z) :=
  map (fun k => (k, soma (map val (grupo chave k linhas))))
    (chaves_unicas (presentes chave linhas)).
End Agrupamento.

(** Descending stable order on a score: among equal scores the element that
    came first stays first. *)
Section Ordenacao.
Context {A : Type}.
Variable pontos : A -> Z.

Fixpoint inserir_desc (x : A) (l : list A) : list A :=
  match l with
  | [] => [x]
  | y :: r => if pontos y <=? pontos x then x :: l else y :: inserir_desc x r
  end.

Fixpoint ordenar_desc (l : list A) : list A :=
  match l with
  | [] => []
  | x :: r => inserir_desc x (ordenar_desc r)
  end.

(** In descending order of the score. *)
Definition decrescente : list A -> Prop :=
  StronglySorted (fun a b => pontos b <= pontos a).

End Ordenacao.

Definition head {A : Type} (n : nat) (l : list A) : list A := firstn n l.

(** numpy's default sort ([kind='quicksort']) is not stable: the order it
    leaves equal values in depends on the values and on the implementation.
    [desempate vs i] is the rank it gives position [i] of the values [vs]
    among the positions that hold the same value. *)
Definition criterio : Type := list Z -> nat -> Z.

(** The stable order, for worked examples, and the order that puts the
    later of two equal values first. *)
Definition estavel : criterio := fun _ _ => 0.
Definition ao_contrario : criterio := fun _ i => Z.of_nat i.

Section Quicksort.
Context {A : Type}.
Variable desempate : criterio.
Variable pontos : A -> Z.

(** Descending order of the score; among equal scores the order of the
    ranks, whatever they are. *)
Definition quicksort_desc (l : list A) : list A :=
  map snd
    (ordenar_desc (fun ix => pontos (snd ix))
       (ordenar_desc (fun ix => desempate (map pontos l) (fst ix))
          (combine (seq 0 (List.length l)) l))).
End Quicksort.

Section Series_ordenadas.
Variable desempate : criterio.
Context {K : Type}.

(** [Series.sort_values(ascending=False)] on a series of sums, with the
    default sort. *)
Definition sort_values_desc (s : list (K * Z)) : list (K * Z) :=
  quicksort_desc desempate snd s.

(** [Series.nlargest(n)]: when [n] reaches the length of the series the
    library sorts it whole with [sort_values]; otherwise it selects the [n]
    largest with a stable sort, the first occurrences among equal sums
    ([keep='first']). *)
Definition nlargest (n : nat) (s : list (K * Z)) : list (K * Z) :=
  if (List.length s <=? n)%nat then head n (sort_values_desc s)
  else firstn n (ordenar_desc snd s).
End Series_ordenadas.


(** A pivoted table: one row per index label, one cell per column label. *)
Record pivot (I C : Type) : Type := {
  p_colunas : list C;
  p_linhas : list (I * list (C * numero))
}.

Arguments p_colunas {I C} _.
Arguments p_linhas {I C} _.

Section Pivot.
Context {A I C : Type}.
Variable eqb_i : I -> I -> bool.
Variable leb_i : I -> I -> bool.
Variable eqb_c : C -> C -> bool.
Variable leb_c : C -> C -> bool.

Definition par (ki : A -> option I) (kc : A -> option C) (r : A)
  : option (I * C) :=
  match ki r, kc r with
  | Some i, Some c => Some (i, c)
  | _, _ => None
  end.

Definition eqb_par (a b : I * C) : bool :=
  (eqb_i (fst a) (fst b) && eqb_c (snd a) (snd b))%bool.

(** The sum of the group [(i, c)], or [vazio] where no row has that pair. *)
Definition celula_pivot (ki : A -> option I) (kc : A -> option C)
  (val : A -> numero) (vazio : numero) (linhas : list A) (i : I) (c : C)
  : numero :=
  match grupo eqb_par (par ki kc) (i, c) linhas with
  | [] => vazio
  | g => Num (soma (map val g))
  end.

(** [df.groupby([ki, kc])[val].sum().unstack(fill_value=vazio)] *)
Definition unstack (ki : A -> option I) (kc : A -> option C)
  (val : A -> numero) (vazio : numero) (linhas : list A) : pivot I C :=
  let pares := presentes (par ki kc) linhas in
  let colunas := chaves_unicas eqb_c leb_c (map snd pares) in
  {| p_colunas := colunas;
     p_linhas :=
       map (fun i =>
              (i, map (fun c => (c, celula_pivot ki kc val vazio linhas i c))
                    colunas))
         (chaves_unicas eqb_i leb_i (map fst pares)) |}.
End Pivot.

(** ** Workbooks, sheets and frames *)

Record datahora : Type := { dh_ano : Z; dh_mes : Z; dh_dia : Z }.

(** What [pd.read_excel] hands over for one cell or one header. *)
Inductive celula : Type :=
| Texto (s : string)
| Numero (z : Z)
| Instante (d : datahora)
| Vazio.

(** One sheet of the workbook as stored: its name, its header row and its
    data rows. *)
Record aba : Type := {
  nome : string;
  cabecalho : list celula;
  linhas : list (list celula)
}.

(** A frame with normalised column names; every row has one cell per
    column. *)
Record quadro : Type := {
  colunas : list string;
  registros : list (list celula)
}.

(** Every row has one cell per column. *)
Definition retangular (q : quadro) : Prop :=
  Forall (fun r => List.length r = List.length (colunas q)) (registros q).

Definition tem_coluna (c : string) (cols : list string) : bool :=
  existsb (String.eqb c) cols.

(** [col.lower().strip()]; a header that is not a text has no [lower]. *)
Definition normalizar_coluna (col : celula) : resultado string :=
  match col with
  | Texto s => Ok (strip (lower s))
  | _ => Erro AttributeError
  end.

(** [read_excel] yields rectangular data: short rows are padded with missing
    values. *)
Definition ajustar (n : nat) (r : list celula) : list celula :=
  firstn n (r ++ repeat Vazio n)%list.

(** [df.rename(columns={velho: novo})] *)
Definition renomear (velho novo : string) (cols : list string) : list string :=
  map (fun c => if String.eqb c velho then novo else c) cols.

(** The [if]/[elif] that looks for the value column. *)
Definition resolver_valor (cols : list string) : list string :=
  if tem_coluna "valor (r$)" cols then renomear "valor (r$)" "valor" cols
  else if negb (tem_coluna "valor" cols) then
    match find (fun col => contem "valor" (lower col)) cols with
    | Some col => renomear col "valor" cols
    | None => cols
    end
  else cols.

Fixpoint trocar (c : string) (v : celula) (cols : list string)
  (r : list celula) : list celula :=
  match cols, r with
  | col :: cols', x :: r' =>
      (if String.eqb col c then v else x) :: trocar c v cols' r'
  | _, _ => r
  end.

(** [df[c] = vals]: overwrite the column where it exists, append it
    otherwise. *)
Definition definir_coluna (c : string) (vals : list celula) (q : quadro)
  : quadro :=
  if tem_coluna c (colunas q) then
    {| colunas := colunas q;
       registros := map (fun rv => trocar c (snd rv) (colunas q) (fst rv))
                      (combine (registros q) vals) |}
  else
    {| colunas := (colunas q ++ [c])%list;
       registros := map (fun rv => (fst rv ++ [snd rv])%list)
                      (combine (registros q) vals) |}.

Definition atribuir (c : string) (v : celula) (q : quadro) : quadro :=
  definir_coluna c (repeat v (List.length (registros q))) q.

Fixpoint valor_em (c : string) (cols : list string) (r : list celula)
  : celula :=
  match cols, r with
  | col :: cols', x :: r' => if String.eqb col c then x else valor_em c cols' r'
  | _, _ => Vazio
  end.

Definition coluna (c : string) (q : quadro) : list celula :=
  map (valor_em c (colunas q)) (registros q).

Definition celula_de_data (d : option datahora) : celula :=
  match d with
  | Some t => Instante t
  | None => Vazio
  end.

(** A row of the unified table, read by column name as [x['tipo']] does; a
    column the row's sheet did not have reads as the missing value. *)
Definition registro : Type := list (string * celula).

Definition obter (c : string) (r : registro) : celula :=
  match find (fun p => String.eqb (fst p) c) r with
  | Some p => snd p
  | None => Vazio
  end.

Definition registros_de (q : quadro) : list registro :=
  map (combine (colunas q)) (registros q).

Fixpoint unicos (vistos l : list string) : list string :=
  match l with
  | [] => []
  | x :: r =>
      if tem_coluna x vistos then unicos vistos r
      else x :: unicos (x :: vistos) r
  end.

Record tabela_bruta : Type := {
  tb_colunas : list string;
  tb_linhas : list registro
}.

(** [pd.concat(dados_combinados, ignore_index=True)] *)
Definition concat (qs : list quadro) : tabela_bruta :=
  {| tb_colunas := unicos [] (flat_map colunas qs);
     tb_linhas := flat_map registros_de qs |}.

Definition periodo : Type := (Z * Z)%type.

(** A row of [df_completo] as [processar_extratos_bi] returns it: the cells
    of the unified table and the columns the function derives. *)
Record linha : Type := {
  campos : registro;
  data : option datahora;
  tipo : option string;
  valor : numero;
  tipo_movimentacao : movimentacao;
  valor_absoluto : numero;
  mes : option Z;
  ano : option Z;
  mes_ano_period : option periodo
}.

Record tabela : Type := {
  tab_colunas : list string;
  tab_linhas : list linha
}.

(** [.str.strip()] on one cell: a cell that is not a text becomes missing. *)
Definition str_strip (x : celula) : option string :=
  match x with
  | Texto s => Some (strip s)
  | _ => None
  end.

Definition e_texto (x : celula) : bool :=
  match x with Texto _ => true | _ => false end.

Definition e_numero (x : celula) : bool :=
  match x with Numero _ => true | _ => false end.

Definition e_instante (x : celula) : bool :=
  match x with Instante _ => true | _ => false end.

(** [serie.str]: the accessor checks the type inferred from the column's
    values, the missing ones left aside.  A column with no row, a column that
    holds a text, and a column of numbers mixed with dates (an object column
    of mixed values) have the accessor; a column of missing values only, of
    numbers only or of dates only has none. *)
Definition accessor_str (col : list celula) : resultado unit :=
  exige
    (match col with
     | [] => true
     | _ => (existsb e_texto col
             || (existsb e_numero col && existsb e_instante col))%bool
     end)
    AttributeError.

(** What [df_completo.apply(..., axis=1)] with the assignment of its result
    raises when there is no 'valor' column: [x['valor']] fails on the first
    row; over no row at all [apply] hands back a copy of the frame, which
    cannot be assigned to one column. *)
Definition sem_valor (linhas : list registro) : erro :=
  match linhas with
  | [] =>
      ValueError
        ("Cannot set a DataFrame with multiple columns to the single column "
         ++ "tipo_movimentacao")
  | _ => KeyError "valor"
  end.

(** A value cell as a number; comparing a text or a date with 0, or taking
    its absolute value, raises. *)
Definition numero_de (x : celula) : resultado numero :=
  match x with
  | Numero z => Ok (Num z)
  | Vazio => Ok NaN
  | _ => Erro TypeError
  end.

Definition data_de (x : celula) : option datahora :=
  match x with
  | Instante d => Some d
  | _ => None
  end.

Definition derivar (r : registro) : resultado linha :=
  v <- numero_de (obter "valor" r) ;;
  let t := str_strip (obter "tipo" r) in
  let d := data_de (obter "data" r) in
  Ok {| campos := r;
        data := d;
        tipo := t;
        valor := v;
        tipo_movimentacao := classificar_movimentacao t v;
        valor_absoluto := abs v;
        mes := option_map dh_mes d;
        ano := option_map dh_ano d;
        mes_ano_period := option_map (fun t => (dh_ano t, dh_mes t)) d |}.

(** The sheet's frame once the value column has been looked for and the two
    identification columns added: what the date conversion then receives. *)
Definition quadro_identificado (a : aba) (cols : list string) : quadro :=
  let df := {| colunas := resolver_valor cols;
               registros := map (ajustar (List.length cols)) (linhas a) |} in
  let df := atribuir "origem" (Texto (nome a)) df in
  atribuir "mes_ano" (Texto (nome a)) df.

Definition nenhuma_aba_valida : string := "Nenhuma aba válida foi encontrada".

(** What one attempt leaves behind: a warning or a frame. *)
Definition aviso_de (r : string * resultado quadro) : list (string * erro) :=
  match snd r with
  | Erro e => [(fst r, e)]
  | Ok _ => []
  end.

Definition quadro_de (r : resultado quadro) : list quadro :=
  match r with
  | Ok q => [q]
  | Erro _ => []
  end.

Section Leitura.
(** [pd.to_datetime] on a column: the generic date parser of the library,
    which either converts every cell (a missing date for an empty cell) or
    raises. *)
Variable to_datetime : list celula -> resultado (list (option datahora)).

(** [df['data'] = pd.to_datetime(df['data'])] *)
Definition converter_data (q : quadro) : resultado quadro :=
  match count_occ string_dec (colunas q) "data" with
  | O => Erro (KeyError "data")
  | S O =>
      datas <- to_datetime (coluna "data" q) ;;
      _ <- exige (Nat.eqb (List.length datas) (List.length (registros q)))
             (ValueError "Length of values does not match length of index") ;;
      Ok (definir_coluna "data" (map celula_de_data datas) q)
  | _ => Erro (ValueError "cannot assemble with duplicate keys")
  end.

(** The body of the [try] for one sheet. *)
Definition normalizar_aba (a : aba) : resultado quadro :=
  cols <- mapear normalizar_coluna (cabecalho a) ;;
  converter_data (quadro_identificado a cols).

(** One pass of the loop body over a sheet. *)
Definition tentativa (a : aba) : string * resultado quadro :=
  (nome a, normalizar_aba a).

(** The rows a sheet brings to the unified table. *)
Definition linhas_contribuidas (a : aba) : nat :=
  match normalizar_aba a with
  | Ok _ => List.length (linhas a)
  | Erro _ => O
  end.

Definition abas (sheet_names : list aba) : list aba :=
  filter (fun sheet => negb (String.eqb (nome sheet) "Planilha2")) sheet_names.

(** The loop over the sheets: what was printed for the sheets that raised,
    and [dados_combinados]. *)
Fixpoint percorrer_abas (l : list aba) : list (string * erro) * list quadro :=
  match l with
  | [] => ([], [])
  | a :: r =>
      let (avisos, dados) := percorrer_abas r in
      match normalizar_aba a with
      | Ok df => (avisos, df :: dados)
      | Erro e => ((nome a, e) :: avisos, dados)
      end
  end.

Definition dados_combinados (xl : list aba) : list quadro :=
  snd (percorrer_abas (abas xl)).

Definition avisos (xl : list aba) : list (string * erro) :=
  fst (percorrer_abas (abas xl)).

Definition processar_extratos_bi (xl : list aba) : resultado tabela :=
  match dados_combinados xl with
  | [] => Erro (ValueError nenhuma_aba_valida)
  | dados =>
      let df_completo := concat dados in
      _ <- exige (tem_coluna "tipo" (tb_colunas df_completo))
             (KeyError "tipo") ;;
      _ <- accessor_str (map (obter "tipo") (tb_linhas df_completo)) ;;
      _ <- exige (tem_coluna "valor" (tb_colunas df_completo))
             (sem_valor (tb_linhas df_completo)) ;;
      ls <- mapear derivar (tb_linhas df_completo) ;;
      Ok {| tab_colunas := tb_colunas df_completo; tab_linhas := ls |}
  end.
End Leitura.

(** ** Categorised transactions *)

Definition col_destinatario : string := "destinatário/pagador".

(** A row of [df] once [criar_categorias_automaticas] has run. *)
Record transacao : Type := {
  linha_de :> linha;
  destinatario_pagador : option string;
  categoria : string
}.

(** The payee cell: a text or empty.  The program also takes a number or a
    date there: [str] of it holds no keyword, so its category is 'Outros',
    and the value itself becomes a grouping key among the texts.  Such keys
    are outside this model, which stops there. *)
Definition destinatario_de (x : celula) : resultado (option string) :=
  match x with
  | Texto s => Ok (Some s)
  | Vazio => Ok None
  | _ => Erro ForaDoModelo
  end.

Definition categorizar (l : linha) : resultado transacao :=
  d <- destinatario_de (obter col_destinatario (campos l)) ;;
  Ok {| linha_de := l;
        destinatario_pagador := d;
        categoria := classificar_categoria d |}.

Definition criar_categorias_automaticas (df : tabela)
  : resultado (list transacao) :=
  _ <- exige (tem_coluna col_destinatario (tab_colunas df))
         (KeyError col_destinatario) ;;
  mapear categorizar (tab_linhas df).

(** ** Orders on the grouping keys *)

Definition periodo_eqb (a b : periodo) : bool :=
  ((fst a =? fst b) && (snd a =? snd b))%bool.

Definition periodo_leb (a b : periodo) : bool :=
  ((fst a <? fst b) || ((fst a =? fst b) && (snd a <=? snd b)))%bool.

Definition chave_mensal : Type := (Z * Z * periodo)%type.

Definition chave_mensal_eqb (a b : chave_mensal) : bool :=
  ((fst (fst a) =? fst (fst b)) && (snd (fst a) =? snd (fst b))
   && periodo_eqb (snd a) (snd b))%bool.

Definition chave_mensal_leb (a b : chave_mensal) : bool :=
  ((fst (fst a) <? fst (fst b))
   || ((fst (fst a) =? fst (fst b))
       && ((snd (fst a) <? snd (fst b))
           || ((snd (fst a) =? snd (fst b))
               && periodo_leb (snd a) (snd b)))))%bool.

Definition datahora_leb (a b : datahora) : bool :=
  chave_mensal_leb (dh_ano a, dh_mes a, (dh_dia a, 0))
    (dh_ano b, dh_mes b, (dh_dia b, 0)).

(** ** Aggregates *)

Section Relatorios.
(** The order the library's default sort leaves equal sums in. *)
Variable desempate : criterio.

Definition e_gasto (t : transacao) : bool :=
  movimentacao_eqb (tipo_movimentacao t) Gasto.

Definition e_receita (t : transacao) : bool :=
  movimentacao_eqb (tipo_movimentacao t) Receita.

Definition gastos (df : list transacao) : list transacao := filter e_gasto df.
Definition receitas (df : list transacao) : list transacao :=
  filter e_receita df.

Definition absoluto (t : transacao) : numero := valor_absoluto t.
Definition chave_categoria (t : transacao) : option string :=
  Some (categoria t).
Definition chave_movimentacao (t : transacao) : option string :=
  Some (nome_movimentacao (tipo_movimentacao t)).
Definition chave_periodo (t : transacao) : option periodo := mes_ano_period t.

Definition chave_resumo (t : transacao) : option chave_mensal :=
  match ano t, mes t, mes_ano_period t with
  | Some a, Some m, Some p => Some (a, m, p)
  | _, _, _ => None
  end.

Definition total_gastos (df : list transacao) : Z :=
  soma (map absoluto (gastos df)).

Definition total_receitas (df : list transacao) : Z :=
  soma (map absoluto (receitas df)).

Definition saldo (df : list transacao) : Z :=
  total_receitas df - total_gastos df.

Definition por_destinatario (l : list transacao) : list (string * Z) :=
  groupby_sum String.eqb String.leb destinatario_pagador absoluto l.

Definition gastos_por_categoria (df : list transacao) : list (string * Z) :=
  sort_values_desc desempate
    (groupby_sum String.eqb String.leb chave_categoria absoluto (gastos df)).

Definition principais_destinos (df : list transacao) : list (string * Z) :=
  nlargest desempate 15 (por_destinatario (gastos df)).

Definition principais_fontes (df : list transacao) : list (string * Z) :=
  nlargest desempate 15 (por_destinatario (receitas df)).

Definition evolucao_mensal (df : list transacao) : pivot periodo string :=
  unstack periodo_eqb periodo_leb String.eqb String.leb
    chave_periodo chave_movimentacao absoluto (Num 0) df.

Definition top_categorias (df : list transacao) : list string :=
  map fst (head 5 (gastos_por_categoria df)).

Definition gastos_mensais_categoria (df : list transacao)
  : pivot periodo string :=
  unstack periodo_eqb periodo_leb String.eqb String.leb
    chave_periodo chave_categoria absoluto (Num 0)
    (filter (fun t => tem_coluna (categoria t) (top_categorias df))
       (gastos df)).

(** ** The chart report ([criar_dashboard_html_bi]) *)

(** The series handed to the chart library. *)
Record figura : Type := {
  fig_evolucao_mensal : pivot periodo string;
  fig_gastos_por_categoria : list (string * Z);
  fig_principais_destinos : list (string * Z);
  fig_principais_fontes : list (string * Z);
  fig_gastos_mensais_categoria : pivot periodo string
}.

(** What the HTML page shows: the period, the three cards, the insights and
    the figure. *)
Record pagina : Type := {
  pg_inicio : datahora;
  pg_fim : datahora;
  pg_total_receitas : Z;
  pg_transacoes_receita : nat;
  pg_total_gastos : Z;
  pg_transacoes_gasto : nat;
  pg_saldo : Z;
  pg_maior_destinatario : string * Z;
  pg_principal_fonte : string * Z;
  pg_categoria_maior_gasto : string * Z;
  pg_meses : nat;
  pg_graficos : figura
}.

Definition datas (df : list transacao) : list datahora :=
  flat_map (fun t : transacao =>
              match data t with Some d => [d] | None => [] end) df.

Fixpoint extremo (melhor : datahora -> datahora -> bool) (l : list datahora)
  : option datahora :=
  match l with
  | [] => None
  | d :: r =>
      match extremo melhor r with
      | Some e => Some (if melhor d e then d else e)
      | None => Some d
      end
  end.

(** [df['data'].min().strftime(...)]: the minimum of no date is the missing
    date, which has no [strftime]. *)
Definition formatar (d : option datahora) : resultado datahora :=
  match d with
  | Some t => Ok t
  | None => Erro (ValueError "NaTType does not support strftime")
  end.

(** [serie.index[0]] with [serie.iloc[0]] *)
Definition primeiro {K : Type} (s : list (K * Z)) : resultado (K * Z) :=
  match s with
  | x :: _ => Ok x
  | [] => Erro IndexError
  end.

Definition periodo_opt_eqb (a b : option periodo) : bool :=
  match a, b with
  | Some x, Some y => periodo_eqb x y
  | None, None => true
  | _, _ => false
  end.

Fixpoint distintos (l : list (option periodo)) : list (option periodo) :=
  match l with
  | [] => []
  | x :: r =>
      if existsb (periodo_opt_eqb x) r then distintos r else x :: distintos r
  end.

Definition html_content (df : list transacao) : resultado pagina :=
  let fig := {| fig_evolucao_mensal := evolucao_mensal df;
                fig_gastos_por_categoria := gastos_por_categoria df;
                fig_principais_destinos := principais_destinos df;
                fig_principais_fontes := principais_fontes df;
                fig_gastos_mensais_categoria := gastos_mensais_categoria df |} in
  inicio <- formatar (extremo datahora_leb (datas df)) ;;
  fim <- formatar (extremo (fun a b => datahora_leb b a) (datas df)) ;;
  destino <- primeiro (principais_destinos df) ;;
  fonte <- primeiro (principais_fontes df) ;;
  cat <- primeiro (gastos_por_categoria df) ;;
  Ok {| pg_inicio := inicio;
        pg_fim := fim;
        pg_total_receitas := total_receitas df;
        pg_transacoes_receita := List.length (receitas df);
        pg_total_gastos := total_gastos df;
        pg_transacoes_gasto := List.length (gastos df);
        pg_saldo := saldo df;
        pg_maior_destinatario := destino;
        pg_principal_fonte := fonte;
        pg_categoria_maior_gasto := cat;
        pg_meses := List.length (distintos (map chave_periodo df));
        pg_graficos := fig |}.

(** ** The summary workbook ([exportar_resumos_excel_bi]) *)

Definition num_em (c : string) (cels : list (string * numero)) : numero :=
  match find (fun p => String.eqb (fst p) c) cels with
  | Some p => snd p
  | None => NaN
  end.

Fixpoint definir_celula (c : string) (v : numero)
  (cels : list (string * numero)) : list (string * numero) :=
  match cels with
  | [] => [(c, v)]
  | p :: r =>
      if String.eqb (fst p) c then (c, v) :: r else p :: definir_celula c v r
  end.

(** [resumo_mensal['Saldo'] = resumo_mensal['Receita'] - resumo_mensal['Gasto']] *)
Definition acrescentar_saldo (rm : pivot chave_mensal string)
  : pivot chave_mensal string :=
  {| p_colunas :=
       if tem_coluna "Saldo" (p_colunas rm) then p_colunas rm
       else (p_colunas rm ++ ["Saldo"])%list;
     p_linhas :=
       map (fun l =>
              (fst l,
               definir_celula "Saldo"
                 (sub (num_em "Receita" (snd l)) (num_em "Gasto" (snd l)))
                 (snd l)))
         (p_linhas rm) |}.

Definition resumo_mensal (df : list transacao) : pivot chave_mensal string :=
  let rm :=
    unstack chave_mensal_eqb chave_mensal_leb String.eqb String.leb
      chave_resumo chave_movimentacao absoluto NaN df in
  if (tem_coluna "Gasto" (p_colunas rm)
      && tem_coluna "Receita" (p_colunas rm))%bool
  then acrescentar_saldo rm
  else rm.



Definition gastos_categoria (df : list transacao) : list (string * Z) :=
  sort_values_desc desempate
    (groupby_sum String.eqb String.leb chave_categoria absoluto (gastos df)).

Definition destinatarios (df : list transacao) : list (string * Z) :=
  nlargest desempate 50 (por_destinatario (gastos df)).

Definition fontes (df : list transacao) : list (string * Z) :=
  nlargest desempate 50 (por_destinatario (receitas df)).

Definition evol_categoria (df : list transacao) : pivot periodo string :=
  unstack periodo_eqb periodo_leb String.eqb String.leb
    chave_periodo chave_categoria absoluto (Num 0) (gastos df).

Definition tem_numero (t : transacao) : bool :=
  match valor_absoluto t with Num _ => true | NaN => false end.

Definition pontos_absoluto (t : transacao) : Z :=
  match valor_absoluto t with Num z => z | NaN => 0 end.

(** [df.nlargest(50, 'valor_absoluto')]: rows without an amount come last.
    As for a series, a table of at most 50 rows is sorted whole with the
    default sort, a longer one is cut with the stable sort. *)
Definition maiores_transacoes (df : list transacao) : list transacao :=
  if (List.length df <=? 50)%nat
  then head 50 (quicksort_desc desempate pontos_absoluto
                  (filter tem_numero df)
                ++ filter (fun t => negb (tem_numero t)) df)%list
  else firstn 50 (ordenar_desc pontos_absoluto (filter tem_numero df)
                  ++ filter (fun t => negb (tem_numero t)) df)%list.

Definition top_transacoes (df : list transacao)
  : list (option datahora * option string * option string * numero * string
          * celula) :=
  map (fun t : transacao =>
         (data t, tipo t, destinatario_pagador t, valor t, categoria t,
          obter "mes_ano" (campos t)))
    (maiores_transacoes df).

(** The seven sheets, in the order they are written. *)
Record pasta : Type := {
  sh_resumo_mensal : pivot chave_mensal string;
  sh_gastos_por_categoria : list (string * Z);
  sh_principais_destinatarios : list (string * Z);
  sh_fontes_pagadoras : list (string * Z);
  sh_evolucao_categorias : pivot periodo string;
  sh_top_transacoes :
    list (option datahora * option string * option string * numero * string
          * celula);
  sh_dados_completos : list transacao
}.

Definition resumos (df : list transacao) : pasta :=
  {| sh_resumo_mensal := resumo_mensal df;
     sh_gastos_por_categoria := gastos_categoria df;
     sh_principais_destinatarios := destinatarios df;
     sh_fontes_pagadoras := fontes df;
     sh_evolucao_categorias := evol_categoria df;
     sh_top_transacoes := top_transacoes df;
     sh_dados_completos := df |}.

(** ** Output files and the driver *)

(** The two output paths: absent, or holding what the last successful write
    put there. *)
Record arquivos : Type := {
  dashboard_financeiro_bi_html : option pagina;
  resumo_financeiro_bi_xlsx : option pasta
}.

Definition criar_dashboard_html_bi (df : list transacao) (fs : arquivos)
  : arquivos * resultado pagina :=
  match html_content df with
  | Ok html =>
      ({| dashboard_financeiro_bi_html := Some html;
          resumo_financeiro_bi_xlsx := resumo_financeiro_bi_xlsx fs |},
       Ok html)
  | Erro e => (fs, Erro e)
  end.

Definition exportar_resumos_excel_bi (df : list transacao) (fs : arquivos)
  : arquivos * resultado unit :=
  ({| dashboard_financeiro_bi_html := dashboard_financeiro_bi_html fs;
      resumo_financeiro_bi_xlsx := Some (resumos df) |},
   Ok tt).

Section Execucao.
Variable to_datetime : list celula -> resultado (list (option datahora)).

(** The [__main__] block of [main.py] and [gerar_dashboard] of [app.py]:
    [bi_xlsx] is the workbook at the fixed path, if the file is there; the
    outer [except] turns any exception into the printed message returned
    here. *)
Definition gerar_dashboard (bi_xlsx : option (list aba)) (fs : arquivos)
  : arquivos * resultado unit :=
  match bi_xlsx with
  | None => (fs, Erro FileNotFoundError)
  | Some xl =>
      match processar_extratos_bi to_datetime xl with
      | Erro e => (fs, Erro e)
      | Ok df0 =>
          match criar_categorias_automaticas df0 with
          | Erro e => (fs, Erro e)
          | Ok df =>
              match criar_dashboard_html_bi df fs with
              | (fs1, Erro e) => (fs1, Erro e)
              | (fs1, Ok _) => exportar_resumos_excel_bi df fs1
              end
          end
      end
  end.
End Execucao.
End Relatorios.

(** ** Sums in the program's arithmetic *)

(** The amounts above are exact, and so are their sums.  The program holds an
    amount as a binary64 number of reais and adds with rounding.  The totals
    are therefore written once more over any number type with its addition:
    the exact amounts are one instance, the binary64 numbers another. *)
Section Aritmetica.
Context {N : Type}.
Variable zero : N.
Variable mais : N -> N -> N.

Fixpoint acumular (acc : N) (vs : list (option N)) : N :=
  match vs with
  | [] => acc
  | Some v :: r => acumular (mais acc v) r
  | None :: r => acumular acc r
  end.

(** [Series.sum]: the values are added one after the other in row order,
    the missing ones skipped.  (The libraries order the additions of a long
    series otherwise -- numpy by blocks of eight from eight values on, the
    grouped sum with a compensation term from three values on -- which
    changes the rounding of such a series and nothing else.) *)
Definition soma_em (vs : list (option N)) : N := acumular zero vs.

(** The sum of a series of sums, in the order of the series. *)
Definition total_em {K : Type} (s : list (K * N)) : N :=
  soma_em (map (fun p => Some (snd p)) s).

(** How the arithmetic holds an amount. *)
Variable quantia : numero -> option N.

(** [gastos['valor_absoluto'].sum()] *)
Definition total_gastos_em (df : list transacao) : N :=
  soma_em (map (fun t => quantia (absoluto t)) (gastos df)).

(** [gastos.groupby('categoria')['valor_absoluto'].sum()], the categories
    in ascending order as the grouping leaves them. *)
Definition somas_por_categoria_em (df : list transacao) : list (string * N) :=
  map (fun c =>
         (c, soma_em (map (fun t => quantia (absoluto t))
                        (grupo String.eqb chave_categoria c (gastos df)))))
    (chaves_unicas String.eqb String.leb
       (presentes chave_categoria (gastos df))).
End Aritmetica.

(** The exact amounts. *)
Definition exato (v : numero) : option Z :=
  match v with
  | Num z => Some z
  | NaN => None
  end.

(** The binary64 number a cell of [z] centavos holds: the one nearest to
    [z/100] reais, which is what the rounded division of the two integers
    gives (for amounts below 2^53 centavos, which binary64 holds exactly). *)
Definition binary64 (v : numero) : option float :=
  match v with
  | Num z =>
      let x := PrimFloat.div (PrimFloat.of_uint63 (Uint63.of_Z (Z.abs z)))
                 (PrimFloat.of_uint63 100) in
      Some (if z <? 0 then PrimFloat.opp x else x)
  | NaN => None
  end.

(** A date converter for worked examples: it accepts date cells and empty
    cells, and rejects anything that would need parsing. *)
Definition so_datas (col : list celula) : resultado (list (option datahora)) :=
  mapear (fun x => match x with
                   | Instante d => Ok (Some d)
                   | Vazio => Ok None
                   | _ => Erro (ValueError "Unknown datetime string format")
                   end) col.

(** ** Worked inputs *)

Definition dia (a m d : Z) : datahora :=
  {| dh_ano := a; dh_mes := m; dh_dia := d |}.

(** A regular monthly sheet. *)
Definition aba_jan : aba :=
  {| nome := "Jan";
     cabecalho := [Texto "Data"; Texto " Tipo"; Texto "Valor (R$)";
                   Texto "Destinatário/Pagador"];
     linhas :=
       [ [Instante (dia 2024 1 5); Texto "Pix enviado "; Numero (-5000);
          Texto "Supermercado Zaffari"];
         [Instante (dia 2024 1 9); Texto "Pix recebido"; Numero 10000;
          Texto "Fulano de Tal"];
         [Instante (dia 2024 2 7); Texto "Compra"; Numero (-700); Vazio] ] |}.

(** A sheet with a date column and no value column. *)
Definition aba_sem_valor : aba :=
  {| nome := "Fev";
     cabecalho := [Texto "Data"; Texto "Tipo"];
     linhas := [ [Instante (dia 2024 2 11); Texto "Pix enviado"] ] |}.


(** A sheet without a date column. *)
Definition aba_sem_data : aba :=
  {| nome := "Mar";
     cabecalho := [Texto "Tipo"; Texto "Valor"];
     linhas := [ [Texto "Pix enviado"; Numero (-100)] ] |}.

Definition aba_planilha2 : aba :=
  {| nome := "Planilha2";
     cabecalho := [Texto "Data"; Texto "Tipo"; Texto "Valor"];
     linhas := [ [Instante (dia 2024 3 1); Texto "Pix recebido"; Numero 1] ] |}.

(** An empty placeholder sheet under another name. *)
Definition aba_vazia : aba :=
  {| nome := "Planilha3"; cabecalho := []; linhas := [] |}.

Definition tabela_vazia : tabela := {| tab_colunas := []; tab_linhas := [] |}.

Definition ou_vazia (r : resultado tabela) : tabela :=
  match r with Ok t => t | Erro _ => tabela_vazia end.

Definition ou_nada {A : Type} (r : resultado (list A)) : list A :=
  match r with Ok l => l | Erro _ => [] end.

Definition tabela_jan : tabela :=
  Eval vm_compute in ou_vazia (processar_extratos_bi so_datas [aba_jan]).

Definition linha_jan_1 : linha := Eval vm_compute in
  nth 0 (tab_linhas tabela_jan)
    {| campos := []; data := None; tipo := None; valor := NaN;
       tipo_movimentacao := Outro; valor_absoluto := NaN; mes := None;
       ano := None; mes_ano_period := None |}.

Definition df_jan : list transacao :=
  Eval vm_compute in ou_nada (criar_categorias_automaticas tabela_jan).

(** A categorised row built directly from the fields the aggregates read. *)
Definition lancamento (d : datahora) (t : string) (quem : option string)
  (z : Z) : transacao :=
  let l := {| campos := [];
              data := Some d;
              tipo := Some t;
              valor := Num z;
              tipo_movimentacao := classificar_movimentacao (Some t) (Num z);
              valor_absoluto := abs (Num z);
              mes := Some (dh_mes d);
              ano := Some (dh_ano d);
              mes_ano_period := Some (dh_ano d, dh_mes d) |} in
  {| linha_de := l;
     destinatario_pagador := quem;
     categoria := classificar_categoria quem |}.

(** Sixteen expenses, each to a payee of its own. *)
Definition df_dezesseis : list transacao :=
  map (fun n => lancamento (dia 2024 1 1) "Pix enviado"
                  (Some (String (car (65 + N.of_nat n)) "")) (-100))
    (seq 0 16).

(** Three expenses in two categories: 1.67 and 0.03 in one, 1.39 in the
    other. *)
Definition df_rateio : list transacao :=
  [ lancamento (dia 2024 1 5) "Pix enviado" (Some "IFOOD") (-167);
    lancamento (dia 2024 1 6) "Pix enviado" (Some "UBER") (-139);
    lancamento (dia 2024 1 7) "Pix enviado" (Some "IFOOD") (-3) ].

(** Expenses only. *)
Definition df_so_gastos : list transacao :=
  [ lancamento (dia 2024 1 5) "Pix enviado" (Some "UBER") (-2500) ].

Definition sem_arquivos : arquivos :=
  {| dashboard_financeiro_bi_html := None; resumo_financeiro_bi_xlsx := None |}.

(** The two files as a run over [aba_jan] leaves them. *)
Definition arquivos_antigos : arquivos :=
  Eval vm_compute in
    fst (gerar_dashboard estavel so_datas (Some [aba_jan]) sem_arquivos).

(** ** Further vocabulary and inputs *)

Definition e_outro (t : transacao) : bool :=
  movimentacao_eqb (tipo_movimentacao t) Outro.

Definition outros (df : list transacao) : list transacao := filter e_outro df.

(** The frame [aba_jan] normalises to. *)
Definition quadro_jan : quadro :=
  Eval vm_compute in
    match normalizar_aba so_datas aba_jan with
    | Ok q => q
    | Erro _ => {| colunas := []; registros := [] |}
    end.

(** The categorised table and the page of the run over [aba_jan]. *)
Definition pagina_nula : pagina :=
  {| pg_inicio := dia 0 0 0;
     pg_fim := dia 0 0 0;
     pg_total_receitas := 0;
     pg_transacoes_receita := O;
     pg_total_gastos := 0;
     pg_transacoes_gasto := O;
     pg_saldo := 0;
     pg_maior_destinatario := ("", 0);
     pg_principal_fonte := ("", 0);
     pg_categoria_maior_gasto := ("", 0);
     pg_meses := O;
     pg_graficos :=
       {| fig_evolucao_mensal := {| p_colunas := []; p_linhas := [] |};
          fig_gastos_por_categoria := [];
          fig_principais_destinos := [];
          fig_principais_fontes := [];
          fig_gastos_mensais_categoria :=
            {| p_colunas := []; p_linhas := [] |} |} |}.

Definition pagina_jan : pagina :=
  Eval vm_compute in
    match html_content estavel df_jan with
    | Ok html => html
    | Erro _ => pagina_nula
    end.

(** The rows of one period and one movement type. *)
Definition do_periodo (p : periodo) (m : movimentacao) (t : transacao)
  : bool :=
  match mes_ano_period t with
  | Some q => (periodo_eqb q p && movimentacao_eqb (tipo_movimentacao t) m)%bool
  | None => false
  end.

(** [antes a b]: [a] may stand before [b] among the largest transactions:
    [b] has no amount, or [a] has one that is at least [b]'s. *)
Definition antes (a b : transacao) : Prop :=
  tem_numero b = false
  \/ (tem_numero a = true /\ pontos_absoluto b <= pontos_absoluto a).

(** * Properties *)

(** ** Movement classification *)

Lemma classificar_movimentacao_regras (t : option string) (v : numero) :
  classificar_movimentacao t v
  = movement_type_rules ["enviado"] ["recebido"] (py_str t) v.
Proof.
  unfold classificar_movimentacao, movement_type_rules, algum_contido, existsb.
  generalize (contem "enviado" (lower (py_str t)))
             (contem "recebido" (lower (py_str t))).
  intros [] []; destruct (menor_que_zero v), (maior_que_zero v); reflexivity.
Qed.

Lemma mapear_In {A B : Type} (f : A -> resultado B) (l : list A) :
  forall ys y, mapear f l = Ok ys -> In y ys -> exists x, In x l /\ f x = Ok y.
Proof.
  induction l as [|x r IH]; simpl; intros ys y H Hy.
  - inversion H; subst. contradiction.
  - destruct (f x) as [b|e] eqn:Hx; simpl in H; [|discriminate].
    destruct (mapear f r) as [bs|e] eqn:Hr; simpl in H; [|discriminate].
    inversion H; subst. destruct Hy as [->|Hy].
    + exists x. auto.
    + destruct (IH bs y eq_refl Hy) as (x' & Hin & Hx').
      exists x'. auto.
Qed.

Lemma mapear_length {A B : Type} (f : A -> resultado B) (l : list A) :
  forall ys, mapear f l = Ok ys -> List.length ys = List.length l.
Proof.
  induction l as [|x r IH]; simpl; intros ys H.
  - inversion H. reflexivity.
  - destruct (f x) as [b|e]; simpl in H; [|discriminate].
    destruct (mapear f r) as [bs|e]; simpl in H; [|discriminate].
    inversion H; subst. simpl. f_equal. apply IH. reflexivity.
Qed.

Lemma derivar_ok (r : registro) (l : linha) :
  derivar r = Ok l ->
  campos l = r
  /\ tipo l = str_strip (obter "tipo" r)
  /\ numero_de (obter "valor" r) = Ok (valor l)
  /\ tipo_movimentacao l = classificar_movimentacao (tipo l) (valor l)
  /\ valor_absoluto l = abs (valor l).
Proof.
  unfold derivar. destruct (numero_de (obter "valor" r)) as [v|e]; simpl.
  - intros H. inversion H; subst; simpl. repeat split; reflexivity.
  - discriminate.
Qed.

Section Processamento.
Variable to_datetime : list celula -> resultado (list (option datahora)).

Lemma processar_ok (xl : list aba) (df : tabela) :
  processar_extratos_bi to_datetime xl = Ok df ->
  dados_combinados to_datetime xl <> []
  /\ tab_colunas df = tb_colunas (concat (dados_combinados to_datetime xl))
  /\ tem_coluna "tipo" (tab_colunas df) = true
  /\ tem_coluna "valor" (tab_colunas df) = true
  /\ mapear derivar (tb_linhas (concat (dados_combinados to_datetime xl)))
     = Ok (tab_linhas df).
Proof.
  unfold processar_extratos_bi.
  destruct (dados_combinados to_datetime xl) as [|q qs] eqn:Hd.
  - discriminate.
  - set (t := concat (q :: qs)).
    destruct (tem_coluna "tipo" (tb_colunas t)) eqn:Ht;
      [|intros H; discriminate H].
    destruct (accessor_str (map (obter "tipo") (tb_linhas t))) as [[]|e]
      eqn:Hs; [|intros H; discriminate H].
    destruct (tem_coluna "valor" (tb_colunas t)) eqn:Hv;
      [|intros H; discriminate H].
    destruct (mapear derivar (tb_linhas t)) as [ls|e] eqn:Hm;
      [|intros H; discriminate H].
    intros H. cbn in H. inversion H; subst; cbn [tab_colunas tab_linhas].
    repeat split; auto. discriminate.
Qed.
End Processamento.

(** C1 (as amended): every row of the unified table gets the movement type
    of the five-rule procedure read over the Portuguese keywords only --
    "enviado" for rule 1 and "recebido" for rules 2 and 3 -- evaluated on the
    lower-cased, trimmed type text and the row's value. *)
Theorem C1_movement_type_five_rules :
  forall to_datetime xl df l,
    processar_extratos_bi to_datetime xl = Ok df ->
    In l (tab_linhas df) ->
    tipo l = str_strip (obter "tipo" (campos l))
    /\ tipo_movimentacao l
       = movement_type_rules ["enviado"] ["recebido"] (py_str (tipo l))
           (valor l).
Proof.
  intros to_datetime xl df l Hp Hl.
  destruct (processar_ok to_datetime xl df Hp) as (_ & _ & _ & _ & Hm).
  destruct (mapear_In derivar _ _ l Hm Hl) as (r & _ & Hr).
  destruct (derivar_ok r l Hr) as (Hc & Ht & _ & Hmov & _).
  split.
  - rewrite Hc. exact Ht.
  - rewrite Hmov. apply classificar_movimentacao_regras.
Qed.

Lemma C1_movement_type_five_rules_witness :
  tipo linha_jan_1 = str_strip (obter "tipo" (campos linha_jan_1))
  /\ tipo_movimentacao linha_jan_1
     = movement_type_rules ["enviado"] ["recebido"]
         (py_str (tipo linha_jan_1)) (valor linha_jan_1).
Proof.
  apply (C1_movement_type_five_rules so_datas [aba_jan] tabela_jan linha_jan_1).
  - vm_compute. reflexivity.
  - simpl. left. reflexivity.
Defined.

(** C1 (as stated) fails: a type text that says "sent" with a positive value
    is Income in the code, where rule 1 over "sent"/"enviado" gives Expense;
    and a negative value whose text says "received" is an Expense in the
    code, where rule 2 must not fire. *)
Lemma C1_english_keywords_not_checked :
  contem "sent" (lower "sent") = true
  /\ movement_type_rules ["sent"; "enviado"] ["received"; "recebido"]
       "sent" (Num 1000) = Gasto
  /\ classificar_movimentacao (Some "sent") (Num 1000) = Receita
  /\ contem "received" (lower "received") = true
  /\ movement_type_rules ["sent"; "enviado"] ["received"; "recebido"]
       "received" (Num (-1000)) = Receita
  /\ classificar_movimentacao (Some "received") (Num (-1000)) = Gasto.
Proof. repeat split; vm_compute; reflexivity. Qed.

(** A negative value whose text holds "recebido" is Income unless the text
    also holds "enviado", which rule 1 decides first. *)
Lemma recebido_negativo (t : option string) (z : Z) :
  z < 0 ->
  contem "recebido" (lower (py_str t)) = true ->
  classificar_movimentacao t (Num z)
  = if contem "enviado" (lower (py_str t)) then Gasto else Receita.
Proof.
  intros _ Hr. unfold classificar_movimentacao. rewrite Hr. simpl.
  rewrite andb_false_r, orb_false_r.
  destruct (contem "enviado" (lower (py_str t))); reflexivity.
Qed.


(** ** Categories *)

Lemma percorrer_primeira (texto : string) (pre : list (string * list string)) :
  forall c ps post,
    Forall (sem_palavra texto) pre ->
    algum_contido ps texto = true ->
    percorrer (pre ++ (c, ps) :: post) texto = Some c.
Proof.
  induction pre as [|[c0 ps0] pre IH]; simpl; intros c ps post Hpre Hc.
  - rewrite Hc. reflexivity.
  - inversion Hpre as [|x l Hx Hl]; subst. unfold sem_palavra in Hx.
    simpl in Hx. rewrite Hx. apply IH; assumption.
Qed.

Lemma percorrer_nenhuma (texto : string) (cs : list (string * list string)) :
  Forall (sem_palavra texto) cs -> percorrer cs texto = None.
Proof.
  induction cs as [|[c ps] cs IH]; simpl; intros H.
  - reflexivity.
  - inversion H as [|x l Hx Hl]; subst. unfold sem_palavra in Hx.
    simpl in Hx. rewrite Hx. apply IH; assumption.
Qed.

Lemma percorrer_alguma (texto : string) (cs : list (string * list string)) :
  forall c,
    percorrer cs texto = Some c ->
    exists pre ps post,
      cs = (pre ++ (c, ps) :: post)%list
      /\ Forall (sem_palavra texto) pre
      /\ algum_contido ps texto = true.
Proof.
  induction cs as [|[c0 ps0] cs IH]; simpl; intros c H.
  - discriminate.
  - destruct (algum_contido ps0 texto) eqn:H0.
    + inversion H; subst. exists [], ps0, cs. repeat split; auto.
    + destruct (IH c H) as (pre & ps & post & -> & Hpre & Hps).
      exists ((c0, ps0) :: pre), ps, post. repeat split; auto.
Qed.

(** C5 (as amended): the category is the first one, in the table's order,
    with a keyword inside the upper-cased payee text; with no keyword of any
    category inside it, the category is "Outros".  A missing payee is turned
    into the text "nan" (matched as "NAN"), not into the empty string; it
    holds no keyword and so gets "Outros", as the empty and the blank payee
    do.  "SUPERMERCADO ZAFFARI" gives "Alimentação" and "DESCONHECIDO LTDA"
    gives "Outros". *)
Theorem C5_first_matching_category :
  (forall d pre c ps post,
      categorias = (pre ++ (c, ps) :: post)%list ->
      Forall (sem_palavra (destinatario_upper d)) pre ->
      algum_contido ps (destinatario_upper d) = true ->
      classificar_categoria d = c)
  /\ (forall d,
         Forall (sem_palavra (destinatario_upper d)) categorias ->
         classificar_categoria d = "Outros")
  /\ (forall d,
         classificar_categoria d = "Outros"
         \/ exists pre ps post,
             categorias = (pre ++ (classificar_categoria d, ps) :: post)%list
             /\ Forall (sem_palavra (destinatario_upper d)) pre
             /\ algum_contido ps (destinatario_upper d) = true)
  /\ destinatario_upper None = "NAN"
  /\ classificar_categoria None = "Outros"
  /\ classificar_categoria (Some "") = "Outros"
  /\ classificar_categoria (Some "   ") = "Outros"
  /\ classificar_categoria (Some "SUPERMERCADO ZAFFARI") = "Alimentação"
  /\ classificar_categoria (Some "DESCONHECIDO LTDA") = "Outros".
Proof.
  split; [|split; [|split]].
  - intros d pre c ps post Hc Hpre Hps. unfold classificar_categoria.
    rewrite Hc. rewrite (percorrer_primeira _ pre c ps post Hpre Hps).
    reflexivity.
  - intros d H. unfold classificar_categoria.
    rewrite (percorrer_nenhuma _ _ H). reflexivity.
  - intros d. unfold classificar_categoria.
    destruct (percorrer categorias (destinatario_upper d)) as [c|] eqn:Hp.
    + right. apply percorrer_alguma. exact Hp.
    + left. reflexivity.
  - repeat split; vm_compute; reflexivity.
Qed.

Lemma C5_first_matching_category_witness :
  classificar_categoria (Some "Supermercado Zaffari") = "Alimentação".
Proof.
  apply (proj1 C5_first_matching_category (Some "Supermercado Zaffari")
           [("Educação", ["COLEGIO"; "ESCOLA"; "FACULDADE"; "HEBE MARSIGLIA"])]
           "Alimentação"
           ["ZAFFARI"; "ATACADÃO"; "SUPERMERCADO"; "BK BRASIL"; "IFOOD";
            "COMERCIAL"]
           (tl (tl categorias))).
  - reflexivity.
  - constructor; [vm_compute; reflexivity | constructor].
  - vm_compute. reflexivity.
Defined.

(** C5 (as stated) fails: the text matched for a missing payee is "NAN",
    not the empty string. *)
Lemma C5_missing_payee_is_not_empty_text :
  py_str None = "nan" /\ destinatario_upper None <> "".
Proof. split; [reflexivity | vm_compute; discriminate]. Qed.

(** ** Grouping and sorting *)

Section Agrupamento_props.
Context {A K : Type}.
Variable eqb : K -> K -> bool.
Variable leb : K -> K -> bool.
Hypothesis eqb_eq : forall a b, eqb a b = true <-> a = b.

Lemma In_inserir_chave (k x : K) (l : list K) :
  In x (inserir_chave leb k l) <-> x = k \/ In x l.
Proof.
  induction l as [|y r IH]; simpl.
  - intuition.
  - destruct (leb k y); simpl; [intuition|]. rewrite IH. intuition.
Qed.

Lemma NoDup_inserir_chave (k : K) (l : list K) :
  NoDup l -> ~ In k l -> NoDup (inserir_chave leb k l).
Proof.
  induction l as [|y r IH]; simpl; intros Hl Hk.
  - constructor; [intros [] | constructor].
  - destruct (leb k y).
    + constructor; assumption.
    + inversion Hl as [|z l' Hy Hr]; subst. constructor.
      * rewrite In_inserir_chave. intros [->|H]; [|contradiction].
        apply Hk. left. reflexivity.
      * apply IH; [assumption|]. intros H. apply Hk. right. exact H.
Qed.

Lemma existsb_eqb (k : K) (l : list K) :
  existsb (eqb k) l = true <-> In k l.
Proof.
  rewrite existsb_exists. split.
  - intros (x & Hx & He). apply eqb_eq in He. subst. exact Hx.
  - intros H. exists k. split; [exact H | apply eqb_eq; reflexivity].
Qed.

Lemma In_chaves_unicas (ks : list K) :
  forall x, In x (chaves_unicas eqb leb ks) <-> In x ks.
Proof.
  induction ks as [|k r IH]; simpl; intros x; [tauto|].
  destruct (existsb (eqb k) (chaves_unicas eqb leb r)) eqn:He.
  - apply existsb_eqb, IH in He. rewrite IH. split; [tauto|].
    intros [<-|H]; assumption.
  - rewrite In_inserir_chave, IH. intuition.
Qed.

Lemma NoDup_chaves_unicas (ks : list K) : NoDup (chaves_unicas eqb leb ks).
Proof.
  induction ks as [|k r IH]; simpl; [constructor|].
  destruct (existsb (eqb k) (chaves_unicas eqb leb r)) eqn:He; [exact IH|].
  apply NoDup_inserir_chave; [exact IH|].
  intros H. apply existsb_eqb in H. congruence.
Qed.

Lemma In_presentes (chave : A -> option K) (k : K) (l : list A) :
  In k (presentes chave l) <-> exists r, In r l /\ chave r = Some k.
Proof.
  unfold presentes. rewrite in_flat_map. split.
  - intros (r & Hr & Hk). exists r. split; [exact Hr|].
    destruct (chave r) as [k'|]; simpl in Hk; [|contradiction].
    destruct Hk as [->|[]]. reflexivity.
  - intros (r & Hr & Hk). exists r. split; [exact Hr|].
    rewrite Hk. left. reflexivity.
Qed.


Lemma NoDup_groupby_sum (chave : A -> option K) (val : A -> numero)
  (l : list A) :
  NoDup (map fst (groupby_sum eqb leb chave val l)).
Proof.
  unfold groupby_sum. rewrite map_map. simpl. rewrite map_id.
  apply NoDup_chaves_unicas.
Qed.
Lemma flat_map_grupo_fora (k0 : K) (x : A) (f : K -> list A) (ks : list K) :
  ~ In k0 ks ->
  flat_map (fun k => if eqb k0 k then x :: f k else f k) ks = flat_map f ks.
Proof.
  induction ks as [|k r IH]; simpl; intros H; [reflexivity|].
  destruct (eqb k0 k) eqn:He.
  - apply eqb_eq in He. subst. exfalso. apply H. left. reflexivity.
  - rewrite IH; [reflexivity|]. intros Hr. apply H. right. exact Hr.
Qed.

Lemma flat_map_grupo (k0 : K) (x : A) (f : K -> list A) (ks : list K) :
  NoDup ks -> In k0 ks ->
  Permutation (flat_map (fun k => if eqb k0 k then x :: f k else f k) ks)
    (x :: flat_map f ks).
Proof.
  induction ks as [|k r IH]; simpl; intros Hn Hi; [contradiction|].
  inversion Hn as [|z l Hk Hr]; subst.
  destruct (eqb k0 k) eqn:He.
  - apply eqb_eq in He. subst.
    rewrite flat_map_grupo_fora by assumption. reflexivity.
  - destruct Hi as [->|Hi].
    + assert (eqb k0 k0 = true) by (apply eqb_eq; reflexivity). congruence.
    + rewrite (IH Hr Hi). symmetry. apply Permutation_middle.
Qed.

(** The groups partition the rows that have a key. *)
Lemma Permutation_grupos (chave : A -> option K) (ks : list K) :
  NoDup ks ->
  forall l,
    (forall r k, In r l -> chave r = Some k -> In k ks) ->
    Permutation (flat_map (fun k => grupo eqb chave k l) ks)
      (filter (com_chave chave) l).
Proof.
  intros Hn. induction l as [|r l IH]; intros Hks.
  - simpl. clear Hn Hks.
    induction ks as [|k ks' IHk]; simpl; [reflexivity | exact IHk].
  - assert (IH' := IH (fun r' k Hr => Hks r' k (or_intror Hr))).
    unfold grupo, com_chave, tem_chave in *. simpl.
    destruct (chave r) as [k0|] eqn:Hk.
    + etransitivity.
      * apply (flat_map_grupo k0 r
                 (fun k => filter (fun r0 => match chave r0 with
                                             | Some k' => eqb k' k
                                             | None => false
                                             end) l) ks Hn).
        apply (Hks r k0); [left; reflexivity | exact Hk].
      * apply perm_skip. exact IH'.
    + exact IH'.
Qed.
End Agrupamento_props.

Lemma In_primeiros {A : Type} (n : nat) (l : list A) (x : A) :
  In x (firstn n l) -> In x l.
Proof.
  revert n. induction l as [|y r IH]; intros [|n]; simpl; try tauto.
  intros [->|H]; [left; reflexivity | right; apply (IH n H)].
Qed.

Section Ordenacao_props.
Context {A : Type}.
Variable pontos : A -> Z.

Lemma Forall_inserir_desc (P : A -> Prop) (x : A) (l : list A) :
  Forall P (inserir_desc pontos x l) <-> P x /\ Forall P l.
Proof.
  induction l as [|y r IH]; simpl.
  - split; [intros H; inversion H; auto | intros [H1 H2]; auto].
  - destruct (pontos y <=? pontos x).
    + split; [intros H; inversion H; auto | intros [H1 H2]; auto].
    + split.
      * intros H. inversion H as [|z l Hy Hr]; subst.
        apply IH in Hr. destruct Hr. auto.
      * intros [Hx H]. inversion H as [|z l Hy Hr]; subst.
        constructor; [assumption|]. apply IH. auto.
Qed.

Lemma decrescente_inserir_desc (x : A) (l : list A) :
  decrescente pontos l -> decrescente pontos (inserir_desc pontos x l).
Proof.
  unfold decrescente.
  induction l as [|y r IH]; simpl; intros H.
  - constructor; constructor.
  - destruct (pontos y <=? pontos x) eqn:Hc.
    + apply Z.leb_le in Hc. constructor; [exact H|].
      inversion H as [|z l Hs Hf]; subst. constructor; [exact Hc|].
      eapply Forall_impl; [|exact Hf]. simpl. intros; lia.
    + apply Z.leb_gt in Hc. inversion H as [|z l Hs Hf]; subst.
      constructor; [apply IH; exact Hs|].
      apply Forall_inserir_desc. split; [lia | exact Hf].
Qed.

Lemma decrescente_ordenar_desc (l : list A) :
  decrescente pontos (ordenar_desc pontos l).
Proof.
  induction l as [|x r IH]; simpl.
  - constructor.
  - apply decrescente_inserir_desc. exact IH.
Qed.

Lemma Permutation_inserir_desc (x : A) (l : list A) :
  Permutation (inserir_desc pontos x l) (x :: l).
Proof.
  induction l as [|y r IH]; simpl; [reflexivity|].
  destruct (pontos y <=? pontos x); [reflexivity|].
  rewrite IH. apply perm_swap.
Qed.

Lemma Permutation_ordenar_desc (l : list A) :
  Permutation (ordenar_desc pontos l) l.
Proof.
  induction l as [|x r IH]; simpl; [reflexivity|].
  rewrite Permutation_inserir_desc, IH. reflexivity.
Qed.


Lemma decrescente_app (l1 l2 : list A) :
  decrescente pontos (l1 ++ l2) ->
  forall a b, In a l1 -> In b l2 -> pontos b <= pontos a.
Proof.
  unfold decrescente.
  induction l1 as [|x r IH]; simpl; intros H a b Ha Hb.
  - contradiction.
  - inversion H as [|z l Hs Hf]; subst. destruct Ha as [->|Ha].
    + rewrite Forall_forall in Hf. apply Hf, in_or_app. right. exact Hb.
    + apply IH; assumption.
Qed.


End Ordenacao_props.

Section Quicksort_props.
Context {A : Type}.
Variable desempate : criterio.
Variable pontos : A -> Z.

Lemma map_snd_combine_seq (l : list A) :
  forall i, map snd (combine (seq i (List.length l)) l) = l.
Proof.
  induction l as [|x r IH]; intros i; simpl; [reflexivity|].
  rewrite IH. reflexivity.
Qed.

Lemma decrescente_map_snd (l : list (nat * A)) :
  decrescente (fun ix => pontos (snd ix)) l ->
  decrescente pontos (map snd l).
Proof.
  unfold decrescente. induction 1 as [|x r Hs IH Hf]; simpl; constructor.
  - exact IH.
  - rewrite Forall_forall in *. intros y Hy. apply in_map_iff in Hy.
    destruct Hy as (z & <- & Hz). apply (Hf z Hz).
Qed.

(** Whatever the ranks, the default sort rearranges the list in descending
    order of the score. *)
Lemma Permutation_quicksort_desc (l : list A) :
  Permutation (quicksort_desc desempate pontos l) l.
Proof.
  unfold quicksort_desc.
  rewrite <- (map_snd_combine_seq l 0) at 3.
  apply Permutation_map.
  rewrite Permutation_ordenar_desc. apply Permutation_ordenar_desc.
Qed.

Lemma decrescente_quicksort_desc (l : list A) :
  decrescente pontos (quicksort_desc desempate pontos l).
Proof.
  unfold quicksort_desc. apply decrescente_map_snd.
  apply decrescente_ordenar_desc.
Qed.

End Quicksort_props.

(** ** Totals and top lists *)

Lemma filter_todos {A : Type} (f : A -> bool) (l : list A) :
  (forall x, f x = true) -> filter f l = l.
Proof.
  intros H. induction l as [|x r IH]; simpl; [reflexivity|].
  rewrite H, IH. reflexivity.
Qed.

(** ** Sums by category *)

Lemma acumular_app {N : Type} (mais : N -> N -> N) (a b : list (option N)) :
  forall acc,
    acumular mais acc (a ++ b) = acumular mais (acumular mais acc a) b.
Proof.
  induction a as [|[v|] r IH]; intros acc; simpl; [reflexivity| |]; apply IH.
Qed.

(** What an exact addition gives: the order of the additions is immaterial. *)
Section Adicao_exata.
Context {N : Type}.
Variable zero : N.
Variable mais : N -> N -> N.
Hypothesis mais_assoc : forall a b c, mais (mais a b) c = mais a (mais b c).
Hypothesis mais_comm : forall a b, mais a b = mais b a.
Hypothesis mais_zero : forall a, mais zero a = a.

Lemma acumular_mais (vs : list (option N)) :
  forall acc, acumular mais acc vs = mais acc (soma_em zero mais vs).
Proof.
  unfold soma_em. induction vs as [|[v|] r IH]; intros acc; simpl.
  - rewrite mais_comm, mais_zero. reflexivity.
  - rewrite IH, (IH (mais zero v)), mais_zero. apply mais_assoc.
  - apply IH.
Qed.

Lemma soma_em_cons (v : N) (vs : list (option N)) :
  soma_em zero mais (Some v :: vs) = mais v (soma_em zero mais vs).
Proof.
  unfold soma_em at 1. simpl. rewrite acumular_mais, mais_zero. reflexivity.
Qed.

Lemma soma_em_app (a b : list (option N)) :
  soma_em zero mais (a ++ b)
  = mais (soma_em zero mais a) (soma_em zero mais b).
Proof.
  unfold soma_em at 1. rewrite acumular_app, acumular_mais. reflexivity.
Qed.

Lemma soma_em_nenhum (vs : list (option N)) :
  soma_em zero mais (None :: vs) = soma_em zero mais vs.
Proof. reflexivity. Qed.

Lemma soma_em_Permutation (a b : list (option N)) :
  Permutation a b -> soma_em zero mais a = soma_em zero mais b.
Proof.
  induction 1 as [|x a b _ IH|x y a|a b c _ IH1 _ IH2].
  - reflexivity.
  - destruct x as [v|]; [rewrite !soma_em_cons, IH; reflexivity | exact IH].
  - destruct x as [v|], y as [w|];
      repeat rewrite ?soma_em_cons, ?soma_em_nenhum; try reflexivity.
    rewrite <- !mais_assoc, (mais_comm w v). reflexivity.
  - rewrite IH1. exact IH2.
Qed.

(** The sums of the groups add up to the sum over the rows of all groups. *)
Lemma total_em_grupos {A K : Type} (val : A -> option N) (g : K -> list A)
  (ks : list K) :
  total_em zero mais (map (fun k => (k, soma_em zero mais (map val (g k)))) ks)
  = soma_em zero mais (map val (flat_map g ks)).
Proof.
  unfold total_em. induction ks as [|k r IH]; [reflexivity|].
  simpl map. rewrite soma_em_cons, IH. simpl flat_map.
  rewrite map_app, soma_em_app. reflexivity.
Qed.
End Adicao_exata.

Lemma categorias_presentes (l : list transacao) (c : string) :
  In c (chaves_unicas String.eqb String.leb (presentes chave_categoria l))
  <-> exists t : transacao, In t l /\ categoria t = c.
Proof.
  rewrite (In_chaves_unicas String.eqb String.leb String.eqb_eq).
  rewrite In_presentes. split; intros (t & Ht & Hc); exists t; split; auto.
  - inversion Hc. reflexivity.
  - unfold chave_categoria. rewrite Hc. reflexivity.
Qed.

Lemma Permutation_categorias (l : list transacao) :
  Permutation
    (flat_map
       (fun c => filter (fun t : transacao => String.eqb (categoria t) c) l)
       (chaves_unicas String.eqb String.leb (presentes chave_categoria l)))
    l.
Proof.
  assert (H : Permutation
                (flat_map (fun c => grupo String.eqb chave_categoria c l)
                   (chaves_unicas String.eqb String.leb
                      (presentes chave_categoria l)))
                (filter (com_chave chave_categoria) l)).
  { apply (Permutation_grupos String.eqb String.eqb_eq chave_categoria).
    - apply (NoDup_chaves_unicas String.eqb String.leb String.eqb_eq).
    - intros t c Ht Hc. apply categorias_presentes. exists t.
      inversion Hc. auto. }
  rewrite (filter_todos (com_chave chave_categoria) l) in H
    by (intros x; reflexivity).
  exact H.
Qed.

(** The exact amounts are the instance over [Z]. *)
Lemma acumular_exato (vs : list numero) :
  forall acc, acumular Z.add acc (map exato vs) = acc + soma vs.
Proof.
  induction vs as [|[z|] r IH]; intros acc; simpl; [lia| |apply IH].
  rewrite IH. lia.
Qed.

Lemma soma_em_exato (vs : list numero) :
  soma_em 0 Z.add (map exato vs) = soma vs.
Proof. unfold soma_em. rewrite acumular_exato. reflexivity. Qed.

Lemma total_em_exato {K : Type} (s : list (K * Z)) :
  total_em 0 Z.add s = total s.
Proof.
  unfold total_em, total, soma_em.
  assert (H : forall acc,
             acumular Z.add acc (map (fun p : K * Z => Some (snd p)) s)
             = acc + fold_right Z.add 0 (map snd s)).
  { induction s as [|p r IH]; intros acc; simpl; [lia|]. rewrite IH. lia. }
  rewrite H. reflexivity.
Qed.

Lemma total_gastos_exato (df : list transacao) :
  total_gastos_em 0 Z.add exato df = total_gastos df.
Proof.
  unfold total_gastos_em, total_gastos.
  rewrite <- soma_em_exato, map_map. reflexivity.
Qed.

Lemma gastos_por_categoria_exato (desempate : criterio) (df : list transacao) :
  Permutation (gastos_por_categoria desempate df)
    (somas_por_categoria_em 0 Z.add exato df).
Proof.
  unfold gastos_por_categoria, sort_values_desc.
  rewrite Permutation_quicksort_desc.
  unfold groupby_sum, somas_por_categoria_em.
  erewrite map_ext; [reflexivity|].
  intros c. simpl. rewrite <- soma_em_exato, map_map. reflexivity.
Qed.

(** C9 (as amended): the per-category series of the Expense rows is a
    partition of them, in whatever arithmetic the sums are made: every
    category an Expense row has is listed once, and the groups of the listed
    categories taken together are the Expense rows.  Where the addition is
    exact (associative and commutative, with 0 neutral), each listed total
    is the sum of the absolute values of the Expense rows of its category,
    and the totals, in any order, add up to the total of all Expense
    rows. *)
Theorem C9_by_category_partitions_expense :
  forall (N : Type) (zero : N) (mais : N -> N -> N)
         (quantia : numero -> option N) (df : list transacao),
    let por_categoria := somas_por_categoria_em zero mais quantia df in
    let da_categoria := fun c =>
      filter (fun t : transacao => String.eqb (categoria t) c) (gastos df) in
    NoDup (map fst por_categoria)
    /\ (forall c, In c (map fst por_categoria)
                  <-> exists t : transacao, In t (gastos df) /\ categoria t = c)
    /\ Permutation (flat_map da_categoria (map fst por_categoria)) (gastos df)
    /\ ((forall a b c, mais (mais a b) c = mais a (mais b c)) ->
        (forall a b, mais a b = mais b a) ->
        (forall a, mais zero a = a) ->
        (forall c v,
            In (c, v) por_categoria ->
            v = soma_em zero mais
                  (map (fun t => quantia (absoluto t)) (da_categoria c)))
        /\ (forall s,
               Permutation s por_categoria ->
               total_em zero mais s = total_gastos_em zero mais quantia df)).
Proof.
  intros N zero mais quantia df por_categoria da_categoria.
  assert (Hf : map fst por_categoria
               = chaves_unicas String.eqb String.leb
                   (presentes chave_categoria (gastos df))).
  { unfold por_categoria, somas_por_categoria_em.
    rewrite map_map. simpl. apply map_id. }
  split; [|split; [|split]].
  - rewrite Hf. apply (NoDup_chaves_unicas String.eqb String.leb String.eqb_eq).
  - intros c. rewrite Hf. apply categorias_presentes.
  - rewrite Hf. apply Permutation_categorias.
  - intros Ha Hc Hz. split.
    + intros c v Hin. unfold por_categoria, somas_por_categoria_em in Hin.
      apply in_map_iff in Hin. destruct Hin as (c' & He & _).
      inversion He; subst. reflexivity.
    + intros s Hs.
      transitivity (total_em zero mais por_categoria).
      { unfold total_em. apply (soma_em_Permutation zero mais Ha Hc Hz).
        apply Permutation_map. exact Hs. }
      unfold por_categoria, somas_por_categoria_em.
      rewrite (total_em_grupos zero mais Ha Hc Hz
                 (fun t : transacao => quantia (absoluto t))
                 (fun c => grupo String.eqb chave_categoria c (gastos df))).
      unfold total_gastos_em. apply (soma_em_Permutation zero mais Ha Hc Hz).
      apply Permutation_map. apply Permutation_categorias.
Qed.

(** The exact amounts satisfy the three laws: over them the per-category
    totals of every table add up to its Expense total, 3.09 for the three
    expenses of the example. *)
Lemma C9_by_category_partitions_expense_witness :
  (forall desempate df,
      total (gastos_por_categoria desempate df) = total_gastos df)
  /\ total (gastos_por_categoria estavel df_rateio) = 309
  /\ total_gastos df_rateio = 309.
Proof.
  assert (H : forall desempate df,
             total (gastos_por_categoria desempate df) = total_gastos df).
  { intros desempate df.
    rewrite <- total_em_exato, <- total_gastos_exato.
    apply (proj2 (proj2 (proj2
             (C9_by_category_partitions_expense Z 0 Z.add exato df)))).
    - intros a b c. symmetry. apply Z.add_assoc.
    - apply Z.add_comm.
    - apply Z.add_0_l.
    - apply gastos_por_categoria_exato. }
  split; [exact H|]. rewrite H. split; reflexivity.
Defined.

#[local] Set Warnings "-inexact-float".

(** C9 (as stated) fails in the program's arithmetic: for expenses of 1.67
    and 0.03 in one category and 1.39 in another, the total of the Expense
    rows is (1.67 + 1.39) + 0.03 = 3.0899999999999994, while the category
    totals 1.7 and 1.39 add up, in either order, to 3.09.  (Series as short
    as these the libraries add in row order.) *)
Lemma C9_rounded_sums_differ :
  map (fun t : transacao => (categoria t, binary64 (absoluto t)))
    (gastos df_rateio)
  = [ ("Alimentação", Some 1.67%float); ("Transporte", Some 1.39%float);
      ("Alimentação", Some 0.03%float) ]
  /\ total_gastos_em 0%float PrimFloat.add binary64 df_rateio
     = 3.0899999999999994%float
  /\ somas_por_categoria_em 0%float PrimFloat.add binary64 df_rateio
     = [ ("Alimentação", 1.7%float); ("Transporte", 1.39%float) ]
  /\ total_em 0%float PrimFloat.add
       [ ("Alimentação", 1.7%float); ("Transporte", 1.39%float) ]
     = 3.09%float
  /\ total_em 0%float PrimFloat.add
       [ ("Transporte", 1.39%float); ("Alimentação", 1.7%float) ]
     = 3.09%float
  /\ PrimFloat.ltb 3.0899999999999994%float 3.09%float = true.
Proof. repeat split; vm_compute; reflexivity. Qed.

#[local] Set Warnings "inexact-float".

(** ** Top lists *)


Lemma nlargest_ordenada {K : Type} (desempate : criterio) (n : nat)
  (s : list (K * Z)) :
  exists o, nlargest desempate n s = firstn n o
            /\ Permutation o s /\ decrescente snd o.
Proof.
  unfold nlargest, head, sort_values_desc.
  destruct (List.length s <=? n)%nat.
  - exists (quicksort_desc desempate snd s). split; [reflexivity|].
    split; [apply Permutation_quicksort_desc|].
    apply decrescente_quicksort_desc.
  - exists (ordenar_desc snd s). split; [reflexivity|].
    split; [apply Permutation_ordenar_desc | apply decrescente_ordenar_desc].
Qed.





(** How payees of equal sum stand in a sheet that holds them all is the
    sort's doing: the stable order leaves the sixteen payees of the example
    in grouping order, the opposite ranks turn them around. *)
Lemma empates_na_ordem_do_sort :
  map fst (destinatarios estavel df_dezesseis)
  = map fst (por_destinatario (gastos df_dezesseis))
  /\ map fst (destinatarios ao_contrario df_dezesseis)
     = rev (map fst (por_destinatario (gastos df_dezesseis))).
Proof. split; vm_compute; reflexivity. Qed.

(** ** Empty Expense or Income subset *)

Lemma extremo_algum (melhor : datahora -> datahora -> bool)
  (l : list datahora) :
  l <> [] -> exists d, extremo melhor l = Some d.
Proof.
  destruct l as [|d r]; [congruence|]. intros _. simpl.
  destruct (extremo melhor r) as [e|]; eauto.
Qed.

Lemma html_content_subconjunto_vazio (desempate : criterio)
  (df : list transacao) :
  gastos df = [] \/ receitas df = [] ->
  exists e,
    html_content desempate df = Erro e
    /\ (e = IndexError \/ e = ValueError "NaTType does not support strftime")
    /\ (datas df <> [] -> e = IndexError).
Proof.
  intros H. unfold html_content.
  destruct (datas df) as [|d ds] eqn:Hd.
  - simpl. eexists. split; [reflexivity|]. split; [right; reflexivity|].
    congruence.
  - destruct (extremo_algum datahora_leb (d :: ds)) as (i & ->);
      [discriminate|].
    destruct (extremo_algum (fun a b => datahora_leb b a) (d :: ds))
      as (f & ->); [discriminate|].
    simpl. unfold principais_destinos, principais_fontes.
    destruct H as [H|H]; rewrite H.
    + simpl. exists IndexError. repeat split; auto.
    + destruct (nlargest desempate 15 (por_destinatario (gastos df)));
        simpl; exists IndexError; repeat split; auto.
Qed.

(** C7 (as amended): when the Expense or the Income subset is empty the
    aggregate steps do not fail -- the subset's total is 0 and its grouped
    and top lists are empty.  The chart report then fails as a whole: taking
    the first entry of the empty top list raises an index error (when no row
    has a date, formatting the missing date fails first), before the HTML
    file is written; the driver stops there and leaves both files as they
    were. *)
Theorem C7_empty_subset :
  forall desempate df,
    gastos df = [] \/ receitas df = [] ->
    (gastos df = [] ->
     total_gastos df = 0 /\ principais_destinos desempate df = []
     /\ gastos_por_categoria desempate df = []
     /\ destinatarios desempate df = [])
    /\ (receitas df = [] ->
        total_receitas df = 0 /\ principais_fontes desempate df = []
        /\ fontes desempate df = [])
    /\ exists e,
        (e = IndexError \/ e = ValueError "NaTType does not support strftime")
        /\ (datas df <> [] -> e = IndexError)
        /\ html_content desempate df = Erro e
        /\ (forall fs, criar_dashboard_html_bi desempate df fs = (fs, Erro e))
        /\ (forall to_datetime xl df0 fs,
               processar_extratos_bi to_datetime xl = Ok df0 ->
               criar_categorias_automaticas df0 = Ok df ->
               gerar_dashboard desempate to_datetime (Some xl) fs
               = (fs, Erro e)).
Proof.
  intros desempate df H. split; [|split].
  - intros Hg.
    unfold total_gastos, principais_destinos, gastos_por_categoria,
      destinatarios.
    rewrite Hg. repeat split; reflexivity.
  - intros Hr. unfold total_receitas, principais_fontes, fontes.
    rewrite Hr. repeat split; reflexivity.
  - destruct (html_content_subconjunto_vazio desempate df H)
      as (e & He & Hk & Hd).
    exists e. repeat split; try assumption.
    + intros fs. unfold criar_dashboard_html_bi. rewrite He. reflexivity.
    + intros to_datetime xl df0 fs Hp Hc. unfold gerar_dashboard.
      rewrite Hp, Hc. unfold criar_dashboard_html_bi. rewrite He.
      reflexivity.
Qed.

Lemma C7_empty_subset_witness :
  total_receitas df_so_gastos = 0 /\ principais_fontes estavel df_so_gastos = []
  /\ fontes estavel df_so_gastos = [].
Proof.
  apply (proj1 (proj2 (C7_empty_subset estavel df_so_gastos
                         (or_intror (eq_refl : receitas df_so_gastos = []))))).
  reflexivity.
Defined.

(** C7 (as stated) fails: with no Income row the income total is a plain 0
    and the top payers an empty list, the workbook is written with an empty
    payer sheet, and what stops the chart report is an index error. *)
Lemma C7_silent_zero_and_empty_list :
  receitas df_so_gastos = []
  /\ total_receitas df_so_gastos = 0
  /\ (forall desempate, principais_fontes desempate df_so_gastos = [])
  /\ (forall desempate, html_content desempate df_so_gastos = Erro IndexError)
  /\ (forall desempate,
         snd (exportar_resumos_excel_bi desempate df_so_gastos sem_arquivos)
         = Ok tt)
  /\ (forall desempate,
         option_map sh_fontes_pagadoras
           (resumo_financeiro_bi_xlsx
              (fst (exportar_resumos_excel_bi desempate df_so_gastos
                      sem_arquivos)))
         = Some []).
Proof. repeat split; intros; vm_compute; reflexivity. Qed.

(** ** The monthly summary *)

Lemma nome_movimentacao_eqb (a b : movimentacao) :
  String.eqb (nome_movimentacao a) (nome_movimentacao b)
  = movimentacao_eqb a b.
Proof. destruct a, b; reflexivity. Qed.

Lemma tem_coluna_In (c : string) (cols : list string) :
  tem_coluna c cols = true <-> In c cols.
Proof. apply (existsb_eqb String.eqb String.eqb_eq). Qed.


Lemma num_em_map (f : string -> numero) (c : string) (cols : list string) :
  In c cols -> num_em c (map (fun x => (x, f x)) cols) = f c.
Proof.
  unfold num_em. induction cols as [|x r IH]; simpl; intros H; [contradiction|].
  destruct (String.eqb x c) eqn:He.
  - apply String.eqb_eq in He. subst. reflexivity.
  - destruct H as [->|H]; [rewrite String.eqb_refl in He; discriminate|].
    apply IH. exact H.
Qed.





(** ** Frames *)

Lemma trocar_length (c : string) (v : celula) (cols : list string) :
  forall r, List.length (trocar c v cols r) = List.length r.
Proof.
  induction cols as [|col cols IH]; intros [|x r]; simpl; auto.
Qed.

Lemma definir_coluna_length (c : string) (vals : list celula) (q : quadro) :
  List.length vals = List.length (registros q) ->
  List.length (registros (definir_coluna c vals q))
  = List.length (registros q).
Proof.
  intros H. unfold definir_coluna.
  destruct (tem_coluna c (colunas q)); simpl;
    rewrite length_map, length_combine; lia.
Qed.

Lemma atribuir_length (c : string) (v : celula) (q : quadro) :
  List.length (registros (atribuir c v q)) = List.length (registros q).
Proof.
  unfold atribuir. apply definir_coluna_length. apply repeat_length.
Qed.

Lemma definir_coluna_retangular (c : string) (vals : list celula)
  (q : quadro) :
  retangular q -> retangular (definir_coluna c vals q).
Proof.
  unfold retangular, definir_coluna. rewrite !Forall_forall. intros H.
  destruct (tem_coluna c (colunas q)); simpl; intros r' Hr';
    apply in_map_iff in Hr'; destruct Hr' as ([r v] & <- & Hin);
    apply in_combine_l in Hin; simpl.
  - rewrite trocar_length. apply H. exact Hin.
  - rewrite !length_app. simpl. rewrite (H r Hin). reflexivity.
Qed.

Lemma tem_coluna_definir_coluna (x c : string) (vals : list celula)
  (q : quadro) :
  x <> c ->
  tem_coluna x (colunas (definir_coluna c vals q)) = tem_coluna x (colunas q).
Proof.
  intros Hx. unfold definir_coluna.
  destruct (tem_coluna c (colunas q)); simpl; [reflexivity|].
  unfold tem_coluna. rewrite existsb_app. simpl.
  apply String.eqb_neq in Hx. rewrite Hx. rewrite !orb_false_r. reflexivity.
Qed.

Lemma count_occ_definir_coluna (x c : string) (vals : list celula)
  (q : quadro) :
  x <> c ->
  count_occ string_dec (colunas (definir_coluna c vals q)) x
  = count_occ string_dec (colunas q) x.
Proof.
  intros Hx. unfold definir_coluna.
  destruct (tem_coluna c (colunas q)); simpl; [reflexivity|].
  rewrite count_occ_app. simpl.
  destruct (string_dec c x); [congruence | lia].
Qed.

Lemma obter_cons (c col : string) (x : celula) (r : registro) :
  obter c ((col, x) :: r) = if String.eqb col c then x else obter c r.
Proof. unfold obter. simpl. destruct (String.eqb col c); reflexivity. Qed.

Lemma obter_trocar (c : string) (v : celula) (cols : list string) :
  forall r,
    List.length r = List.length cols ->
    tem_coluna c cols = true ->
    obter c (combine cols (trocar c v cols r)) = v.
Proof.
  induction cols as [|col cols IH]; intros [|x r] Hl Hc; simpl in *;
    try discriminate.
  rewrite obter_cons. destruct (String.eqb col c) eqn:He; [reflexivity|].
  rewrite String.eqb_sym, He in Hc. simpl in Hc.
  apply IH; [lia | exact Hc].
Qed.

Lemma obter_acrescentar (c : string) (v : celula) (cols : list string) :
  forall r,
    List.length r = List.length cols ->
    tem_coluna c cols = false ->
    obter c (combine (cols ++ [c]) (r ++ [v])) = v.
Proof.
  induction cols as [|col cols IH]; intros [|x r] Hl Hc; simpl in *;
    try discriminate.
  - rewrite obter_cons, String.eqb_refl. reflexivity.
  - rewrite obter_cons. apply orb_false_iff in Hc. destruct Hc as [He Hc].
    rewrite String.eqb_sym, He. apply IH; [lia | exact Hc].
Qed.

Lemma obter_trocar_outra (c c' : string) (v : celula) (cols : list string) :
  c <> c' ->
  forall r,
    obter c (combine cols (trocar c' v cols r)) = obter c (combine cols r).
Proof.
  intros Hc. induction cols as [|col cols IH]; intros [|x r]; simpl;
    try reflexivity.
  rewrite !obter_cons. destruct (String.eqb col c) eqn:He.
  - apply String.eqb_eq in He. subst col.
    apply String.eqb_neq in Hc. rewrite Hc. reflexivity.
  - apply IH.
Qed.

Lemma obter_acrescentar_outra (c c' : string) (v : celula)
  (cols : list string) :
  c <> c' ->
  forall r,
    List.length r = List.length cols ->
    obter c (combine (cols ++ [c']) (r ++ [v])) = obter c (combine cols r).
Proof.
  intros Hc. induction cols as [|col cols IH]; intros [|x r] Hl; simpl in *;
    try discriminate.
  - rewrite obter_cons. apply not_eq_sym, String.eqb_neq in Hc.
    rewrite Hc. reflexivity.
  - rewrite !obter_cons. destruct (String.eqb col c); [reflexivity|].
    apply IH. lia.
Qed.

(** A row of [df] after [df[c] = vals]: the new cell under [c], every other
    column as before. *)
Lemma registros_de_definir_coluna (c : string) (vals : list celula)
  (q : quadro) (r' : registro) :
  retangular q ->
  In r' (registros_de (definir_coluna c vals q)) ->
  exists r v,
    In (r, v) (combine (registros q) vals)
    /\ obter c r' = v
    /\ forall c', c' <> c -> obter c' r' = obter c' (combine (colunas q) r).
Proof.
  unfold retangular, registros_de, definir_coluna. rewrite Forall_forall.
  intros Hq.
  destruct (tem_coluna c (colunas q)) eqn:Hc; simpl; intros Hr';
    apply in_map_iff in Hr'; destruct Hr' as (x & <- & Hx);
    apply in_map_iff in Hx; destruct Hx as ([r v] & <- & Hin);
    exists r, v; simpl; (split; [exact Hin|]);
    assert (Hl := Hq r (in_combine_l _ _ _ _ Hin)).
  - split; [apply obter_trocar; assumption|].
    intros c' Hc'. apply obter_trocar_outra. exact Hc'.
  - split; [apply obter_acrescentar; assumption|].
    intros c' Hc'. apply obter_acrescentar_outra; assumption.
Qed.

Lemma registros_de_atribuir (c : string) (v : celula) (q : quadro)
  (r' : registro) :
  retangular q ->
  In r' (registros_de (atribuir c v q)) ->
  obter c r' = v
  /\ exists r,
      In r (registros q)
      /\ forall c', c' <> c -> obter c' r' = obter c' (combine (colunas q) r).
Proof.
  intros Hq Hr'. unfold atribuir in Hr'.
  destruct (registros_de_definir_coluna c _ q r' Hq Hr')
    as (r & v' & Hin & Hv & Ho).
  split.
  - rewrite Hv. apply in_combine_r in Hin.
    apply repeat_spec in Hin. exact Hin.
  - exists r. split; [apply (in_combine_l _ _ _ _ Hin) | exact Ho].
Qed.

Lemma ajustar_length (n : nat) (r : list celula) :
  List.length (ajustar n r) = n.
Proof.
  unfold ajustar. rewrite length_firstn, length_app, repeat_length. lia.
Qed.

Lemma resolver_valor_length (cols : list string) :
  List.length (resolver_valor cols) = List.length cols.
Proof.
  unfold resolver_valor, renomear.
  destruct (tem_coluna "valor (r$)" cols); [apply length_map|].
  destruct (negb (tem_coluna "valor" cols)); [|reflexivity].
  destruct (find _ cols); [apply length_map | reflexivity].
Qed.

Lemma quadro_identificado_length (a : aba) (cols : list string) :
  List.length (registros (quadro_identificado a cols))
  = List.length (linhas a).
Proof.
  unfold quadro_identificado. rewrite !atribuir_length. simpl.
  apply length_map.
Qed.

Lemma quadro_identificado_retangular (a : aba) (cols : list string) :
  retangular (quadro_identificado a cols).
Proof.
  unfold quadro_identificado, atribuir.
  do 2 apply definir_coluna_retangular.
  unfold retangular. simpl. rewrite Forall_forall. intros r Hr.
  apply in_map_iff in Hr. destruct Hr as (x & <- & _).
  rewrite ajustar_length, resolver_valor_length. reflexivity.
Qed.

Lemma quadro_identificado_origem (a : aba) (cols : list string)
  (r : registro) :
  In r (registros_de (quadro_identificado a cols)) ->
  obter "origem" r = Texto (nome a).
Proof.
  unfold quadro_identificado. intros Hr.
  set (df0 := {| colunas := resolver_valor cols;
                 registros := map (ajustar (List.length cols)) (linhas a) |})
    in *.
  assert (H0 : retangular df0).
  { unfold retangular, df0. simpl. rewrite Forall_forall. intros x Hx.
    apply in_map_iff in Hx. destruct Hx as (y & <- & _).
    rewrite ajustar_length, resolver_valor_length. reflexivity. }
  assert (H1 : retangular (atribuir "origem" (Texto (nome a)) df0))
    by (apply definir_coluna_retangular; exact H0).
  destruct (registros_de_atribuir _ _ _ r H1 Hr) as (_ & r1 & Hr1 & Ho).
  rewrite Ho by discriminate.
  apply (registros_de_atribuir "origem" (Texto (nome a)) df0).
  - exact H0.
  - unfold registros_de. apply in_map. exact Hr1.
Qed.

(** ** The sheet loader *)

Lemma length_concat_linhas (qs : list quadro) :
  List.length (tb_linhas (concat qs))
  = list_sum (map (fun q => List.length (registros q)) qs).
Proof.
  unfold concat. simpl. induction qs as [|q qs IH]; simpl; [reflexivity|].
  rewrite length_app, IH. unfold registros_de. rewrite length_map.
  reflexivity.
Qed.

Lemma resolver_valor_sem_valor (cols : list string) :
  tem_coluna "valor" (resolver_valor cols) = false ->
  resolver_valor cols = cols
  /\ forall c, In c cols -> contem "valor" (lower c) = false.
Proof.
  unfold resolver_valor.
  assert (Hren : forall velho l,
             In velho l -> tem_coluna "valor" (renomear velho "valor" l) = true).
  { intros velho l Hin. apply tem_coluna_In. unfold renomear.
    apply in_map_iff. exists velho. split; [|exact Hin].
    rewrite String.eqb_refl. reflexivity. }
  destruct (tem_coluna "valor (r$)" cols) eqn:H1.
  - intros H. apply tem_coluna_In in H1.
    rewrite (Hren _ _ H1) in H. discriminate.
  - destruct (tem_coluna "valor" cols) eqn:H2; simpl; [congruence|].
    destruct (find (fun col => contem "valor" (lower col)) cols) as [col|]
      eqn:Hf.
    + intros H. apply find_some in Hf. destruct Hf as [Hin _].
      rewrite (Hren _ _ Hin) in H. discriminate.
    + intros _. split; [reflexivity|]. intros c Hc.
      apply (find_none _ _ Hf c Hc).
Qed.

Section Leitura_props.
Variable to_datetime : list celula -> resultado (list (option datahora)).

Lemma converter_data_ok (q q' : quadro) :
  converter_data to_datetime q = Ok q' ->
  count_occ string_dec (colunas q) "data" = 1%nat
  /\ exists ds,
      to_datetime (coluna "data" q) = Ok ds
      /\ List.length ds = List.length (registros q)
      /\ q' = definir_coluna "data" (map celula_de_data ds) q.
Proof.
  unfold converter_data.
  destruct (count_occ string_dec (colunas q) "data") as [|[|n]];
    try discriminate.
  destruct (to_datetime (coluna "data" q)) as [ds|e]; [|discriminate].
  cbn [ligar].
  destruct (Nat.eqb (List.length ds) (List.length (registros q))) eqn:Hl;
    [|discriminate].
  cbn [exige ligar]. intros H. inversion H; subst.
  apply Nat.eqb_eq in Hl. split; [reflexivity|]. exists ds. auto.
Qed.

Lemma normalizar_aba_ok (a : aba) (q : quadro) :
  normalizar_aba to_datetime a = Ok q ->
  exists cols,
    mapear normalizar_coluna (cabecalho a) = Ok cols
    /\ converter_data to_datetime (quadro_identificado a cols) = Ok q.
Proof.
  unfold normalizar_aba.
  destruct (mapear normalizar_coluna (cabecalho a)) as [cols|e];
    [|discriminate].
  cbn [ligar]. intros H. exists cols. auto.
Qed.

Lemma normalizar_aba_linhas (a : aba) (q : quadro) :
  normalizar_aba to_datetime a = Ok q ->
  List.length (registros q) = List.length (linhas a).
Proof.
  intros H. destruct (normalizar_aba_ok a q H) as (cols & _ & Hc).
  destruct (converter_data_ok _ _ Hc) as (_ & ds & _ & Hl & ->).
  rewrite definir_coluna_length.
  - apply quadro_identificado_length.
  - rewrite length_map. exact Hl.
Qed.

Lemma normalizar_aba_origem (a : aba) (q : quadro) (r : registro) :
  normalizar_aba to_datetime a = Ok q ->
  In r (registros_de q) ->
  obter "origem" r = Texto (nome a).
Proof.
  intros H Hr. destruct (normalizar_aba_ok a q H) as (cols & _ & Hc).
  destruct (converter_data_ok _ _ Hc) as (_ & ds & _ & _ & ->).
  destruct (registros_de_definir_coluna "data" _ _ r
              (quadro_identificado_retangular a cols) Hr)
    as (r0 & v & Hin & _ & Ho).
  rewrite Ho by discriminate.
  apply (quadro_identificado_origem a cols).
  unfold registros_de. apply in_map. apply (in_combine_l _ _ _ _ Hin).
Qed.

(** The loop tries every sheet it is given, in order; a sheet that raises
    leaves a warning and no frame, the others leave their frame. *)
Lemma percorrer_abas_tentativas (l : list aba) :
  percorrer_abas to_datetime l
  = (flat_map aviso_de (map (tentativa to_datetime) l),
     flat_map (fun a => quadro_de (normalizar_aba to_datetime a)) l).
Proof.
  induction l as [|a r IH]; simpl; [reflexivity|].
  rewrite IH.
  change (aviso_de (tentativa to_datetime a))
    with (match normalizar_aba to_datetime a with
          | Erro e => [(nome a, e)]
          | Ok _ => []
          end).
  destruct (normalizar_aba to_datetime a); reflexivity.
Qed.

Lemma percorrer_abas_app (l1 l2 : list aba) :
  percorrer_abas to_datetime (l1 ++ l2)
  = ((fst (percorrer_abas to_datetime l1)
      ++ fst (percorrer_abas to_datetime l2))%list,
     (snd (percorrer_abas to_datetime l1)
      ++ snd (percorrer_abas to_datetime l2))%list).
Proof.
  rewrite !percorrer_abas_tentativas. simpl.
  rewrite map_app, !flat_map_app. reflexivity.
Qed.

Lemma linhas_dos_dados (l : list aba) :
  list_sum (map (fun q => List.length (registros q))
              (snd (percorrer_abas to_datetime l)))
  = list_sum (map (linhas_contribuidas to_datetime) l).
Proof.
  induction l as [|a r IH]; simpl; [reflexivity|].
  destruct (percorrer_abas to_datetime r) as [av qs] eqn:Hp. simpl in IH.
  unfold linhas_contribuidas at 1.
  destruct (normalizar_aba to_datetime a) as [q|e] eqn:Hn; simpl.
  - rewrite IH, (normalizar_aba_linhas a q Hn). reflexivity.
  - exact IH.
Qed.

Lemma In_abas (xl : list aba) (a : aba) :
  In a (abas xl) <-> In a xl /\ nome a <> "Planilha2".
Proof.
  unfold abas. rewrite filter_In, negb_true_iff, String.eqb_neq. tauto.
Qed.

Lemma In_dados (l : list aba) (q : quadro) :
  In q (snd (percorrer_abas to_datetime l)) ->
  exists a, In a l /\ normalizar_aba to_datetime a = Ok q.
Proof.
  rewrite percorrer_abas_tentativas. simpl. rewrite in_flat_map.
  intros (a & Ha & Hq). exists a. split; [exact Ha|].
  destruct (normalizar_aba to_datetime a) as [q'|e]; simpl in Hq.
  - destruct Hq as [->|[]]. reflexivity.
  - contradiction.
Qed.

Lemma processar_linhas (xl : list aba) (df : tabela) :
  processar_extratos_bi to_datetime xl = Ok df ->
  List.length (tab_linhas df)
  = list_sum (map (linhas_contribuidas to_datetime) (abas xl)).
Proof.
  intros H. destruct (processar_ok to_datetime xl df H) as (_ & _ & _ & _ & Hm).
  rewrite (mapear_length _ _ _ Hm), length_concat_linhas.
  apply linhas_dos_dados.
Qed.

Lemma processar_origem (xl : list aba) (df : tabela) (l : linha) :
  processar_extratos_bi to_datetime xl = Ok df ->
  In l (tab_linhas df) ->
  exists a q,
    In a (abas xl)
    /\ normalizar_aba to_datetime a = Ok q
    /\ In (campos l) (registros_de q)
    /\ obter "origem" (campos l) = Texto (nome a).
Proof.
  intros H Hl.
  destruct (processar_ok to_datetime xl df H) as (_ & _ & _ & _ & Hm).
  destruct (mapear_In _ _ _ l Hm Hl) as (r & Hr & Hd).
  destruct (derivar_ok r l Hd) as (Hc & _). rewrite Hc.
  unfold concat in Hr. simpl in Hr. apply in_flat_map in Hr.
  destruct Hr as (q & Hq & Hrq).
  destruct (In_dados _ q Hq) as (a & Ha & Hn).
  exists a, q. repeat split; try assumption.
  apply (normalizar_aba_origem a q r Hn Hrq).
Qed.
End Leitura_props.

(** C10: the loader leaves out the sheets named exactly "Planilha2" and no
    other; every remaining sheet is tried, in order, leaving either a warning
    or its frame; the unified table has the rows of the remaining sheets that
    did not raise, each tagged with the name of its sheet, which is never
    "Planilha2".  An empty sheet under another name is not left out. *)
Theorem C10_only_planilha2_is_excluded :
  forall to_datetime xl,
    (forall a, In a (abas xl) <-> In a xl /\ nome a <> "Planilha2")
    /\ percorrer_abas to_datetime (abas xl)
       = (flat_map aviso_de (map (tentativa to_datetime) (abas xl)),
          flat_map (fun a => quadro_de (normalizar_aba to_datetime a))
            (abas xl))
    /\ (forall df,
           processar_extratos_bi to_datetime xl = Ok df ->
           List.length (tab_linhas df)
           = list_sum (map (linhas_contribuidas to_datetime) (abas xl))
           /\ forall l,
               In l (tab_linhas df) ->
               exists a,
                 In a xl /\ nome a <> "Planilha2"
                 /\ obter "origem" (campos l) = Texto (nome a))
    /\ abas [aba_planilha2; aba_vazia; aba_jan] = [aba_vazia; aba_jan]
    /\ map fst (map (tentativa to_datetime)
                  (abas [aba_planilha2; aba_vazia; aba_jan]))
       = ["Planilha3"; "Jan"].
Proof.
  intros to_datetime xl. split; [|split; [|split; [|split]]].
  - apply In_abas.
  - apply percorrer_abas_tentativas.
  - intros df H. split; [apply processar_linhas; exact H|].
    intros l Hl.
    destruct (processar_origem to_datetime xl df l H Hl)
      as (a & q & Ha & _ & _ & Ho).
    apply In_abas in Ha. destruct Ha as [Ha Hn].
    exists a. auto.
  - reflexivity.
  - reflexivity.
Qed.

Lemma dados_combinados_vazio (to_datetime : list celula ->
                                            resultado (list (option datahora)))
  (xl : list aba) :
  dados_combinados to_datetime xl = [] <->
  forall a, In a xl -> nome a <> "Planilha2" ->
            exists e, normalizar_aba to_datetime a = Erro e.
Proof.
  unfold dados_combinados. rewrite percorrer_abas_tentativas. simpl. split.
  - intros H a Ha Hn.
    assert (Hin : In a (abas xl)) by (apply In_abas; auto).
    destruct (normalizar_aba to_datetime a) as [q|e] eqn:He; [|eauto].
    exfalso.
    assert (Hq : In q (flat_map
                         (fun a => quadro_de (normalizar_aba to_datetime a))
                         (abas xl))).
    { apply in_flat_map. exists a. split; [exact Hin|].
      rewrite He. left. reflexivity. }
    rewrite H in Hq. contradiction.
  - intros H.
    destruct (flat_map (fun a => quadro_de (normalizar_aba to_datetime a))
                (abas xl)) as [|q qs] eqn:Hf; [reflexivity|].
    exfalso.
    assert (Hq : In q (q :: qs)) by (left; reflexivity).
    rewrite <- Hf in Hq. apply in_flat_map in Hq.
    destruct Hq as (a & Ha & Hq). apply In_abas in Ha.
    destruct (H a (proj1 Ha) (proj2 Ha)) as (e & He).
    rewrite He in Hq. contradiction.
Qed.

(** C4: when no sheet survives normalisation, processing raises the
    dedicated error (a ValueError with the message "Nenhuma aba válida foi
    encontrada"), the run stops there, and both output files are left as they
    were. *)
Theorem C4_no_valid_sheet_aborts :
  forall desempate to_datetime xl fs,
    dados_combinados to_datetime xl = [] ->
    processar_extratos_bi to_datetime xl = Erro (ValueError nenhuma_aba_valida)
    /\ gerar_dashboard desempate to_datetime (Some xl) fs
       = (fs, Erro (ValueError nenhuma_aba_valida)).
Proof.
  intros desempate to_datetime xl fs H.
  assert (Hp : processar_extratos_bi to_datetime xl
               = Erro (ValueError nenhuma_aba_valida)).
  { unfold processar_extratos_bi. rewrite H. reflexivity. }
  split; [exact Hp|]. unfold gerar_dashboard. rewrite Hp. reflexivity.
Qed.

Lemma C4_no_valid_sheet_aborts_witness :
  processar_extratos_bi so_datas [aba_sem_data; aba_planilha2]
  = Erro (ValueError nenhuma_aba_valida)
  /\ gerar_dashboard estavel so_datas (Some [aba_sem_data; aba_planilha2])
       arquivos_antigos
     = (arquivos_antigos, Erro (ValueError nenhuma_aba_valida)).
Proof.
  apply (C4_no_valid_sheet_aborts estavel so_datas
           [aba_sem_data; aba_planilha2] arquivos_antigos).
  vm_compute. reflexivity.
Defined.

Lemma colunas_quadro_identificado (a : aba) (cols : list string) (x : string) :
  x <> "origem" -> x <> "mes_ano" ->
  tem_coluna x (colunas (quadro_identificado a cols))
  = tem_coluna x (resolver_valor cols)
  /\ count_occ string_dec (colunas (quadro_identificado a cols)) x
     = count_occ string_dec (resolver_valor cols) x.
Proof.
  intros H1 H2. unfold quadro_identificado, atribuir. split.
  - rewrite !tem_coluna_definir_coluna by assumption. reflexivity.
  - rewrite !count_occ_definir_coluna by assumption. reflexivity.
Qed.

(** C3 (as amended): a sheet in which no column qualifies as the value
    column -- no normalised header is "valor (r$)" or "valor" or contains
    "valor" -- is not skipped on that account.  Nothing is renamed, and what
    happens to the sheet is what the date conversion of its frame does: if it
    succeeds the sheet is kept, with all its rows and no "valor" column; if
    it raises, the sheet is skipped with that exception as the logged
    reason.  Either way the loop goes on with the sheets that follow. *)
Theorem C3_sheet_without_value_column :
  forall to_datetime a cols,
    mapear normalizar_coluna (cabecalho a) = Ok cols ->
    tem_coluna "valor" (resolver_valor cols) = false ->
    resolver_valor cols = cols
    /\ (forall c, In c cols -> contem "valor" (lower c) = false)
    /\ normalizar_aba to_datetime a
       = converter_data to_datetime (quadro_identificado a cols)
    /\ (forall q,
           normalizar_aba to_datetime a = Ok q ->
           count_occ string_dec cols "data" = 1%nat
           /\ List.length (registros q) = List.length (linhas a)
           /\ tem_coluna "valor" (colunas q) = false)
    /\ (forall ds,
           count_occ string_dec cols "data" = 1%nat ->
           to_datetime (coluna "data" (quadro_identificado a cols)) = Ok ds ->
           List.length ds = List.length (linhas a) ->
           exists q, normalizar_aba to_datetime a = Ok q)
    /\ (forall antes depois,
           percorrer_abas to_datetime (antes ++ a :: depois)
           = match normalizar_aba to_datetime a with
             | Ok q =>
                 ((fst (percorrer_abas to_datetime antes)
                   ++ fst (percorrer_abas to_datetime depois))%list,
                  (snd (percorrer_abas to_datetime antes)
                   ++ q :: snd (percorrer_abas to_datetime depois))%list)
             | Erro e =>
                 ((fst (percorrer_abas to_datetime antes)
                   ++ (nome a, e) :: fst (percorrer_abas to_datetime depois))%list,
                  (snd (percorrer_abas to_datetime antes)
                   ++ snd (percorrer_abas to_datetime depois))%list)
             end).
Proof.
  intros to_datetime a cols Hcols Hv.
  destruct (resolver_valor_sem_valor cols Hv) as [Hres Hnone].
  assert (Hn : normalizar_aba to_datetime a
               = converter_data to_datetime (quadro_identificado a cols)).
  { unfold normalizar_aba. rewrite Hcols. reflexivity. }
  destruct (colunas_quadro_identificado a cols "data") as [_ Hcount];
    try discriminate.
  destruct (colunas_quadro_identificado a cols "valor") as [Htem _];
    try discriminate.
  split; [exact Hres|]. split; [exact Hnone|]. split; [exact Hn|].
  split; [|split].
  - intros q Hq. rewrite Hn in Hq.
    destruct (converter_data_ok to_datetime _ _ Hq) as (Hc & ds & _ & Hl & ->).
    split; [|split].
    + rewrite <- Hres, <- Hcount. exact Hc.
    + rewrite definir_coluna_length;
        [apply quadro_identificado_length | rewrite length_map; exact Hl].
    + rewrite tem_coluna_definir_coluna by discriminate.
      rewrite Htem. exact Hv.
  - intros ds Hc Hd Hl. rewrite Hn. unfold converter_data.
    rewrite Hcount, Hres, Hc, Hd. cbn [ligar].
    rewrite quadro_identificado_length, Hl, Nat.eqb_refl. cbn [exige ligar].
    eauto.
  - intros antes depois. rewrite percorrer_abas_app. simpl.
    destruct (percorrer_abas to_datetime depois) as [av qs].
    destruct (normalizar_aba to_datetime a); reflexivity.
Qed.

Lemma C3_sheet_without_value_column_witness :
  resolver_valor ["data"; "tipo"] = ["data"; "tipo"]
  /\ exists q, normalizar_aba so_datas aba_sem_valor = Ok q.
Proof.
  destruct (C3_sheet_without_value_column so_datas aba_sem_valor
              ["data"; "tipo"] eq_refl eq_refl)
    as (H1 & _ & _ & _ & H5 & _).
  split; [exact H1|].
  apply (H5 [Some (dia 2024 2 11)]); reflexivity.
Defined.

(** C3 (as stated) fails: a sheet with a date column and no value column of
    any spelling is not skipped; no warning is logged for it and its row is
    in the unified table. *)
Lemma C3_sheet_without_value_column_is_kept :
  mapear normalizar_coluna (cabecalho aba_sem_valor) = Ok ["data"; "tipo"]
  /\ tem_coluna "valor" (resolver_valor ["data"; "tipo"]) = false
  /\ algum_contido ["valor"; "value"] "data" = false
  /\ algum_contido ["valor"; "value"] "tipo" = false
  /\ avisos so_datas [aba_jan; aba_sem_valor] = []
  /\ linhas_contribuidas so_datas aba_sem_valor = 1%nat
  /\ exists df,
      processar_extratos_bi so_datas [aba_jan; aba_sem_valor] = Ok df
      /\ List.length (tab_linhas df) = 4%nat
      /\ map (fun l => obter "origem" (campos l)) (tab_linhas df)
         = [Texto "Jan"; Texto "Jan"; Texto "Jan"; Texto "Fev"].
Proof.
  repeat split; try (vm_compute; reflexivity).
  eexists. split; [vm_compute; reflexivity|].
  split; vm_compute; reflexivity.
Qed.

(** * Further properties *)

(** ** Classification and categories *)

(** X1: a row is Other exactly when its type text holds neither keyword and
    its value is zero or missing; with no keyword in the text a non-zero
    value is classified by its sign. *)
Theorem X1_outro_only_for_zero_or_missing :
  forall t v,
    (classificar_movimentacao t v = Outro <->
     contem "enviado" (lower (py_str t)) = false
     /\ contem "recebido" (lower (py_str t)) = false
     /\ (v = Num 0 \/ v = NaN))
    /\ (contem "enviado" (lower (py_str t)) = false ->
        contem "recebido" (lower (py_str t)) = false ->
        forall z, z <> 0 ->
                  classificar_movimentacao t (Num z)
                  = if z <? 0 then Gasto else Receita).
Proof.
  intros t v. unfold classificar_movimentacao.
  destruct (contem "enviado" (lower (py_str t)));
    destruct (contem "recebido" (lower (py_str t))); simpl.
  - split; [split; [discriminate | intros (H & _); discriminate]|].
    intros H; discriminate.
  - split; [split; [discriminate | intros (H & _); discriminate]|].
    intros H; discriminate.
  - split; [split; [|intros (_ & H & _); discriminate]|intros _ H; discriminate].
    rewrite andb_false_r. discriminate.
  - split.
    + destruct v as [z|]; simpl.
      * rewrite andb_true_r.
        destruct (Z.ltb_spec z 0); [split; [discriminate|]|].
        -- intros (_ & _ & [H1|H1]); [inversion H1; lia | discriminate].
        -- destruct (Z.ltb_spec 0 z); split; try discriminate.
           ++ intros (_ & _ & [H1|H1]); [inversion H1; lia | discriminate].
           ++ intros _. repeat split. left. f_equal. lia.
           ++ reflexivity.
      * split; [intros _; auto | reflexivity].
    + intros _ _ z Hz. simpl. rewrite andb_true_r.
      destruct (Z.ltb_spec z 0); [reflexivity|].
      destruct (Z.ltb_spec 0 z); [reflexivity | lia].
Qed.

Lemma percorrer_sem_categoria (texto : string)
  (cs : list (string * list string)) :
  percorrer cs texto = None -> Forall (sem_palavra texto) cs.
Proof.
  induction cs as [|[c ps] cs IH]; simpl; intros H; [constructor|].
  destruct (algum_contido ps texto) eqn:Hp; [discriminate|].
  constructor; [exact Hp | apply IH; exact H].
Qed.

Lemma outros_sem_palavras (ps : list string) :
  In ("Outros", ps) categorias -> ps = [].
Proof.
  intros H.
  assert (Hall : forallb (fun cp : string * list string =>
                            (negb (String.eqb (fst cp) "Outros")
                             || match snd cp with [] => true | _ => false end)%bool)
                   categorias = true) by (vm_compute; reflexivity).
  rewrite forallb_forall in Hall. specialize (Hall _ H). simpl in Hall.
  destruct ps; [reflexivity | discriminate].
Qed.

Lemma categorizar_ok (l : linha) (t : transacao) :
  categorizar l = Ok t ->
  linha_de t = l
  /\ destinatario_de (obter col_destinatario (campos l))
     = Ok (destinatario_pagador t)
  /\ categoria t = classificar_categoria (destinatario_pagador t).
Proof.
  unfold categorizar.
  destruct (destinatario_de (obter col_destinatario (campos l))) as [d|e];
    [|discriminate].
  cbn [ligar]. intros H. inversion H; subst; simpl. auto.
Qed.

Lemma criar_categorias_ok (df0 : tabela) (df : list transacao) :
  criar_categorias_automaticas df0 = Ok df ->
  tem_coluna col_destinatario (tab_colunas df0) = true
  /\ mapear categorizar (tab_linhas df0) = Ok df.
Proof.
  unfold criar_categorias_automaticas.
  destruct (tem_coluna col_destinatario (tab_colunas df0)); [|discriminate].
  cbn [exige ligar]. auto.
Qed.

(** X2: the category of a payee is always one of the twelve names of the
    table, and it is "Outros" exactly when no keyword of any category occurs
    in the upper-cased payee text; every row that
    [criar_categorias_automaticas] returns carries the category of its own
    payee. *)
Theorem X2_category_in_table_and_outros :
  forall d,
    In (classificar_categoria d) (map fst categorias)
    /\ (classificar_categoria d = "Outros" <->
        Forall (sem_palavra (destinatario_upper d)) categorias)
    /\ (forall df0 df t,
           criar_categorias_automaticas df0 = Ok df ->
           In t df ->
           categoria t = classificar_categoria (destinatario_pagador t)
           /\ In (categoria t) (map fst categorias)
           /\ In (linha_de t) (tab_linhas df0)).
Proof.
  assert (Hin : forall d, In (classificar_categoria d) (map fst categorias)).
  { intros d. unfold classificar_categoria.
    destruct (percorrer categorias (destinatario_upper d)) as [c|] eqn:Hp.
    - apply percorrer_alguma in Hp.
      destruct Hp as (pre & ps & post & Hc & _). rewrite Hc.
      rewrite map_app. apply in_or_app. right. left. reflexivity.
    - vm_compute. do 11 right. left. reflexivity. }
  intros d. split; [apply Hin|]. split.
  - unfold classificar_categoria. split.
    + destruct (percorrer categorias (destinatario_upper d)) as [c|] eqn:Hp.
      * intros ->. apply percorrer_alguma in Hp.
        destruct Hp as (pre & ps & post & Hc & _ & Hps).
        assert (Hp : In ("Outros", ps) categorias).
        { rewrite Hc. apply in_or_app. right. left. reflexivity. }
        apply outros_sem_palavras in Hp. subst ps. discriminate.
      * intros _. apply percorrer_sem_categoria. exact Hp.
    + intros H. rewrite (percorrer_nenhuma _ _ H). reflexivity.
  - intros df0 df t Hc Ht.
    destruct (criar_categorias_ok df0 df Hc) as (_ & Hm).
    destruct (mapear_In _ _ _ t Hm Ht) as (l & Hl & Hcat).
    destruct (categorizar_ok l t Hcat) as (Hld & _ & Hcg).
    split; [exact Hcg|]. split; [rewrite Hcg; apply Hin|].
    rewrite Hld. exact Hl.
Qed.

(** ** The rows of the unified table *)

Lemma derivar_campos (r : registro) (l : linha) :
  derivar r = Ok l ->
  campos l = r
  /\ data l = data_de (obter "data" r)
  /\ mes l = option_map dh_mes (data l)
  /\ ano l = option_map dh_ano (data l)
  /\ mes_ano_period l
     = option_map (fun d => (dh_ano d, dh_mes d)) (data l).
Proof.
  unfold derivar. destruct (numero_de (obter "valor" r)) as [v|e];
    [|discriminate].
  cbn [ligar]. intros H. inversion H; subst; simpl. auto.
Qed.

Lemma mapear_campos (rs : list registro) :
  forall ls, mapear derivar rs = Ok ls -> map campos ls = rs.
Proof.
  induction rs as [|r rs IH]; simpl; intros ls H.
  - inversion H. reflexivity.
  - destruct (derivar r) as [l|e] eqn:Hd; [|discriminate]. cbn [ligar] in H.
    destruct (mapear derivar rs) as [ls'|e]; [|discriminate].
    cbn [ligar] in H. inversion H; subst. simpl.
    rewrite (IH ls' eq_refl).
    destruct (derivar_campos r l Hd) as (-> & _). reflexivity.
Qed.

(** X3: in every row of the unified table [valor_absoluto] is the absolute
    value of [valor], the number read from the row's value cell: never
    negative, equal to the value or to its opposite, and missing exactly
    when the value is. *)
Theorem X3_valor_absoluto_is_abs :
  forall to_datetime xl df l,
    processar_extratos_bi to_datetime xl = Ok df ->
    In l (tab_linhas df) ->
    numero_de (obter "valor" (campos l)) = Ok (valor l)
    /\ valor_absoluto l = abs (valor l)
    /\ (forall z, valor_absoluto l = Num z ->
                  0 <= z /\ (valor l = Num z \/ valor l = Num (- z)))
    /\ (valor_absoluto l = NaN <-> valor l = NaN).
Proof.
  intros to_datetime xl df l Hp Hl.
  destruct (processar_ok to_datetime xl df Hp) as (_ & _ & _ & _ & Hm).
  destruct (mapear_In derivar _ _ l Hm Hl) as (r & _ & Hr).
  destruct (derivar_ok r l Hr) as (Hc & _ & Hv & _ & Ha).
  rewrite Hc. split; [exact Hv|]. split; [exact Ha|]. rewrite Ha.
  destruct (valor l) as [x|]; simpl; split.
  - intros z Hz. inversion Hz; subst. split; [apply Z.abs_nonneg|].
    destruct (Z.abs_spec x) as [[_ ->]|[_ ->]]; [left | right]; f_equal; lia.
  - split; discriminate.
  - intros z Hz. discriminate.
  - split; reflexivity.
Qed.

Lemma X3_valor_absoluto_is_abs_witness :
  numero_de (obter "valor" (campos linha_jan_1)) = Ok (valor linha_jan_1)
  /\ valor_absoluto linha_jan_1 = abs (valor linha_jan_1)
  /\ (forall z, valor_absoluto linha_jan_1 = Num z ->
                0 <= z
                /\ (valor linha_jan_1 = Num z \/ valor linha_jan_1 = Num (- z)))
  /\ (valor_absoluto linha_jan_1 = NaN <-> valor linha_jan_1 = NaN).
Proof.
  apply (X3_valor_absoluto_is_abs so_datas [aba_jan] tabela_jan linha_jan_1).
  - vm_compute. reflexivity.
  - simpl. left. reflexivity.
Defined.

Lemma map_constante {A B : Type} (f : A -> B) (c : B) (l : list A) :
  (forall x, In x l -> f x = c) -> map f l = repeat c (List.length l).
Proof.
  induction l as [|x r IH]; simpl; intros H; [reflexivity|].
  rewrite (H x (or_introl eq_refl)), IH; [reflexivity|].
  intros y Hy. apply H. right. exact Hy.
Qed.

Lemma quadro_identificado_mes_ano (a : aba) (cols : list string)
  (r : registro) :
  In r (registros_de (quadro_identificado a cols)) ->
  obter "mes_ano" r = Texto (nome a).
Proof.
  unfold quadro_identificado. intros Hr.
  set (df1 := atribuir "origem" (Texto (nome a))
                {| colunas := resolver_valor cols;
                   registros := map (ajustar (List.length cols)) (linhas a) |})
    in *.
  assert (H1 : retangular df1).
  { apply definir_coluna_retangular.
    unfold retangular. simpl. rewrite Forall_forall. intros x Hx.
    apply in_map_iff in Hx. destruct Hx as (y & <- & _).
    rewrite ajustar_length, resolver_valor_length. reflexivity. }
  destruct (registros_de_atribuir "mes_ano" (Texto (nome a)) df1 r H1 Hr)
    as [H _].
  exact H.
Qed.

Section Linhas_props.
Variable to_datetime : list celula -> resultado (list (option datahora)).

Lemma normalizar_aba_mes_ano (a : aba) (q : quadro) (r : registro) :
  normalizar_aba to_datetime a = Ok q ->
  In r (registros_de q) ->
  obter "mes_ano" r = Texto (nome a).
Proof.
  intros H Hr. destruct (normalizar_aba_ok to_datetime a q H) as (cols & _ & Hc).
  destruct (converter_data_ok to_datetime _ _ Hc) as (_ & ds & _ & _ & ->).
  destruct (registros_de_definir_coluna "data" _ _ r
              (quadro_identificado_retangular a cols) Hr)
    as (r0 & v & Hin & _ & Ho).
  rewrite Ho by discriminate.
  apply (quadro_identificado_mes_ano a cols).
  unfold registros_de. apply in_map. apply (in_combine_l _ _ _ _ Hin).
Qed.

Lemma normalizar_aba_data (a : aba) (q : quadro) (r : registro) :
  normalizar_aba to_datetime a = Ok q ->
  In r (registros_de q) ->
  exists d, obter "data" r = celula_de_data d.
Proof.
  intros H Hr. destruct (normalizar_aba_ok to_datetime a q H) as (cols & _ & Hc).
  destruct (converter_data_ok to_datetime _ _ Hc) as (_ & ds & _ & _ & ->).
  destruct (registros_de_definir_coluna "data" _ _ r
              (quadro_identificado_retangular a cols) Hr)
    as (r0 & v & Hin & Hv & _).
  apply in_combine_r, in_map_iff in Hin. destruct Hin as (d & Hd & _).
  exists d. rewrite Hv, Hd. reflexivity.
Qed.

Lemma registros_dos_dados (l : list aba) (r : registro) :
  In r (flat_map registros_de (snd (percorrer_abas to_datetime l))) ->
  exists a q,
    In a l /\ normalizar_aba to_datetime a = Ok q /\ In r (registros_de q).
Proof.
  intros H. apply in_flat_map in H. destruct H as (q & Hq & Hr).
  destruct (In_dados to_datetime l q Hq) as (a & Ha & Hn).
  exists a, q. auto.
Qed.

Lemma origens_dos_dados (l : list aba) :
  map (obter "origem")
    (flat_map registros_de (snd (percorrer_abas to_datetime l)))
  = flat_map (fun a => repeat (Texto (nome a))
                         (linhas_contribuidas to_datetime a)) l.
Proof.
  induction l as [|a r IH]; [reflexivity|].
  simpl percorrer_abas. destruct (percorrer_abas to_datetime r) as [av qs].
  simpl in IH. cbn [flat_map]. unfold linhas_contribuidas at 1.
  destruct (normalizar_aba to_datetime a) as [q|e] eqn:Hn; simpl.
  - rewrite map_app, IH. f_equal.
    rewrite (map_constante _ (Texto (nome a))).
    + unfold registros_de. rewrite length_map.
      rewrite (normalizar_aba_linhas to_datetime a q Hn). reflexivity.
    + intros x Hx. apply (normalizar_aba_origem to_datetime a q x Hn Hx).
  - exact IH.
Qed.
End Linhas_props.

(** X4: the unified table keeps the sheets in workbook order and each
    sheet's rows together: read down the table, the "origem" column is the
    name of each surviving sheet repeated once per row of that sheet; and in
    every row "mes_ano" holds the same sheet name as "origem". *)
Theorem X4_rows_in_sheet_order :
  forall to_datetime xl df,
    processar_extratos_bi to_datetime xl = Ok df ->
    map (fun l => obter "origem" (campos l)) (tab_linhas df)
    = flat_map (fun a => repeat (Texto (nome a))
                           (linhas_contribuidas to_datetime a)) (abas xl)
    /\ forall l, In l (tab_linhas df) ->
                 obter "mes_ano" (campos l) = obter "origem" (campos l).
Proof.
  intros to_datetime xl df Hp.
  destruct (processar_ok to_datetime xl df Hp) as (_ & _ & _ & _ & Hm).
  split.
  - rewrite <- (map_map campos (obter "origem")).
    rewrite (mapear_campos _ _ Hm). apply origens_dos_dados.
  - intros l Hl. destruct (mapear_In derivar _ _ l Hm Hl) as (r & Hr & Hd).
    destruct (derivar_campos r l Hd) as (-> & _).
    destruct (registros_dos_dados to_datetime _ r Hr) as (a & q & _ & Hn & Hq).
    rewrite (normalizar_aba_mes_ano to_datetime a q r Hn Hq).
    rewrite (normalizar_aba_origem to_datetime a q r Hn Hq). reflexivity.
Qed.

Lemma X4_rows_in_sheet_order_witness :
  map (fun l => obter "origem" (campos l)) (tab_linhas tabela_jan)
  = flat_map (fun a => repeat (Texto (nome a))
                         (linhas_contribuidas so_datas a)) (abas [aba_jan])
  /\ forall l, In l (tab_linhas tabela_jan) ->
               obter "mes_ano" (campos l) = obter "origem" (campos l).
Proof.
  apply (X4_rows_in_sheet_order so_datas [aba_jan] tabela_jan).
  vm_compute. reflexivity.
Defined.

(** X5: after processing, the "data" cell of every row is a date or empty,
    never a text or a number, and the row's month, year and period are those
    of that date (none of them when the date is missing). *)
Theorem X5_dates_and_periods :
  forall to_datetime xl df l,
    processar_extratos_bi to_datetime xl = Ok df ->
    In l (tab_linhas df) ->
    obter "data" (campos l) = celula_de_data (data l)
    /\ mes l = option_map dh_mes (data l)
    /\ ano l = option_map dh_ano (data l)
    /\ mes_ano_period l
       = option_map (fun d => (dh_ano d, dh_mes d)) (data l).
Proof.
  intros to_datetime xl df l Hp Hl.
  destruct (processar_ok to_datetime xl df Hp) as (_ & _ & _ & _ & Hm).
  destruct (mapear_In derivar _ _ l Hm Hl) as (r & Hr & Hd).
  destruct (derivar_campos r l Hd) as (Hc & Hdt & H3 & H4 & H5).
  split; [|auto].
  destruct (registros_dos_dados to_datetime _ r Hr) as (a & q & _ & Hn & Hq).
  destruct (normalizar_aba_data to_datetime a q r Hn Hq) as (d & Hcel).
  rewrite Hc, Hdt, Hcel. destruct d; reflexivity.
Qed.

Lemma X5_dates_and_periods_witness :
  obter "data" (campos linha_jan_1) = celula_de_data (data linha_jan_1)
  /\ mes linha_jan_1 = option_map dh_mes (data linha_jan_1)
  /\ ano linha_jan_1 = option_map dh_ano (data linha_jan_1)
  /\ mes_ano_period linha_jan_1
     = option_map (fun d => (dh_ano d, dh_mes d)) (data linha_jan_1).
Proof.
  apply (X5_dates_and_periods so_datas [aba_jan] tabela_jan linha_jan_1).
  - vm_compute. reflexivity.
  - simpl. left. reflexivity.
Defined.

(** ** Column resolution and skipped sheets *)

Lemma In_renomear (velho novo : string) (cols : list string) :
  In velho cols -> In novo (renomear velho novo cols).
Proof.
  intros H. unfold renomear. apply in_map_iff. exists velho.
  rewrite String.eqb_refl. auto.
Qed.

Lemma count_occ_renomear (velho novo x : string) (cols : list string) :
  velho <> x -> novo <> x ->
  count_occ string_dec (renomear velho novo cols) x
  = count_occ string_dec cols x.
Proof.
  intros Hv Hn. induction cols as [|c cols IH]; simpl; [reflexivity|].
  destruct (String.eqb c velho) eqn:He.
  - apply String.eqb_eq in He. subst c.
    destruct (string_dec novo x); [contradiction|].
    destruct (string_dec velho x); [contradiction|]. exact IH.
  - destruct (string_dec c x); rewrite IH; reflexivity.
Qed.

(** The resolution yields a "valor" column exactly when some column name
    contains "valor". *)
Lemma resolver_valor_tem_valor (cols : list string) :
  tem_coluna "valor" (resolver_valor cols) = true <->
  exists c, In c cols /\ contem "valor" (lower c) = true.
Proof.
  split.
  - unfold resolver_valor.
    destruct (tem_coluna "valor (r$)" cols) eqn:H1.
    + intros _. exists "valor (r$)". split; [|reflexivity].
      apply tem_coluna_In. exact H1.
    + destruct (tem_coluna "valor" cols) eqn:H2; simpl.
      * intros _. exists "valor". split; [|reflexivity].
        apply tem_coluna_In. exact H2.
      * destruct (find (fun col => contem "valor" (lower col)) cols)
          as [col|] eqn:Hf.
        -- intros _. apply find_some in Hf. exists col. exact Hf.
        -- congruence.
  - intros (c & Hc & Hv).
    destruct (tem_coluna "valor" (resolver_valor cols)) eqn:Hr;
      [reflexivity|].
    destruct (resolver_valor_sem_valor cols Hr) as (_ & Hnone).
    rewrite (Hnone c Hc) in Hv. discriminate.
Qed.

Lemma resolver_valor_data (cols : list string) :
  count_occ string_dec (resolver_valor cols) "data"
  = count_occ string_dec cols "data".
Proof.
  unfold resolver_valor.
  destruct (tem_coluna "valor (r$)" cols);
    [apply count_occ_renomear; discriminate|].
  destruct (negb (tem_coluna "valor" cols)); [|reflexivity].
  destruct (find (fun col => contem "valor" (lower col)) cols) as [col|] eqn:Hf;
    [|reflexivity].
  apply find_some in Hf. destruct Hf as [_ Hv].
  apply count_occ_renomear; [|discriminate].
  intros ->. vm_compute in Hv. discriminate.
Qed.

(** X6: a sheet that is kept has a "valor" column exactly when one of its
    normalised column names contains "valor". *)
Theorem X6_value_column_resolved :
  forall to_datetime a cols q,
    mapear normalizar_coluna (cabecalho a) = Ok cols ->
    normalizar_aba to_datetime a = Ok q ->
    (tem_coluna "valor" (colunas q) = true <->
     exists c, In c cols /\ contem "valor" (lower c) = true)
    /\ List.length (resolver_valor cols) = List.length cols.
Proof.
  intros to_datetime a cols q Hcols Hq.
  split; [|apply resolver_valor_length].
  rewrite <- resolver_valor_tem_valor.
  unfold normalizar_aba in Hq. rewrite Hcols in Hq. cbn [ligar] in Hq.
  destruct (converter_data_ok to_datetime _ _ Hq) as (_ & ds & _ & _ & ->).
  rewrite tem_coluna_definir_coluna by discriminate.
  destruct (colunas_quadro_identificado a cols "valor") as [-> _];
    try discriminate.
  reflexivity.
Qed.

Lemma X6_value_column_resolved_witness :
  (tem_coluna "valor" (colunas quadro_jan) = true <->
   exists c,
     In c ["data"; "tipo"; "valor (r$)"; "destinatário/pagador"]
     /\ contem "valor" (lower c) = true)
  /\ List.length
       (resolver_valor ["data"; "tipo"; "valor (r$)"; "destinatário/pagador"])
     = List.length ["data"; "tipo"; "valor (r$)"; "destinatário/pagador"].
Proof.
  apply (X6_value_column_resolved so_datas aba_jan
           ["data"; "tipo"; "valor (r$)"; "destinatário/pagador"] quadro_jan).
  - vm_compute. reflexivity.
  - vm_compute. reflexivity.
Defined.

Lemma mapear_normalizar_coluna_erro (l : list celula) :
  (exists c, In c l /\ forall s, c <> Texto s) ->
  mapear normalizar_coluna l = Erro AttributeError.
Proof.
  induction l as [|x r IH]; intros (c & Hc & Hn); [contradiction|].
  simpl. destruct x as [s| | |]; simpl; try reflexivity.
  destruct Hc as [<-|Hc]; [exfalso; apply (Hn s); reflexivity|].
  rewrite IH; [reflexivity|]. exists c. auto.
Qed.

Section Avisos_props.
Variable to_datetime : list celula -> resultado (list (option datahora)).

Lemma In_avisos (xl : list aba) (a : aba) (e : erro) :
  In a (abas xl) ->
  normalizar_aba to_datetime a = Erro e ->
  In (nome a, e) (avisos to_datetime xl).
Proof.
  intros Ha He. unfold avisos. rewrite percorrer_abas_tentativas. simpl.
  apply in_flat_map. exists (tentativa to_datetime a).
  split; [apply in_map; exact Ha|].
  unfold aviso_de, tentativa. simpl. rewrite He. left. reflexivity.
Qed.
End Avisos_props.

(** X7: what makes the loader skip a sheet, and with which exception: a
    header cell that is not a text (no [lower]), no "data" column (key
    error), or a date conversion that raises (its own exception).  Every
    sheet skipped this way is reported with its name and that exception. *)
Theorem X7_skip_reasons :
  forall to_datetime a,
    ((exists c, In c (cabecalho a) /\ forall s, c <> Texto s) ->
     normalizar_aba to_datetime a = Erro AttributeError)
    /\ (forall cols,
           mapear normalizar_coluna (cabecalho a) = Ok cols ->
           (count_occ string_dec cols "data" = 0%nat ->
            normalizar_aba to_datetime a = Erro (KeyError "data"))
           /\ (forall e,
                  count_occ string_dec cols "data" = 1%nat ->
                  to_datetime (coluna "data" (quadro_identificado a cols))
                  = Erro e ->
                  normalizar_aba to_datetime a = Erro e))
    /\ (forall xl e,
           In a xl -> nome a <> "Planilha2" ->
           normalizar_aba to_datetime a = Erro e ->
           In (nome a, e) (avisos to_datetime xl)).
Proof.
  intros to_datetime a. split; [|split].
  - intros H. unfold normalizar_aba.
    rewrite (mapear_normalizar_coluna_erro _ H). reflexivity.
  - intros cols Hcols.
    assert (Hn : normalizar_aba to_datetime a
                 = converter_data to_datetime (quadro_identificado a cols)).
    { unfold normalizar_aba. rewrite Hcols. reflexivity. }
    destruct (colunas_quadro_identificado a cols "data") as [_ Hcount];
      try discriminate.
    rewrite resolver_valor_data in Hcount.
    rewrite Hn. unfold converter_data. rewrite Hcount.
    split.
    + intros ->. reflexivity.
    + intros e -> ->. reflexivity.
  - intros xl e Ha Hn He. apply In_avisos; [|exact He].
    apply In_abas. auto.
Qed.









(** ** The chart report *)

Lemma datas_vazio (df : list transacao) :
  datas df <> [] <-> exists t : transacao, In t df /\ data t <> None.
Proof.
  unfold datas. split.
  - intros H.
    destruct (flat_map _ df) as [|d ds] eqn:Hf; [congruence|].
    assert (Hd : In d (d :: ds)) by (left; reflexivity).
    rewrite <- Hf in Hd. apply in_flat_map in Hd.
    destruct Hd as (t & Ht & Hdt). exists t. split; [exact Ht|].
    destruct (data t); [discriminate | contradiction].
  - intros (t & Ht & Hdt) H.
    destruct (data t) as [d|] eqn:Hd; [|congruence].
    assert (Hin : In d (flat_map
                          (fun t0 : transacao =>
                             match data t0 with Some d0 => [d0] | None => [] end)
                          df)).
    { apply in_flat_map. exists t. split; [exact Ht|].
      rewrite Hd. left. reflexivity. }
    rewrite H in Hin. contradiction.
Qed.

Section Agrupamento_vazio.
Context {A K : Type}.
Variable eqb : K -> K -> bool.
Variable leb : K -> K -> bool.
Hypothesis eqb_eq : forall a b, eqb a b = true <-> a = b.

(** A grouped series is empty exactly when no row has a key. *)
Lemma groupby_sum_vazio (chave : A -> option K) (val : A -> numero)
  (l : list A) :
  groupby_sum eqb leb chave val l <> [] <->
  exists r k, In r l /\ chave r = Some k.
Proof.
  unfold groupby_sum. split.
  - intros H.
    destruct (chaves_unicas eqb leb (presentes chave l)) as [|k ks] eqn:Hk;
      [simpl in H; congruence|].
    assert (Hin : In k (k :: ks)) by (left; reflexivity).
    rewrite <- Hk in Hin.
    apply (proj1 (In_chaves_unicas eqb leb eqb_eq _ _)) in Hin.
    apply In_presentes in Hin. destruct Hin as (t & Ht & Hd).
    exists t, k. auto.
  - intros (t & k & Ht & Hk) H.
    assert (Hin : In k (chaves_unicas eqb leb (presentes chave l))).
    { apply (In_chaves_unicas eqb leb eqb_eq).
      apply In_presentes. exists t. auto. }
    destruct (chaves_unicas eqb leb (presentes chave l)); [contradiction|].
    simpl in H. discriminate.
Qed.
End Agrupamento_vazio.

Lemma por_destinatario_vazio (l : list transacao) :
  por_destinatario l <> [] <->
  exists t, In t l /\ destinatario_pagador t <> None.
Proof.
  unfold por_destinatario.
  rewrite (groupby_sum_vazio String.eqb String.leb String.eqb_eq). split.
  - intros (t & k & Ht & Hk). exists t. split; [exact Ht | congruence].
  - intros (t & Ht & Hd). destruct (destinatario_pagador t) as [k|] eqn:Hk;
      [|congruence].
    exists t, k. auto.
Qed.

Lemma nlargest_vazio {K : Type} (desempate : criterio) (n : nat)
  (s : list (K * Z)) :
  (0 < n)%nat -> nlargest desempate n s = [] -> s = [].
Proof.
  intros Hn H.
  destruct (nlargest_ordenada desempate n s) as (o & Ho & Hp & _).
  rewrite H in Ho. apply Permutation_nil.
  destruct o as [|x r]; [exact Hp|].
  destruct n; [lia | discriminate].
Qed.

Lemma primeiro_ok {K : Type} (s : list (K * Z)) :
  s <> [] -> exists x, primeiro s = Ok x.
Proof.
  destruct s as [|x r]; [congruence|]. intros _. exists x. reflexivity.
Qed.

Lemma gastos_por_categoria_vazio (desempate : criterio)
  (df : list transacao) :
  gastos df <> [] -> gastos_por_categoria desempate df <> [].
Proof.
  intros Hg H. unfold gastos_por_categoria, sort_values_desc in H.
  assert (Hp := Permutation_quicksort_desc desempate snd
                  (groupby_sum String.eqb String.leb chave_categoria absoluto
                     (gastos df))).
  rewrite H in Hp. apply Permutation_nil in Hp. revert Hp.
  apply (groupby_sum_vazio String.eqb String.leb String.eqb_eq).
  destruct (gastos df) as [|t r]; [congruence|].
  exists t, (categoria t). split; [left; reflexivity | reflexivity].
Qed.

(** X10: the chart report is produced exactly when the table has a row with
    a date, an Expense row with a payee and an Income row with a payee; in
    every other case it raises and writes nothing. *)
Theorem X10_report_needs_dated_expense_and_income :
  forall desempate df,
    (exists html, html_content desempate df = Ok html) <->
    (exists t : transacao, In t df /\ data t <> None)
    /\ (exists t, In t (gastos df) /\ destinatario_pagador t <> None)
    /\ (exists t, In t (receitas df) /\ destinatario_pagador t <> None).
Proof.
  intros desempate df.
  rewrite <- datas_vazio, <- !por_destinatario_vazio. split.
  - intros (html & H). unfold html_content in H.
    destruct (datas df) as [|d ds] eqn:Hd; [discriminate|].
    destruct (formatar (extremo datahora_leb (d :: ds))); [|discriminate].
    destruct (formatar (extremo (fun a b => datahora_leb b a) (d :: ds)));
      [|discriminate].
    cbn [ligar] in H. unfold principais_destinos, principais_fontes in H.
    split; [discriminate|]. split.
    + intros He. rewrite He in H. discriminate.
    + intros He. rewrite He in H.
      destruct (primeiro (nlargest desempate 15
                            (por_destinatario (gastos df))));
        discriminate.
  - intros (Hd & Hg & Hr). unfold html_content.
    destruct (extremo_algum datahora_leb (datas df) Hd) as (i & ->).
    destruct (extremo_algum (fun a b => datahora_leb b a) (datas df) Hd)
      as (f & ->).
    destruct (primeiro_ok (principais_destinos desempate df)) as (x & ->).
    { intros H. apply nlargest_vazio in H; [contradiction | lia]. }
    destruct (primeiro_ok (principais_fontes desempate df)) as (y & ->).
    { intros H. apply nlargest_vazio in H; [contradiction | lia]. }
    destruct (primeiro_ok (gastos_por_categoria desempate df)) as (z & ->).
    { apply gastos_por_categoria_vazio. intros H. rewrite H in Hg.
      apply Hg. reflexivity. }
    simpl. eauto.
Qed.

(** ** Totals and insights *)

Lemma classificar_outro_num (t : option string) (v : numero) :
  classificar_movimentacao t v = Outro -> num (abs v) = 0.
Proof.
  unfold classificar_movimentacao.
  destruct (contem "enviado" (lower (py_str t))); simpl; [discriminate|].
  destruct (contem "recebido" (lower (py_str t))); simpl.
  - rewrite andb_false_r. discriminate.
  - rewrite andb_true_r. destruct v as [z|]; simpl; [|reflexivity].
    destruct (Z.ltb_spec z 0); [discriminate|].
    destruct (Z.ltb_spec 0 z); [discriminate|]. intros _. lia.
Qed.

Lemma movimentacao_eqb_eq (a b : movimentacao) :
  movimentacao_eqb a b = true <-> a = b.
Proof. destruct a, b; simpl; split; congruence. Qed.

(** Every row is an Expense, an Income or an Other row. *)
Lemma particao_por_movimentacao (df : list transacao) :
  Permutation (gastos df ++ receitas df ++ outros df) df.
Proof.
  unfold gastos, receitas, outros, e_gasto, e_receita, e_outro.
  induction df as [|t r IH]; [reflexivity|].
  cbn [filter]. destruct (tipo_movimentacao t); cbn [movimentacao_eqb].
  - simpl. apply perm_skip. exact IH.
  - cbn [app]. rewrite <- Permutation_middle. apply perm_skip. exact IH.
  - rewrite app_assoc, <- Permutation_middle, <- app_assoc.
    apply perm_skip. exact IH.
Qed.

Section Tabela_categorizada.
Variable to_datetime : list celula -> resultado (list (option datahora)).

(** The rows the aggregates receive are the processed rows, in order, each
    with its payee and category. *)
Lemma linhas_categorizadas (xl : list aba) (df0 : tabela)
  (df : list transacao) (t : transacao) :
  processar_extratos_bi to_datetime xl = Ok df0 ->
  criar_categorias_automaticas df0 = Ok df ->
  In t df ->
  tipo_movimentacao t = classificar_movimentacao (tipo t) (valor t)
  /\ valor_absoluto t = abs (valor t).
Proof.
  intros Hp Hc Ht.
  destruct (criar_categorias_ok df0 df Hc) as (_ & Hm).
  destruct (mapear_In _ _ _ t Hm Ht) as (l & Hl & Hcat).
  destruct (categorizar_ok l t Hcat) as (-> & _).
  destruct (processar_ok to_datetime xl df0 Hp) as (_ & _ & _ & _ & Hd).
  destruct (mapear_In derivar _ _ l Hd Hl) as (r & _ & Hr).
  destruct (derivar_ok r l Hr) as (_ & _ & _ & H1 & H2). auto.
Qed.
End Tabela_categorizada.

(** X11: in the table the pipeline builds, no amount escapes both totals.
    The Expense rows, the Income rows and the Other rows partition the
    table; a row classified Other has a zero or missing value; hence every
    row with a non-zero amount is among the Expense rows or among the Income
    rows. *)
Theorem X11_totals_cover_every_amount :
  forall to_datetime xl df0 df,
    processar_extratos_bi to_datetime xl = Ok df0 ->
    criar_categorias_automaticas df0 = Ok df ->
    Permutation (gastos df ++ receitas df ++ outros df) df
    /\ (forall t : transacao,
           In t (outros df) ->
           (valor t = Num 0 \/ valor t = NaN)
           /\ valor_absoluto t = valor t)
    /\ (forall (t : transacao) (z : Z),
           In t df -> valor_absoluto t = Num z -> z <> 0 ->
           In t (gastos df) \/ In t (receitas df)).
Proof.
  intros to_datetime xl df0 df Hp Hc.
  assert (Ho : forall t : transacao,
             In t df -> e_outro t = true ->
             (valor t = Num 0 \/ valor t = NaN)
             /\ valor_absoluto t = valor t).
  { intros t Ht Ho.
    destruct (linhas_categorizadas to_datetime xl df0 df t Hp Hc Ht)
      as [Hm Ha].
    unfold e_outro in Ho. apply movimentacao_eqb_eq in Ho. rewrite Hm in Ho.
    assert (Hn := classificar_outro_num _ _ Ho). rewrite Ha.
    destruct (valor t) as [z|]; simpl in *; [|auto].
    assert (z = 0) by lia. subst z. auto. }
  split; [apply particao_por_movimentacao|]. split.
  - intros t Ht. unfold outros in Ht. apply filter_In in Ht.
    destruct Ht as [Ht He]. apply (Ho t Ht He).
  - intros t z Ht Hz Hnz.
    unfold gastos, receitas. rewrite !filter_In.
    unfold e_gasto, e_receita.
    destruct (tipo_movimentacao t) eqn:Hm; simpl; auto.
    exfalso. destruct (Ho t Ht) as [[Hv|Hv] Ha].
    + unfold e_outro. rewrite Hm. reflexivity.
    + rewrite Hv in Ha. rewrite Ha in Hz. inversion Hz. lia.
    + rewrite Hv in Ha. rewrite Ha in Hz. discriminate Hz.
Qed.

Lemma X11_totals_cover_every_amount_witness :
  Permutation (gastos df_jan ++ receitas df_jan ++ outros df_jan) df_jan
  /\ (forall t : transacao,
         In t (outros df_jan) ->
         (valor t = Num 0 \/ valor t = NaN)
         /\ valor_absoluto t = valor t)
  /\ (forall (t : transacao) (z : Z),
         In t df_jan -> valor_absoluto t = Num z -> z <> 0 ->
         In t (gastos df_jan) \/ In t (receitas df_jan)).
Proof.
  apply (X11_totals_cover_every_amount so_datas [aba_jan] tabela_jan df_jan).
  - vm_compute. reflexivity.
  - vm_compute. reflexivity.
Defined.

Lemma primeiro_ordenado {K : Type} (n : nat) (s o : list (K * Z))
  (x : K * Z) :
  (0 < n)%nat ->
  Permutation o s -> decrescente snd o ->
  primeiro (firstn n o) = Ok x ->
  In x s /\ forall y, In y s -> snd y <= snd x.
Proof.
  intros Hn Hp Hs H.
  destruct o as [|h r]; destruct n as [|n]; try lia;
    simpl in H; try discriminate.
  inversion H; subst h. split.
  - apply (Permutation_in _ Hp). left. reflexivity.
  - intros y Hy. apply (Permutation_in _ (Permutation_sym Hp)) in Hy.
    destruct Hy as [<-|Hy]; [lia|].
    unfold decrescente in Hs. inversion Hs as [|z l _ Hf]; subst.
    rewrite Forall_forall in Hf. apply Hf. exact Hy.
Qed.

Lemma primeiro_nlargest {K : Type} (desempate : criterio) (n : nat)
  (s : list (K * Z)) (x : K * Z) :
  (0 < n)%nat ->
  primeiro (nlargest desempate n s) = Ok x ->
  In x s /\ forall y, In y s -> snd y <= snd x.
Proof.
  intros Hn H.
  destruct (nlargest_ordenada desempate n s) as (o & Ho & Hp & Hs).
  rewrite Ho in H. apply (primeiro_ordenado n s o x Hn Hp Hs H).
Qed.

Lemma html_content_ok (desempate : criterio) (df : list transacao)
  (html : pagina) :
  html_content desempate df = Ok html ->
  primeiro (principais_destinos desempate df)
  = Ok (pg_maior_destinatario html)
  /\ primeiro (principais_fontes desempate df) = Ok (pg_principal_fonte html)
  /\ primeiro (gastos_por_categoria desempate df)
     = Ok (pg_categoria_maior_gasto html)
  /\ pg_total_gastos html = total_gastos df
  /\ pg_total_receitas html = total_receitas df
  /\ pg_saldo html = saldo df.
Proof.
  unfold html_content.
  destruct (formatar (extremo datahora_leb (datas df))); [|discriminate].
  destruct (formatar (extremo (fun a b => datahora_leb b a) (datas df)));
    [|discriminate].
  destruct (primeiro (principais_destinos desempate df)); [|discriminate].
  destruct (primeiro (principais_fontes desempate df)); [|discriminate].
  destruct (primeiro (gastos_por_categoria desempate df)); [|discriminate].
  cbn [ligar]. intros H. inversion H; subst; simpl. repeat split.
Qed.

(** X12: the three headline insights of the page name maxima over the whole
    table, not only over what the charts show: the payee with the largest
    Expense total of all payees, the payer with the largest Income total of
    all payers, and the category with the largest Expense total. *)
Theorem X12_insights_are_maxima :
  forall desempate df html,
    html_content desempate df = Ok html ->
    (In (pg_maior_destinatario html) (por_destinatario (gastos df))
     /\ forall y, In y (por_destinatario (gastos df)) ->
                  snd y <= snd (pg_maior_destinatario html))
    /\ (In (pg_principal_fonte html) (por_destinatario (receitas df))
        /\ forall y, In y (por_destinatario (receitas df)) ->
                     snd y <= snd (pg_principal_fonte html))
    /\ (In (pg_categoria_maior_gasto html)
          (groupby_sum String.eqb String.leb chave_categoria absoluto
             (gastos df))
        /\ forall y,
            In y (groupby_sum String.eqb String.leb chave_categoria absoluto
                    (gastos df)) ->
            snd y <= snd (pg_categoria_maior_gasto html)).
Proof.
  intros desempate df html H.
  destruct (html_content_ok desempate df html H) as (H1 & H2 & H3 & _).
  split; [|split].
  - apply (primeiro_nlargest desempate 15); [lia | exact H1].
  - apply (primeiro_nlargest desempate 15); [lia | exact H2].
  - unfold gastos_por_categoria, sort_values_desc in H3.
    set (s := groupby_sum String.eqb String.leb chave_categoria absoluto
                (gastos df)) in *.
    apply (primeiro_ordenado (S (List.length (quicksort_desc desempate snd s)))
             s (quicksort_desc desempate snd s)); [lia | | |].
    + apply Permutation_quicksort_desc.
    + apply decrescente_quicksort_desc.
    + rewrite firstn_all2 by lia. exact H3.
Qed.

Lemma X12_insights_are_maxima_witness :
  (In (pg_maior_destinatario pagina_jan) (por_destinatario (gastos df_jan))
   /\ forall y, In y (por_destinatario (gastos df_jan)) ->
                snd y <= snd (pg_maior_destinatario pagina_jan))
  /\ (In (pg_principal_fonte pagina_jan) (por_destinatario (receitas df_jan))
      /\ forall y, In y (por_destinatario (receitas df_jan)) ->
                   snd y <= snd (pg_principal_fonte pagina_jan))
  /\ (In (pg_categoria_maior_gasto pagina_jan)
        (groupby_sum String.eqb String.leb chave_categoria absoluto
           (gastos df_jan))
      /\ forall y,
          In y (groupby_sum String.eqb String.leb chave_categoria absoluto
                  (gastos df_jan)) ->
          snd y <= snd (pg_categoria_maior_gasto pagina_jan)).
Proof.
  apply (X12_insights_are_maxima estavel df_jan pagina_jan).
  vm_compute. reflexivity.
Defined.

(** Two descending arrangements of the same numbers are the same list. *)
Lemma ordenadas_iguais (l1 : list Z) :
  forall l2,
    StronglySorted (fun a b => b <= a) l1 ->
    StronglySorted (fun a b => b <= a) l2 ->
    Permutation l1 l2 -> l1 = l2.
Proof.
  induction l1 as [|x r IH]; intros l2 H1 H2 Hp.
  - apply Permutation_nil in Hp. subst. reflexivity.
  - destruct l2 as [|y r2];
      [apply Permutation_sym, Permutation_nil in Hp; discriminate|].
    inversion H1 as [|? ? Hs1 Hf1]; subst.
    inversion H2 as [|? ? Hs2 Hf2]; subst.
    rewrite Forall_forall in Hf1, Hf2.
    assert (Hxy : x = y).
    { assert (Hy : In y (x :: r))
        by (apply (Permutation_in _ (Permutation_sym Hp)); left; reflexivity).
      assert (Hx : In x (y :: r2))
        by (apply (Permutation_in _ Hp); left; reflexivity).
      destruct Hy as [Hy|Hy]; [congruence|].
      destruct Hx as [Hx|Hx]; [congruence|].
      apply Hf1 in Hy. apply Hf2 in Hx. lia. }
    subst y. f_equal. apply IH; [assumption | assumption |].
    apply (Permutation_cons_inv Hp).
Qed.

Lemma decrescente_somas {K : Type} (o : list (K * Z)) :
  decrescente snd o -> StronglySorted (fun a b => b <= a) (map snd o).
Proof.
  unfold decrescente. induction 1 as [|x r Hs IH Hf]; simpl; constructor.
  - exact IH.
  - rewrite Forall_forall in *. intros y Hy. apply in_map_iff in Hy.
    destruct Hy as (z & <- & Hz). apply (Hf z Hz).
Qed.

(** The sums of a top list do not depend on how equal sums are ordered: they
    are the first [n] of the sums in descending order. *)
Lemma somas_nlargest {K : Type} (desempate : criterio) (n : nat)
  (s : list (K * Z)) :
  map snd (nlargest desempate n s)
  = firstn n (map snd (ordenar_desc snd s)).
Proof.
  destruct (nlargest_ordenada desempate n s) as (o & -> & Hp & Hs).
  rewrite <- firstn_map. f_equal.
  apply ordenadas_iguais.
  - apply decrescente_somas. exact Hs.
  - apply decrescente_somas, decrescente_ordenar_desc.
  - apply Permutation_map. rewrite Hp. symmetry.
    apply Permutation_ordenar_desc.
Qed.

Lemma nlargest_15_50 {K : Type} (desempate : criterio) (s : list (K * Z)) :
  map snd (nlargest desempate 15 s)
  = firstn 15 (map snd (nlargest desempate 50 s))
  /\ ((List.length s <= 15)%nat \/ (50 < List.length s)%nat ->
      nlargest desempate 15 s = firstn 15 (nlargest desempate 50 s)).
Proof.
  split.
  - rewrite !somas_nlargest, firstn_firstn. reflexivity.
  - unfold nlargest, head. intros [H|H].
    + destruct (Nat.leb_spec (List.length s) 15) as [_|Hc]; [|lia].
      destruct (Nat.leb_spec (List.length s) 50) as [_|Hc]; [|lia].
      rewrite firstn_firstn. reflexivity.
    + destruct (Nat.leb_spec (List.length s) 15) as [Hc|_]; [lia|].
      destruct (Nat.leb_spec (List.length s) 50) as [Hc|_]; [lia|].
      rewrite firstn_firstn. reflexivity.
Qed.

(** X13: the chart report and the workbook agree on the payees up to the
    order of equal sums: the sums of the chart's top payees (payers) are the
    first fifteen sums of the workbook's payee (payer) sheet.  The chart's
    list is the first fifteen rows of the sheet when there are at most 15 or
    more than 50 payees (payers); in between the chart's list comes from the
    stable selection and the sheet from the library's default sort, and
    payees of equal sum may stand in another order. *)
Theorem X13_chart_top_is_prefix_of_sheet :
  forall desempate df,
    map snd (principais_destinos desempate df)
    = firstn 15 (map snd (destinatarios desempate df))
    /\ map snd (principais_fontes desempate df)
       = firstn 15 (map snd (fontes desempate df))
    /\ ((List.length (por_destinatario (gastos df)) <= 15)%nat
        \/ (50 < List.length (por_destinatario (gastos df)))%nat ->
        principais_destinos desempate df
        = firstn 15 (destinatarios desempate df))
    /\ ((List.length (por_destinatario (receitas df)) <= 15)%nat
        \/ (50 < List.length (por_destinatario (receitas df)))%nat ->
        principais_fontes desempate df = firstn 15 (fontes desempate df)).
Proof.
  intros desempate df.
  unfold principais_destinos, principais_fontes, destinatarios, fontes.
  destruct (nlargest_15_50 desempate (por_destinatario (gastos df)))
    as [H1 H2].
  destruct (nlargest_15_50 desempate (por_destinatario (receitas df)))
    as [H3 H4].
  auto.
Qed.

(** ** Pivoted tables *)

Lemma filter_filter {A : Type} (f g : A -> bool) (l : list A) :
  filter f (filter g l) = filter (fun x => (g x && f x)%bool) l.
Proof.
  induction l as [|x r IH]; simpl; [reflexivity|].
  destruct (g x); simpl; [destruct (f x)|]; rewrite IH; reflexivity.
Qed.

Section Pivot_props.
Context {A I C : Type}.
Variable eqb_i : I -> I -> bool.
Variable leb_i : I -> I -> bool.
Variable eqb_c : C -> C -> bool.
Variable leb_c : C -> C -> bool.
Hypothesis eqb_i_eq : forall a b, eqb_i a b = true <-> a = b.
Hypothesis eqb_c_eq : forall a b, eqb_c a b = true <-> a = b.
Variable ki : A -> option I.
Variable kc : A -> option C.
Variable val : A -> numero.
Variable vazio : numero.

Lemma In_pares (l : list A) (i : I) (c : C) :
  In (i, c) (presentes (par ki kc) l) <->
  exists r, In r l /\ ki r = Some i /\ kc r = Some c.
Proof.
  rewrite In_presentes. unfold par. split.
  - intros (r & Hr & Hp). exists r. split; [exact Hr|].
    destruct (ki r), (kc r); inversion Hp; auto.
  - intros (r & Hr & H1 & H2). exists r. rewrite H1, H2. auto.
Qed.

(** The columns of the pivot are the column keys of the rows that have both
    keys, each once. *)
Lemma In_colunas_unstack (l : list A) (c : C) :
  In c (p_colunas (unstack eqb_i leb_i eqb_c leb_c ki kc val vazio l)) <->
  exists r i, In r l /\ ki r = Some i /\ kc r = Some c.
Proof.
  unfold unstack. cbn [p_colunas].
  rewrite (In_chaves_unicas eqb_c leb_c eqb_c_eq), in_map_iff. split.
  - intros ([i c'] & Hc & Hin). simpl in Hc. subst c'.
    apply In_pares in Hin. destruct Hin as (r & Hr & H1 & H2).
    exists r, i. auto.
  - intros (r & i & Hr & H1 & H2). exists (i, c). split; [reflexivity|].
    apply In_pares. exists r. auto.
Qed.

Lemma NoDup_colunas_unstack (l : list A) :
  NoDup (p_colunas (unstack eqb_i leb_i eqb_c leb_c ki kc val vazio l)).
Proof.
  unfold unstack. cbn [p_colunas]. apply NoDup_chaves_unicas. exact eqb_c_eq.
Qed.

Lemma linhas_unstack (l : list A) :
  p_linhas (unstack eqb_i leb_i eqb_c leb_c ki kc val vazio l)
  = map (fun i =>
           (i, map (fun c => (c, celula_pivot eqb_i eqb_c ki kc val vazio l i c))
                 (p_colunas
                    (unstack eqb_i leb_i eqb_c leb_c ki kc val vazio l))))
      (chaves_unicas eqb_i leb_i (map fst (presentes (par ki kc) l))).
Proof. reflexivity. Qed.

Lemma tem_chave_par (i : I) (c : C) (r : A) :
  tem_chave (eqb_par eqb_i eqb_c) (par ki kc) (i, c) r
  = (tem_chave eqb_c kc c r && tem_chave eqb_i ki i r)%bool.
Proof.
  unfold tem_chave, par, eqb_par.
  destruct (ki r), (kc r); simpl; try reflexivity.
  - apply andb_comm.
  - rewrite andb_false_r. reflexivity.
Qed.

(** The rows of the pivot are the index keys of the rows that have both
    keys, each once. *)
Lemma In_indice_unstack (l : list A) (i : I) :
  In i (map fst (p_linhas (unstack eqb_i leb_i eqb_c leb_c ki kc val vazio l)))
  <-> exists r c, In r l /\ ki r = Some i /\ kc r = Some c.
Proof.
  rewrite linhas_unstack, map_map. cbn [fst]. rewrite map_id.
  rewrite (In_chaves_unicas eqb_i leb_i eqb_i_eq), in_map_iff. split.
  - intros ([i' c] & Hi & Hin). simpl in Hi. subst i'.
    apply In_pares in Hin. destruct Hin as (r & Hr & H1 & H2).
    exists r, c. auto.
  - intros (r & c & Hr & H1 & H2). exists (i, c). split; [reflexivity|].
    apply In_pares. exists r. auto.
Qed.

Lemma NoDup_indice_unstack (l : list A) :
  NoDup (map fst
           (p_linhas (unstack eqb_i leb_i eqb_c leb_c ki kc val vazio l))).
Proof.
  rewrite linhas_unstack, map_map. cbn [fst]. rewrite map_id.
  apply NoDup_chaves_unicas. exact eqb_i_eq.
Qed.
End Pivot_props.

Lemma periodo_eqb_eq (a b : periodo) : periodo_eqb a b = true <-> a = b.
Proof.
  destruct a as [a1 a2], b as [b1 b2]. unfold periodo_eqb. simpl.
  rewrite andb_true_iff, !Z.eqb_eq. split.
  - intros [-> ->]. reflexivity.
  - intros H. inversion H. auto.
Qed.

Lemma chave_mensal_eqb_eq (a b : chave_mensal) :
  chave_mensal_eqb a b = true <-> a = b.
Proof.
  destruct a as [[a1 a2] a3], b as [[b1 b2] b3]. unfold chave_mensal_eqb.
  simpl. rewrite !andb_true_iff, !Z.eqb_eq, periodo_eqb_eq. split.
  - intros [[-> ->] ->]. reflexivity.
  - intros H. inversion H. auto.
Qed.

Lemma celula_pivot_zero {A I C : Type} (eqb_i : I -> I -> bool)
  (eqb_c : C -> C -> bool) (ki : A -> option I) (kc : A -> option C)
  (val : A -> numero) (l : list A) (i : I) (c : C) :
  celula_pivot eqb_i eqb_c ki kc val (Num 0) l i c
  = Num (soma (map val (grupo (eqb_par eqb_i eqb_c) (par ki kc) (i, c) l))).
Proof.
  unfold celula_pivot.
  destruct (grupo (eqb_par eqb_i eqb_c) (par ki kc) (i, c) l); reflexivity.
Qed.

(** X14: the monthly series of the chart report has one row for each month
    in which some row of the table is dated, and in it the cell of a
    movement type is the sum of the absolute values of the rows of that
    month and type, 0 where there is none. *)
Theorem X14_monthly_series_cells :
  forall df m,
    In (nome_movimentacao m) (p_colunas (evolucao_mensal df)) ->
    NoDup (map fst (p_linhas (evolucao_mensal df)))
    /\ (forall p,
           In p (map fst (p_linhas (evolucao_mensal df)))
           <-> exists t : transacao, In t df /\ mes_ano_period t = Some p)
    /\ (forall p cels,
           In (p, cels) (p_linhas (evolucao_mensal df)) ->
           num_em (nome_movimentacao m) cels
           = Num (soma (map absoluto (filter (do_periodo p m) df)))).
Proof.
  intros df m Hm. unfold evolucao_mensal in *.
  assert (Hcel : forall p,
             celula_pivot periodo_eqb String.eqb chave_periodo
               chave_movimentacao absoluto (Num 0) df p (nome_movimentacao m)
             = Num (soma (map absoluto (filter (do_periodo p m) df)))).
  { intros p. rewrite celula_pivot_zero. unfold grupo.
    do 3 f_equal. apply filter_ext. intros t.
    rewrite tem_chave_par. unfold tem_chave, chave_movimentacao,
      chave_periodo, do_periodo.
    rewrite nome_movimentacao_eqb.
    destruct (mes_ano_period t); [apply andb_comm | apply andb_false_r]. }
  split; [|split].
  - apply NoDup_indice_unstack. exact periodo_eqb_eq.
  - intros p.
    rewrite (In_indice_unstack periodo_eqb periodo_leb String.eqb String.leb
               periodo_eqb_eq).
    unfold chave_periodo, chave_movimentacao. split.
    + intros (t & c & Ht & Hp & _). exists t. auto.
    + intros (t & Ht & Hp). exists t, (nome_movimentacao (tipo_movimentacao t)).
      auto.
  - rewrite linhas_unstack. intros p cels Hin. apply in_map_iff in Hin.
    destruct Hin as (i & Hi & _). inversion Hi; subst.
    rewrite (num_em_map _ _ _ Hm). apply Hcel.
Qed.

Lemma X14_monthly_series_cells_witness :
  NoDup (map fst (p_linhas (evolucao_mensal df_jan)))
  /\ (forall p,
         In p (map fst (p_linhas (evolucao_mensal df_jan)))
         <-> exists t : transacao, In t df_jan /\ mes_ano_period t = Some p)
  /\ (forall p cels,
         In (p, cels) (p_linhas (evolucao_mensal df_jan)) ->
         num_em (nome_movimentacao Gasto) cels
         = Num (soma (map absoluto (filter (do_periodo p Gasto) df_jan)))).
Proof.
  apply (X14_monthly_series_cells df_jan Gasto).
  vm_compute. left. reflexivity.
Defined.

Lemma NoDup_primeiros {A : Type} (n : nat) (l : list A) :
  NoDup l -> NoDup (firstn n l).
Proof.
  revert n. induction l as [|x r IH]; intros [|n] H; simpl; try constructor.
  - inversion H; subst. intros Hx. apply In_primeiros in Hx. contradiction.
  - inversion H; subst. apply IH. assumption.
Qed.

(** X15: the monthly-by-category matrix of the chart report has at most
    five columns, all of them among the top categories; the top categories
    are at most five distinct categories, and no category left out has a
    larger Expense total than one that is in. *)
Theorem X15_monthly_matrix_within_top_five :
  forall desempate df,
    (List.length (top_categorias desempate df) <= 5)%nat
    /\ NoDup (top_categorias desempate df)
    /\ incl (p_colunas (gastos_mensais_categoria desempate df))
         (top_categorias desempate df)
    /\ (List.length (p_colunas (gastos_mensais_categoria desempate df))
        <= 5)%nat
    /\ (forall c v c' v',
           In (c, v) (gastos_por_categoria desempate df) ->
           ~ In c (top_categorias desempate df) ->
           In (c', v') (head 5 (gastos_por_categoria desempate df)) ->
           v <= v').
Proof.
  intros desempate df.
  assert (Hlen : (List.length (top_categorias desempate df) <= 5)%nat).
  { unfold top_categorias, head. rewrite length_map. apply firstn_le_length. }
  assert (Hnd : NoDup (top_categorias desempate df)).
  { unfold top_categorias, head. rewrite <- firstn_map.
    apply NoDup_primeiros.
    unfold gastos_por_categoria, sort_values_desc.
    apply (Permutation_NoDup
             (Permutation_map fst
                (Permutation_sym
                   (Permutation_quicksort_desc desempate snd _)))).
    apply (NoDup_groupby_sum String.eqb String.leb String.eqb_eq). }
  assert (Hincl : incl (p_colunas (gastos_mensais_categoria desempate df))
                    (top_categorias desempate df)).
  { intros c Hc. unfold gastos_mensais_categoria in Hc.
    apply (In_colunas_unstack periodo_eqb periodo_leb String.eqb String.leb
             String.eqb_eq) in Hc.
    destruct Hc as (t & i & Ht & _ & Hk). apply filter_In in Ht.
    destruct Ht as [_ Htop]. unfold chave_categoria in Hk.
    inversion Hk; subst c. apply tem_coluna_In. exact Htop. }
  split; [exact Hlen|]. split; [exact Hnd|]. split; [exact Hincl|]. split.
  - apply Nat.le_trans with (List.length (top_categorias desempate df));
      [|exact Hlen].
    apply NoDup_incl_length; [|exact Hincl].
    unfold gastos_mensais_categoria.
    apply NoDup_colunas_unstack. exact String.eqb_eq.
  - intros c v c' v' Hin Hout Hin'. unfold head in Hin'.
    assert (Hs : decrescente snd (gastos_por_categoria desempate df))
      by apply decrescente_quicksort_desc.
    rewrite <- (firstn_skipn 5 (gastos_por_categoria desempate df))
      in Hin, Hs.
    apply in_app_or in Hin. destruct Hin as [Hin|Hin].
    + exfalso. apply Hout. unfold top_categorias, head.
      apply in_map_iff. exists (c, v). auto.
    + apply (decrescente_app snd _ _ Hs (c', v') (c, v) Hin' Hin).
Qed.

Lemma nome_movimentacao_saldo (m : movimentacao) :
  nome_movimentacao m <> "Saldo".
Proof. destruct m; discriminate. Qed.

(** X16: the monthly summary of the workbook has only the columns "Gasto",
    "Outro", "Receita" and "Saldo", and it has the "Saldo" column exactly
    when the table holds a dated Expense row and a dated Income row. *)
Theorem X16_saldo_column_present :
  forall df,
    incl (p_colunas (resumo_mensal df)) ["Gasto"; "Outro"; "Receita"; "Saldo"]
    /\ (In "Saldo" (p_colunas (resumo_mensal df)) <->
        (exists t : transacao,
            In t df /\ chave_resumo t <> None /\ tipo_movimentacao t = Gasto)
        /\ (exists t : transacao,
               In t df /\ chave_resumo t <> None
               /\ tipo_movimentacao t = Receita)).
Proof.
  intros df. unfold resumo_mensal.
  set (rm := unstack chave_mensal_eqb chave_mensal_leb String.eqb String.leb
               chave_resumo chave_movimentacao absoluto NaN df).
  assert (Hcol : forall c,
             In c (p_colunas rm) <->
             exists t : transacao,
               In t df /\ chave_resumo t <> None
               /\ nome_movimentacao (tipo_movimentacao t) = c).
  { intros c. unfold rm.
    rewrite (In_colunas_unstack chave_mensal_eqb chave_mensal_leb String.eqb
               String.leb String.eqb_eq).
    unfold chave_movimentacao. split.
    - intros (t & i & Ht & Hi & Hc). exists t. split; [exact Ht|].
      split; [congruence | inversion Hc; reflexivity].
    - intros (t & Ht & Hi & Hc).
      destruct (chave_resumo t) as [i|] eqn:Hk; [|congruence].
      exists t, i. subst c. auto. }
  assert (Hbase : incl (p_colunas rm) ["Gasto"; "Outro"; "Receita"]).
  { intros c Hc. apply Hcol in Hc. destruct Hc as (t & _ & _ & <-).
    destruct (tipo_movimentacao t); simpl; auto. }
  assert (Hns : ~ In "Saldo" (p_colunas rm)).
  { intros H. apply Hcol in H. destruct H as (t & _ & _ & H).
    apply (nome_movimentacao_saldo _ H). }
  assert (Hm : forall m,
             In (nome_movimentacao m) (p_colunas rm) <->
             exists t : transacao,
               In t df /\ chave_resumo t <> None /\ tipo_movimentacao t = m).
  { intros m. rewrite Hcol. split; intros (t & Ht & Hk & He);
      exists t; (split; [exact Ht|]); (split; [exact Hk|]).
    - destruct (tipo_movimentacao t), m; simpl in He;
        try reflexivity; discriminate.
    - rewrite He. reflexivity. }
  destruct (tem_coluna "Gasto" (p_colunas rm)) eqn:Hg;
    [destruct (tem_coluna "Receita" (p_colunas rm)) eqn:Hr|];
    cbn [andb]; unfold acrescentar_saldo; cbn [p_colunas].
  - apply tem_coluna_In in Hg, Hr.
    destruct (tem_coluna "Saldo" (p_colunas rm)) eqn:Hs;
      [apply tem_coluna_In in Hs; contradiction|].
    split.
    + intros c Hc. apply in_app_or in Hc. destruct Hc as [Hc|[<-|[]]].
      * apply Hbase in Hc. simpl in *. tauto.
      * simpl. tauto.
    + split.
      * intros _. split; [apply (Hm Gasto) | apply (Hm Receita)]; assumption.
      * intros _. apply in_or_app. right. left. reflexivity.
  - split.
    + intros c Hc. apply Hbase in Hc. simpl in *. tauto.
    + split; [contradiction|]. intros [_ H]. apply (Hm Receita) in H.
      apply tem_coluna_In in H. cbn [nome_movimentacao] in H. congruence.
  - split.
    + intros c Hc. apply Hbase in Hc. simpl in *. tauto.
    + split; [contradiction|]. intros [H _]. apply (Hm Gasto) in H.
      apply tem_coluna_In in H. cbn [nome_movimentacao] in H. congruence.
Qed.

(** ** The largest transactions *)

Lemma StronglySorted_juntar {A : Type} (R : A -> A -> Prop) (l1 l2 : list A) :
  StronglySorted R l1 -> StronglySorted R l2 ->
  (forall a b, In a l1 -> In b l2 -> R a b) ->
  StronglySorted R (l1 ++ l2).
Proof.
  induction l1 as [|x r IH]; simpl; intros H1 H2 H; [exact H2|].
  inversion H1 as [|z l Hs Hf]; subst. constructor.
  - apply IH; [exact Hs | exact H2|]. intros a b Ha Hb. apply H; auto.
  - apply Forall_app. split; [exact Hf|].
    rewrite Forall_forall. intros b Hb. apply H; auto.
Qed.

Lemma StronglySorted_separar {A : Type} (R : A -> A -> Prop)
  (l1 l2 : list A) :
  StronglySorted R (l1 ++ l2) ->
  forall a b, In a l1 -> In b l2 -> R a b.
Proof.
  induction l1 as [|x r IH]; simpl; intros H a b Ha Hb; [contradiction|].
  inversion H as [|z l Hs Hf]; subst. destruct Ha as [->|Ha].
  - rewrite Forall_forall in Hf. apply Hf, in_or_app. right. exact Hb.
  - apply IH; assumption.
Qed.

Lemma StronglySorted_primeiros {A : Type} (R : A -> A -> Prop) (n : nat)
  (l : list A) :
  StronglySorted R l -> StronglySorted R (firstn n l).
Proof.
  revert n. induction l as [|x r IH]; intros [|n] H; simpl; try constructor.
  - inversion H; subst. apply IH. assumption.
  - inversion H as [|z l Hs Hf]; subst.
    rewrite Forall_forall in *. intros y Hy. apply Hf.
    apply (In_primeiros _ _ _ Hy).
Qed.

Lemma Permutation_particao {A : Type} (f : A -> bool) (l : list A) :
  Permutation (filter f l ++ filter (fun x => negb (f x)) l) l.
Proof.
  induction l as [|x r IH]; simpl; [constructor|].
  destruct (f x); simpl.
  - constructor. exact IH.
  - apply Permutation_sym, Permutation_cons_app, Permutation_sym. exact IH.
Qed.

Lemma sem_numero_em_ordem (l : list transacao) :
  (forall b, In b l -> tem_numero b = false) -> StronglySorted antes l.
Proof.
  induction l as [|x r IH]; intros H; constructor.
  - apply IH. intros b Hb. apply H. right. exact Hb.
  - rewrite Forall_forall. intros y Hy. left. apply H. right. exact Hy.
Qed.

Lemma maiores_em_ordem (df o : list transacao) :
  Permutation o (filter tem_numero df) ->
  decrescente pontos_absoluto o ->
  StronglySorted antes (o ++ filter (fun t => negb (tem_numero t)) df).
Proof.
  intros Hp Hs.
  assert (Hnum : forall a, In a o -> tem_numero a = true).
  { intros a Ha. apply (Permutation_in _ Hp) in Ha.
    apply filter_In in Ha. apply Ha. }
  assert (Hsem : forall b,
             In b (filter (fun t => negb (tem_numero t)) df) ->
             tem_numero b = false).
  { intros b Hb. apply filter_In in Hb. destruct Hb as [_ Hb].
    apply negb_true_iff in Hb. exact Hb. }
  apply StronglySorted_juntar.
  - unfold decrescente in Hs. clear Hp.
    induction Hs as [|x r Hr IH Hf]; constructor.
    + apply IH. intros a Ha. apply Hnum. right. exact Ha.
    + rewrite Forall_forall in *. intros y Hy. right.
      split; [apply Hnum; left; reflexivity | apply Hf; exact Hy].
  - apply sem_numero_em_ordem. exact Hsem.
  - intros a b _ Hb. left. apply Hsem. exact Hb.
Qed.

(** Either way the largest transactions are the first fifty of the rows
    with an amount in descending order followed by the rows without one. *)
Lemma maiores_transacoes_ordenada (desempate : criterio)
  (df : list transacao) :
  exists o,
    maiores_transacoes desempate df
    = firstn 50 (o ++ filter (fun t => negb (tem_numero t)) df)
    /\ Permutation o (filter tem_numero df)
    /\ decrescente pontos_absoluto o.
Proof.
  unfold maiores_transacoes, head.
  destruct (List.length df <=? 50)%nat.
  - exists (quicksort_desc desempate pontos_absoluto (filter tem_numero df)).
    split; [reflexivity|].
    split; [apply Permutation_quicksort_desc|].
    apply decrescente_quicksort_desc.
  - exists (ordenar_desc pontos_absoluto (filter tem_numero df)).
    split; [reflexivity|].
    split; [apply Permutation_ordenar_desc | apply decrescente_ordenar_desc].
Qed.

(** X17: the "Top Transações" sheet holds at most fifty rows of the table,
    the rows with an amount first in descending order of the absolute value
    and the rows without an amount last; whatever is left out stands after
    everything kept in that order, and nothing is left out while there is
    room. *)
Theorem X17_largest_transactions :
  forall desempate df,
    (List.length (maiores_transacoes desempate df) <= 50)%nat
    /\ List.length (top_transacoes desempate df)
       = List.length (maiores_transacoes desempate df)
    /\ StronglySorted antes (maiores_transacoes desempate df)
    /\ exists resto,
        Permutation (maiores_transacoes desempate df ++ resto) df
        /\ ((List.length (maiores_transacoes desempate df) < 50)%nat ->
            resto = [])
        /\ forall a b,
            In a (maiores_transacoes desempate df) -> In b resto -> antes a b.
Proof.
  intros desempate df. unfold top_transacoes. rewrite length_map.
  destruct (maiores_transacoes_ordenada desempate df) as (o & -> & Hp & Ho).
  set (l := (o ++ filter (fun t => negb (tem_numero t)) df)%list).
  assert (Hs : StronglySorted antes l) by (apply maiores_em_ordem; assumption).
  assert (Hl : (firstn 50 l ++ skipn 50 l)%list = l) by apply firstn_skipn.
  split; [apply firstn_le_length|]. split; [reflexivity|].
  split; [apply StronglySorted_primeiros; exact Hs|].
  exists (skipn 50 l). split; [|split].
  - rewrite Hl. unfold l.
    rewrite (Permutation_app_tail _ Hp).
    apply Permutation_particao.
  - intros H. rewrite length_firstn in H. apply skipn_all2. lia.
  - apply StronglySorted_separar. rewrite Hl. exact Hs.
Qed.

(** ** The period shown on the page *)

Lemma datahora_leb_le (a b : datahora) :
  datahora_leb a b = true <->
  dh_ano a < dh_ano b
  \/ (dh_ano a = dh_ano b
      /\ (dh_mes a < dh_mes b
          \/ (dh_mes a = dh_mes b /\ dh_dia a <= dh_dia b))).
Proof.
  unfold datahora_leb, chave_mensal_leb, periodo_leb. cbn [fst snd].
  change (0 <=? 0) with true. rewrite andb_true_r.
  repeat rewrite ?orb_true_iff, ?andb_true_iff.
  rewrite !Z.ltb_lt, !Z.eqb_eq. lia.
Qed.

Section Extremo_props.
Variable melhor : datahora -> datahora -> bool.
Hypothesis melhor_refl : forall a, melhor a a = true.
Hypothesis melhor_trans :
  forall a b c, melhor a b = true -> melhor b c = true -> melhor a c = true.
Hypothesis melhor_total : forall a b, melhor a b = false -> melhor b a = true.

Lemma extremo_limite (l : list datahora) (e : datahora) :
  extremo melhor l = Some e ->
  In e l /\ forall d, In d l -> melhor e d = true.
Proof.
  revert e. induction l as [|x r IH]; simpl; intros e H; [discriminate|].
  destruct (extremo melhor r) as [e'|] eqn:He.
  - destruct (IH e' eq_refl) as [Hin Hall].
    destruct (melhor x e') eqn:Hm; inversion H; subst e.
    + split; [left; reflexivity|]. intros d [<-|Hd]; [apply melhor_refl|].
      apply (melhor_trans _ e'); [exact Hm | apply Hall; exact Hd].
    + split; [right; exact Hin|]. intros d [<-|Hd].
      * apply melhor_total. exact Hm.
      * apply Hall. exact Hd.
  - inversion H; subst e. destruct r as [|y r]; [|simpl in He].
    + split; [left; reflexivity|]. intros d [<-|[]]. apply melhor_refl.
    + destruct (extremo melhor r); discriminate.
Qed.
End Extremo_props.

Lemma html_content_periodo (desempate : criterio) (df : list transacao)
  (html : pagina) :
  html_content desempate df = Ok html ->
  extremo datahora_leb (datas df) = Some (pg_inicio html)
  /\ extremo (fun a b => datahora_leb b a) (datas df) = Some (pg_fim html).
Proof.
  unfold html_content.
  destruct (extremo datahora_leb (datas df)) as [i|]; [|discriminate].
  destruct (extremo (fun a b => datahora_leb b a) (datas df)) as [f|];
    [|discriminate].
  cbn [formatar ligar].
  destruct (primeiro (principais_destinos desempate df)); [|discriminate].
  destruct (primeiro (principais_fontes desempate df)); [|discriminate].
  destruct (primeiro (gastos_por_categoria desempate df)); [|discriminate].
  cbn [ligar]. intros H. inversion H; subst; simpl. auto.
Qed.

(** X18: the period in the page header runs from the earliest to the latest
    date of the table: both ends are dates of rows, and every dated row lies
    between them. *)
Theorem X18_header_period_spans_all_dates :
  forall desempate df html,
    html_content desempate df = Ok html ->
    In (pg_inicio html) (datas df)
    /\ In (pg_fim html) (datas df)
    /\ forall t d,
        In t df -> data t = Some d ->
        datahora_leb (pg_inicio html) d = true
        /\ datahora_leb d (pg_fim html) = true.
Proof.
  intros desempate df html H.
  destruct (html_content_periodo desempate df html H) as [Hi Hf].
  apply extremo_limite in Hi; [|intros; apply datahora_leb_le; lia
                                |intros a b c; rewrite !datahora_leb_le; lia
                                |].
  - apply extremo_limite in Hf; [|intros; apply datahora_leb_le; lia
                                  |intros a b c; rewrite !datahora_leb_le; lia
                                  |].
    + destruct Hi as [Hi1 Hi2], Hf as [Hf1 Hf2].
      split; [exact Hi1|]. split; [exact Hf1|].
      intros t d Ht Hd.
      assert (Hin : In d (datas df)).
      { unfold datas. apply in_flat_map. exists t. split; [exact Ht|].
        rewrite Hd. left. reflexivity. }
      split; [apply Hi2 | apply Hf2]; exact Hin.
    + intros a b Hab.
      destruct (datahora_leb a b) eqn:Hba; [reflexivity|].
      assert (Hn1 : ~ (datahora_leb b a = true)) by congruence.
      assert (Hn2 : ~ (datahora_leb a b = true)) by congruence.
      rewrite datahora_leb_le in Hn1, Hn2. lia.
  - intros a b Hab.
    destruct (datahora_leb b a) eqn:Hba; [reflexivity|].
    assert (Hn1 : ~ (datahora_leb b a = true)) by congruence.
    assert (Hn2 : ~ (datahora_leb a b = true)) by congruence.
    rewrite datahora_leb_le in Hn1, Hn2. lia.
Qed.

Lemma X18_header_period_spans_all_dates_witness :
  In (pg_inicio pagina_jan) (datas df_jan)
  /\ In (pg_fim pagina_jan) (datas df_jan)
  /\ forall t d,
      In t df_jan -> data t = Some d ->
      datahora_leb (pg_inicio pagina_jan) d = true
      /\ datahora_leb d (pg_fim pagina_jan) = true.
Proof.
  apply (X18_header_period_spans_all_dates estavel df_jan pagina_jan).
  vm_compute. reflexivity.
Defined.

(** ** Chart matrix and workbook pivot *)

Lemma filter_ext_em {A : Type} (f g : A -> bool) (l : list A) :
  (forall x, In x l -> f x = g x) -> filter f l = filter g l.
Proof.
  induction l as [|x r IH]; simpl; intros H; [reflexivity|].
  rewrite (H x (or_introl eq_refl)), IH; [reflexivity|].
  intros y Hy. apply H. right. exact Hy.
Qed.

(** X19: the monthly-by-category matrix of the chart report is the
    workbook's "Evolução Categorias" pivot cut down to the top categories:
    each of its columns and periods is a column and a period of the pivot,
    and in a period both list, the cells of a shared column are equal. *)
Theorem X19_chart_matrix_within_workbook_pivot :
  forall desempate df,
    incl (p_colunas (gastos_mensais_categoria desempate df))
      (p_colunas (evol_categoria df))
    /\ incl (map fst (p_linhas (gastos_mensais_categoria desempate df)))
         (map fst (p_linhas (evol_categoria df)))
    /\ (forall c p cels cels',
           In c (p_colunas (gastos_mensais_categoria desempate df)) ->
           In (p, cels) (p_linhas (gastos_mensais_categoria desempate df)) ->
           In (p, cels') (p_linhas (evol_categoria df)) ->
           num_em c cels = num_em c cels').
Proof.
  intros desempate df. unfold gastos_mensais_categoria, evol_categoria.
  set (topo := fun t : transacao =>
         tem_coluna (categoria t) (top_categorias desempate df)).
  set (G := gastos df).
  assert (Hcols : incl
            (p_colunas (unstack periodo_eqb periodo_leb String.eqb String.leb
                          chave_periodo chave_categoria absoluto (Num 0)
                          (filter topo G)))
            (p_colunas (unstack periodo_eqb periodo_leb String.eqb String.leb
                          chave_periodo chave_categoria absoluto (Num 0) G))).
  { intros c Hc.
    apply (In_colunas_unstack periodo_eqb periodo_leb String.eqb String.leb
             String.eqb_eq) in Hc.
    apply (In_colunas_unstack periodo_eqb periodo_leb String.eqb String.leb
             String.eqb_eq).
    destruct Hc as (t & i & Ht & H1 & H2). apply filter_In in Ht.
    exists t, i. tauto. }
  split; [exact Hcols|]. split.
  - intros p Hp. rewrite linhas_unstack, map_map in *. cbn [fst] in *.
    rewrite map_id in *.
    apply (proj1 (In_chaves_unicas periodo_eqb periodo_leb periodo_eqb_eq
                    _ _)) in Hp.
    apply (proj2 (In_chaves_unicas periodo_eqb periodo_leb periodo_eqb_eq
                    _ _)).
    apply in_map_iff in Hp. destruct Hp as ([i c] & Hi & Hin).
    cbn [fst] in Hi. subst i. apply In_pares in Hin.
    destruct Hin as (t & Ht & H1 & H2). apply filter_In in Ht.
    apply in_map_iff. exists (p, c). split; [reflexivity|].
    apply In_pares. exists t. tauto.
  - intros c p cels cels' Hc Hin Hin'.
    assert (Hc' := Hcols c Hc).
    rewrite linhas_unstack in Hin, Hin'.
    apply in_map_iff in Hin. destruct Hin as (i & Hi & _).
    apply in_map_iff in Hin'. destruct Hin' as (i' & Hi' & _).
    inversion Hi; subst i cels. inversion Hi'; subst i' cels'.
    rewrite (num_em_map _ _ _ Hc), (num_em_map _ _ _ Hc').
    rewrite !celula_pivot_zero. do 3 f_equal. unfold grupo.
    rewrite filter_filter. apply filter_ext_em. intros t _.
    unfold tem_chave, par, chave_categoria, chave_periodo, eqb_par.
    destruct (mes_ano_period t) as [q|]; [|apply andb_false_r].
    cbn [fst snd]. destruct (String.eqb (categoria t) c) eqn:He.
    + apply String.eqb_eq in He. unfold topo. rewrite He.
      assert (Htop : tem_coluna c (top_categorias desempate df) = true).
      { apply (In_colunas_unstack periodo_eqb periodo_leb String.eqb
                 String.leb String.eqb_eq) in Hc.
        destruct Hc as (t0 & i0 & Ht0 & _ & Hk). apply filter_In in Ht0.
        destruct Ht0 as [_ Ht0]. unfold chave_categoria in Hk.
        assert (Hk' : categoria t0 = c) by congruence.
        unfold topo in Ht0. rewrite Hk' in Ht0. exact Ht0. }
      rewrite Htop. reflexivity.
    + rewrite !andb_false_r. reflexivity.
Qed.

(** ** The substring test *)

Lemma prefixo_app (p s : string) :
  prefixo p s = true <-> exists b, s = (p ++ b)%string.
Proof.
  revert s. induction p as [|a p IH]; intros s; simpl.
  - split; [intros _; exists s; reflexivity | reflexivity].
  - destruct s as [|c s]; simpl.
    + split; [discriminate | intros (b & Hb); discriminate].
    + rewrite andb_true_iff, Ascii.eqb_eq, IH. split.
      * intros (-> & b & ->). exists b. reflexivity.
      * intros (b & Hb). inversion Hb; subst. split; [reflexivity|].
        exists b. reflexivity.
Qed.

(** [contem p s] holds exactly when [p] occurs in [s] as a block of
    consecutive characters, as Python's [p in s] does. *)
Lemma contem_app (p s : string) :
  contem p s = true <-> exists a b, s = (a ++ p ++ b)%string.
Proof.
  induction s as [|c s IH]; simpl.
  - rewrite prefixo_app. split.
    + intros (b & Hb). exists EmptyString, b. exact Hb.
    + intros (a & b & H). destruct a as [|x a]; simpl in H.
      * exists b. exact H.
      * discriminate.
  - rewrite orb_true_iff, IH.
    change (match p with
            | EmptyString => true
            | String a p' =>
                (Ascii.eqb a c && prefixo p' s)%bool
            end) with (prefixo p (String c s)).
    rewrite prefixo_app. split.
    + intros [(b & Hb)|(a & b & Hab)].
      * exists EmptyString, b. exact Hb.
      * exists (String c a), b. simpl. rewrite Hab. reflexivity.
    + intros (a & b & H). destruct a as [|x a]; simpl in H.
      * left. exists b. exact H.
      * right. inversion H; subst. exists a, b. reflexivity.
Qed.
